(** * Excel AI Engine: the data operations dispatch layer

    A shallow embedding of [excel_ai_engine_gemini.py]: the class
    [DataOperationsEngine] (basic_math, aggregations, join_dataframes,
    pivot_table, unpivot_table, date_operations, filter_data) and the
    [/upload] endpoint.

    The engine's methods are thin calls into pandas.  The part of pandas
    they reach is modelled below on tables whose cells are 64-bit
    integers, 64-bit floats (NaN is the blank cell), text and date-times;
    Python's exceptions are an explicit error result.  Where the outcome
    belongs to pandas alone and is not pinned down here (operand types
    outside the numeric ones, parsers of strings) it is a Section
    variable, so the theorems hold whatever pandas does there. *)

From Stdlib Require Import ZArith List String Ascii Bool Lia Permutation.
From Stdlib Require Import DecimalString Finite.
From Stdlib Require Import Floats Uint63.
Import ListNotations.

Open Scope string_scope.
Open Scope Z_scope.

(** ** Python exceptions and results *)

Inductive Exc : Type :=
| KeyError (key : string)
| TypeError (msg : string)
| ValueError (msg : string)
| OSError (msg : string)
| NameError (msg : string)
| IndexError (msg : string)
| HTTPException (status_code : Z) (detail : string).

Inductive Result (A : Type) : Type :=
| Ok (a : A)
| Raise (e : Exc).
Arguments Ok {A} a.
Arguments Raise {A} e.

Definition bind {A B : Type} (r : Result A) (k : A -> Result B) : Result B :=
  match r with
  | Ok a => k a
  | Raise e => Raise e
  end.

Notation "x <- r ;; k" := (bind r (fun x => k))
  (at level 61, r at next level, right associativity).

(** [try: body / except Exception as e: handler e]: every exception of
    the model derives from Python's [Exception]. *)
Definition try_except {A : Type} (body : Result A) (handler : Exc -> Result A)
  : Result A :=
  match body with
  | Ok a => Ok a
  | Raise e => handler e
  end.

Definition str_Z (z : Z) : string := NilZero.string_of_int (Z.to_int z).

(** The characters [repr] treats apart: the two quotes and the
    backslash. *)
Definition apostrophe : ascii := ascii_of_nat 39.
Definition double_quote : ascii := ascii_of_nat 34.
Definition backslash : ascii := ascii_of_nat 92.

Fixpoint string_has (c : ascii) (s : string) : bool :=
  match s with
  | EmptyString => false
  | String c' s' => (c =? c')%char || string_has c s'
  end.

Definition hex_digit (n : nat) : ascii :=
  nth n ["0"; "1"; "2"; "3"; "4"; "5"; "6"; "7"; "8"; "9";
         "a"; "b"; "c"; "d"; "e"; "f"]%char "0"%char.

(** One character of a [repr]: the backslash and the chosen quote are
    escaped, tab, newline and carriage return have their letter, any
    other control character its two hexadecimal digits.  Text is held as
    UTF-8 bytes; the bytes beyond ASCII are left as they are, as [repr]
    leaves the printable characters they encode. *)
Definition repr_char (quote c : ascii) : string :=
  let n := nat_of_ascii c in
  if (c =? backslash)%char then String backslash (String backslash "")
  else if (c =? quote)%char then String backslash (String quote "")
  else if (n =? 9)%nat then String backslash "t"
  else if (n =? 10)%nat then String backslash "n"
  else if (n =? 13)%nat then String backslash "r"
  else if (n <? 32)%nat || (n =? 127)%nat then
    String backslash
      (String "x" (String (hex_digit (n / 16))
                          (String (hex_digit (n mod 16)) "")))
  else String c "".

Fixpoint repr_chars (quote : ascii) (s : string) : string :=
  match s with
  | EmptyString => EmptyString
  | String c s' => repr_char quote c ++ repr_chars quote s'
  end.

(** [repr(s)] of a str: in single quotes, or in double quotes when the
    text holds an apostrophe and no double quote. *)
Definition py_repr (s : string) : string :=
  let quote :=
    if string_has apostrophe s && negb (string_has double_quote s)
    then double_quote else apostrophe in
  String quote (repr_chars quote s ++ String quote "").

(** [str(e)].  A [KeyError] prints the [repr] of its key; Starlette
    prints an [HTTPException] as its status code, a colon and its
    detail. *)
Definition str_exc (e : Exc) : string :=
  match e with
  | KeyError k => py_repr k
  | TypeError m => m
  | ValueError m => m
  | OSError m => m
  | NameError m => m
  | IndexError m => m
  | HTTPException c d => str_Z c ++ ": " ++ d
  end.

Definition is_ok {A : Type} (r : Result A) : bool :=
  match r with Ok _ => true | Raise _ => false end.

(** ** Cells, columns and tables *)

Inductive Cell : Type :=
| CInt (z : Z)          (* int64 *)
| CFloat (f : float)    (* float64; NaN is the missing value *)
| CStr (s : string)     (* Python str in an object column *)
| CTime (ns : Z)        (* datetime64[ns]: nanoseconds since 1970-01-01 *)
| CNaT.                 (* the missing date-time *)

Definition Series := list Cell.

(** Row and column labels are hashable Python values: cells. *)
Definition Label := Cell.

(** A table: the row labels (the index, which may carry a name), the
    name of the column axis (pivot tables have one), and the columns in
    order. *)
Record DataFrame : Type := mkDF {
  df_index_name : option string;
  df_index : list Label;
  df_columns_name : option string;
  df_cols : list (Label * Series)
}.

Definition nrows (df : DataFrame) : nat := List.length (df_index df).
Definition columns (df : DataFrame) : list Label := map fst (df_cols df).

(** The table invariant of the data model: unique column names, every
    column as long as the index. *)
Definition wf_df (df : DataFrame) : Prop :=
  NoDup (columns df) /\
  Forall (fun c => List.length (snd c) = nrows df) (df_cols df).

(** The index [pd.read_excel] gives a sheet: 0, 1, ..., n-1. *)
Definition range_index (n : nat) : list Label :=
  map (fun i => CInt (Z.of_nat i)) (seq 0 n).

Definition float_eq_dec (x y : float) : {x = y} + {x <> y}.
Proof.
  destruct (PrimFloat.Leibniz.eqb x y) eqn:E.
  - left. now apply FloatAxioms.Leibniz.eqb_spec.
  - right. intro H. apply FloatAxioms.Leibniz.eqb_spec in H. congruence.
Defined.

Definition cell_eq_dec (a b : Cell) : {a = b} + {a <> b}.
Proof.
  decide equality;
    [ apply Z.eq_dec | apply float_eq_dec | apply string_dec | apply Z.eq_dec ].
Defined.

Definition cell_eqb (a b : Cell) : bool :=
  if cell_eq_dec a b then true else false.

Fixpoint lookup_col (l : Label) (cs : list (Label * Series)) : option Series :=
  match cs with
  | [] => None
  | (l', s) :: cs' => if cell_eqb l l' then Some s else lookup_col l cs'
  end.

(** [df[col]] with a string key. *)
Definition getitem (df : DataFrame) (col : string) : Result Series :=
  match lookup_col (CStr col) (df_cols df) with
  | Some s => Ok s
  | None => Raise (KeyError col)
  end.

Fixpoint set_col (l : Label) (s : Series) (cs : list (Label * Series))
  : list (Label * Series) :=
  match cs with
  | [] => [(l, s)]
  | (l', s') :: cs' =>
      if cell_eqb l l' then (l, s) :: cs' else (l', s') :: set_col l s cs'
  end.

(** [df[col] = s]: an existing column is overwritten where it stands, a
    new one is appended. *)
Definition setitem (df : DataFrame) (col : string) (s : Series) : DataFrame :=
  mkDF (df_index_name df) (df_index df) (df_columns_name df)
       (set_col (CStr col) s (df_cols df)).

(** ** Numeric types *)

Definition wrap64 (z : Z) : Z := (z + 2 ^ 63) mod 2 ^ 64 - 2 ^ 63.

Definition in_int64 (z : Z) : Prop := - 2 ^ 63 <= z < 2 ^ 63.

(** int64 to float64, rounding to nearest. *)
Definition float_of_int64 (z : Z) : float :=
  if z =? - 2 ^ 63 then (-9223372036854775808)%float
  else if z <? 0 then PrimFloat.opp (PrimFloat.of_uint63 (Uint63.of_Z (- z)))
  else PrimFloat.of_uint63 (Uint63.of_Z z).

Inductive dtype : Type := int64 | float64 | text | other.

Definition is_int (c : Cell) : bool :=
  match c with CInt _ => true | _ => false end.
Definition is_float (c : Cell) : bool :=
  match c with CFloat _ => true | _ => false end.
Definition is_str (c : Cell) : bool :=
  match c with CStr _ => true | _ => false end.
Definition is_time (c : Cell) : bool :=
  match c with CTime _ | CNaT => true | _ => false end.

(** The blank cells: NaN and NaT. *)
Definition is_null (c : Cell) : bool :=
  match c with
  | CFloat f => PrimFloat.is_nan f
  | CNaT => true
  | _ => false
  end.

(** The dtype of a column: int64 or float64 when every cell is of that
    type, text for a column of str, anything else (date-times, mixed
    objects) is [other]. *)
Definition dtype_of (s : Series) : dtype :=
  if forallb is_int s then int64
  else if forallb is_float s then float64
  else if forallb is_str s then text
  else other.

Definition is_numeric (s : Series) : bool :=
  match dtype_of s with
  | int64 | float64 => true
  | _ => false
  end.

Definition int_of (c : Cell) : Z :=
  match c with CInt z => z | _ => 0 end.

(** [astype(float64)] of a numeric cell. *)
Definition float_of (c : Cell) : float :=
  match c with
  | CInt z => float_of_int64 z
  | CFloat f => f
  | _ => nan
  end.

Inductive MathOp : Type := Add | Subtract | Multiply | Divide.

Definition int_op (op : MathOp) (x y : Z) : Cell :=
  match op with
  | Add => CInt (wrap64 (x + y))
  | Subtract => CInt (wrap64 (x - y))
  | Multiply => CInt (wrap64 (x * y))
  | Divide => CFloat (float_of_int64 x / float_of_int64 y)
  end.

Definition float_op (op : MathOp) (x y : float) : Cell :=
  match op with
  | Add => CFloat (x + y)
  | Subtract => CFloat (x - y)
  | Multiply => CFloat (x * y)
  | Divide => CFloat (x / y)
  end.

(** The operator on two numeric scalars: two integers stay integers
    (true division apart), a float on either side promotes the other. *)
Definition scalar_op (op : MathOp) (a b : Cell) : Cell :=
  match a, b with
  | CInt x, CInt y => int_op op x y
  | _, _ => float_op op (float_of a) (float_of b)
  end.

Fixpoint map2 {A B C : Type} (f : A -> B -> C) (xs : list A) (ys : list B)
  : list C :=
  match xs, ys with
  | x :: xs', y :: ys' => f x y :: map2 f xs' ys'
  | _, _ => []
  end.

Section BasicMath.

(** What pandas does with [+ - * /] on two columns of which one is not
    numeric (text, date-times, mixed objects). *)
Variable object_binop : MathOp -> Series -> Series -> Result Series.

(** [a op b] on two columns of one table (same index, so the rows pair
    up by position). *)
Definition series_binop (op : MathOp) (a b : Series) : Result Series :=
  match dtype_of a, dtype_of b with
  | int64, int64 =>
      Ok (map2 (fun x y => int_op op (int_of x) (int_of y)) a b)
  | int64, float64 | float64, int64 | float64, float64 =>
      Ok (map2 (fun x y => float_op op (float_of x) (float_of y)) a b)
  | _, _ => object_binop op a b
  end.

Definition apply_math (df : DataFrame) (op : MathOp)
           (col1 col2 result_col : string) : Result DataFrame :=
  a <- getitem df col1 ;;
  b <- getitem df col2 ;;
  r <- series_binop op a b ;;
  Ok (setitem df result_col r).

Definition basic_math (df : DataFrame) (operation col1 col2 result_col : string)
  : Result DataFrame :=
  try_except
    (if (operation =? "add")%string then apply_math df Add col1 col2 result_col
     else if (operation =? "subtract")%string then
       apply_math df Subtract col1 col2 result_col
     else if (operation =? "multiply")%string then
       apply_math df Multiply col1 col2 result_col
     else if (operation =? "divide")%string then
       apply_math df Divide col1 col2 result_col
     else Ok df)
    (fun e => Raise (ValueError ("Math operation failed: " ++ str_exc e))).

End BasicMath.

Definition op_of_name (operation : string) : option MathOp :=
  if (operation =? "add")%string then Some Add
  else if (operation =? "subtract")%string then Some Subtract
  else if (operation =? "multiply")%string then Some Multiply
  else if (operation =? "divide")%string then Some Divide
  else None.

(** ** Aggregations *)

Inductive AggFunc : Type := Sum | Mean | Min | Max | Count | Std.

Definition agg_name (f : AggFunc) : string :=
  match f with
  | Sum => "sum" | Mean => "mean" | Min => "min"
  | Max => "max" | Count => "count" | Std => "std"
  end.

(** int64 reductions wrap around at every step. *)
Definition int_sum (xs : list Z) : Z :=
  fold_left (fun acc x => wrap64 (acc + x)) xs 0.

Definition int_min (xs : list Z) : Cell :=
  match xs with
  | [] => CFloat nan
  | x :: xs' => CInt (fold_left Z.min xs' x)
  end.

Definition int_max (xs : list Z) : Cell :=
  match xs with
  | [] => CFloat nan
  | x :: xs' => CInt (fold_left Z.max xs' x)
  end.

(** numpy's sum of a float64 array, [0 + pairwise_sum]: fewer than
    eight values are added one after the other; up to 128 values are
    added into eight running sums, which are then added in pairs, and
    the values left over after the last full group of eight are added
    last; a longer array is cut in two (the first half a multiple of
    eight) and the sums of the halves are added. *)
Fixpoint sum8 (fuel : nat) (r xs : list float) : list float * list float :=
  match fuel with
  | O => (r, xs)
  | S fuel' =>
      if (8 <=? List.length xs)%nat then
        sum8 fuel' (map2 PrimFloat.add r (firstn 8 xs)) (skipn 8 xs)
      else (r, xs)
  end.

Definition sum_block (xs : list float) : float :=
  if (List.length xs <? 8)%nat then fold_left PrimFloat.add xs neg_zero
  else
    match sum8 (List.length xs) (firstn 8 xs) (skipn 8 xs) with
    | ([r0; r1; r2; r3; r4; r5; r6; r7], rest) =>
        fold_left PrimFloat.add rest
          (((r0 + r1) + (r2 + r3)) + ((r4 + r5) + (r6 + r7)))%float
    | _ => nan
    end.

Fixpoint pairwise_sum (fuel : nat) (xs : list float) : float :=
  match fuel with
  | O => sum_block xs
  | S fuel' =>
      let n := List.length xs in
      if (n <=? 128)%nat then sum_block xs
      else
        let n2 := (n / 2 - (n / 2) mod 8)%nat in
        (pairwise_sum fuel' (firstn n2 xs)
         + pairwise_sum fuel' (skipn n2 xs))%float
  end.

(** float64 reductions; [skipna] replaces a NaN by the neutral value of
    the reduction. *)
Definition fsum (xs : list float) : float :=
  (0 + pairwise_sum (List.length xs) xs)%float.

Definition fill_na (d : float) (xs : list float) : list float :=
  map (fun x => if PrimFloat.is_nan x then d else x) xs.

Definition count_notna (xs : list float) : nat :=
  List.length (filter (fun x => negb (PrimFloat.is_nan x)) xs).

Definition float_of_nat (n : nat) : float := float_of_int64 (Z.of_nat n).

Definition fmin2 (a b : float) : float := if (a <? b)%float then a else b.
Definition fmax2 (a b : float) : float := if (b <? a)%float then a else b.

Definition float_min (xs : list float) : float :=
  match count_notna xs, fill_na infinity xs with
  | S _, x :: xs' => fold_left fmin2 xs' x
  | _, _ => nan
  end.

Definition float_max (xs : list float) : float :=
  match count_notna xs, fill_na neg_infinity xs with
  | S _, x :: xs' => fold_left fmax2 xs' x
  | _, _ => nan
  end.

Definition float_mean (xs : list float) : float :=
  (fsum (fill_na 0 xs) / float_of_nat (count_notna xs))%float.

(** Sample standard deviation ([ddof = 1]): NaN below two values. *)
Definition float_std (xs : list float) : float :=
  let n := count_notna xs in
  if (n <=? 1)%nat then nan
  else
    let avg := float_mean xs in
    let sqr := map (fun x => if PrimFloat.is_nan x then 0%float
                             else ((avg - x) * (avg - x))%float) xs in
    PrimFloat.sqrt (fsum sqr / float_of_nat (n - 1))%float.

Definition int_agg (f : AggFunc) (xs : list Z) : Cell :=
  match f with
  | Sum => CInt (int_sum xs)
  | Mean => CFloat (float_mean (map float_of_int64 xs))
  | Min => int_min xs
  | Max => int_max xs
  | Count => CInt (Z.of_nat (List.length xs))
  | Std => CFloat (float_std (map float_of_int64 xs))
  end.

Definition float_agg (f : AggFunc) (xs : list float) : Cell :=
  match f with
  | Sum => CFloat (fsum (fill_na 0 xs))
  | Mean => CFloat (float_mean xs)
  | Min => CFloat (float_min xs)
  | Max => CFloat (float_max xs)
  | Count => CInt (Z.of_nat (count_notna xs))
  | Std => CFloat (float_std xs)
  end.

Definition str_of (c : Cell) : string :=
  match c with CStr s => s | _ => "" end.

Definition str_min2 (a b : string) : string := if String.leb a b then a else b.
Definition str_max2 (a b : string) : string := if String.leb a b then b else a.

(** A column of str: [sum] concatenates, [min] and [max] compare
    lexicographically, [mean] and [std] cannot convert the text. *)
Definition text_agg (f : AggFunc) (xs : list string) : Result Cell :=
  match f with
  | Sum => Ok (CStr (String.concat "" xs))
  | Min => Ok (CStr (fold_left str_min2 (tl xs) (hd "" xs)))
  | Max => Ok (CStr (fold_left str_max2 (tl xs) (hd "" xs)))
  | Count => Ok (CInt (Z.of_nat (List.length xs)))
  | Mean | Std => Raise (TypeError "Could not convert string to numeric")
  end.

(** The instants of a column of date-times, blanks left out. *)
Definition times_of (s : Series) : list Z :=
  flat_map (fun c => match c with CTime ns => [ns] | _ => [] end) s.

Definition time_min (s : Series) : Cell :=
  match times_of s with
  | [] => CNaT
  | x :: xs => CTime (fold_left Z.min xs x)
  end.

Definition time_max (s : Series) : Cell :=
  match times_of s with
  | [] => CNaT
  | x :: xs => CTime (fold_left Z.max xs x)
  end.

Definition numeric_agg (f : AggFunc) (s : Series) : Cell :=
  match dtype_of s with
  | int64 => int_agg f (map int_of s)
  | _ => float_agg f (map float_of s)
  end.

(** A Python dict in insertion order: assigning to a key that is there
    keeps its place. *)
Definition dict := list (string * Cell).

Fixpoint dict_set (k : string) (v : Cell) (d : dict) : dict :=
  match d with
  | [] => [(k, v)]
  | (k', v') :: d' =>
      if (k =? k')%string then (k, v) :: d' else (k', v') :: dict_set k v d'
  end.

Fixpoint dict_get (k : string) (d : dict) : option Cell :=
  match d with
  | [] => None
  | (k', v') :: d' => if (k =? k')%string then Some v' else dict_get k d'
  end.

Definition dict_keys (d : dict) : list string := map fst d.

(** [pd.DataFrame([d])]: one row, a column per key. *)
Definition frame_of_record (d : dict) : DataFrame :=
  mkDF None (range_index 1) None (map (fun kv => (CStr (fst kv), [snd kv])) d).

(** The key [f"{col}_sum"], [f"{col}_mean"], ... *)
Definition agg_key (col : string) (f : AggFunc) : string :=
  col ++ "_" ++ agg_name f.

Definition agg_of_name (func : string) : option AggFunc :=
  if (func =? "sum")%string then Some Sum
  else if (func =? "mean")%string then Some Mean
  else if (func =? "min")%string then Some Min
  else if (func =? "max")%string then Some Max
  else if (func =? "count")%string then Some Count
  else if (func =? "std")%string then Some Std
  else None.

Section Aggregations.

(** What pandas does with a reduction of a column that is neither
    numeric nor text (date-times, mixed objects). *)
Variable object_agg : AggFunc -> Series -> Result Cell.

(** [s.sum()], [s.mean()], ...; [s.count()] counts the cells that are
    not blank, whatever the column holds, and a column of date-times has
    its earliest and its latest instant, blanks left out. *)
Definition series_agg (f : AggFunc) (s : Series) : Result Cell :=
  match dtype_of s with
  | int64 | float64 => Ok (numeric_agg f s)
  | text => text_agg f (map str_of s)
  | other =>
      match f with
      | Count =>
          Ok (CInt (Z.of_nat
                      (List.length (filter (fun c => negb (is_null c)) s))))
      | Min => if forallb is_time s then Ok (time_min s) else object_agg f s
      | Max => if forallb is_time s then Ok (time_max s) else object_agg f s
      | _ => object_agg f s
      end
  end.

Definition agg_store (df : DataFrame) (col : string) (f : AggFunc)
           (result : dict) : Result dict :=
  s <- getitem df col ;;
  v <- series_agg f s ;;
  Ok (dict_set (agg_key col f) v result).

(** The body of the inner loop: one [if/elif] chain on [func]. *)
Definition agg_func_step (df : DataFrame) (col : string)
           (result : dict) (func : string) : Result dict :=
  if (func =? "sum")%string then agg_store df col Sum result
  else if (func =? "mean")%string then agg_store df col Mean result
  else if (func =? "min")%string then agg_store df col Min result
  else if (func =? "max")%string then agg_store df col Max result
  else if (func =? "count")%string then agg_store df col Count result
  else if (func =? "std")%string then agg_store df col Std result
  else Ok result.

Fixpoint for_each {A S : Type} (step : S -> A -> Result S) (xs : list A)
         (st : S) : Result S :=
  match xs with
  | [] => Ok st
  | x :: xs' => st' <- step st x ;; for_each step xs' st'
  end.

Definition agg_loop (df : DataFrame) (cols agg_funcs : list string)
  : Result dict :=
  for_each (fun result col => for_each (agg_func_step df col) agg_funcs result)
           cols [].

Definition aggregations (df : DataFrame) (cols agg_funcs : list string)
  : Result DataFrame :=
  try_except
    (result <- agg_loop df cols agg_funcs ;;
     Ok (frame_of_record result))
    (fun e => Raise (ValueError ("Aggregation failed: " ++ str_exc e))).

End Aggregations.

(** ** The spreadsheet store and the /upload endpoint *)

(** The file system and the spreadsheet codec, as the outcomes of their
    calls: writing the uploaded bytes, openpyxl's [load_workbook],
    [pd.read_excel] and [DataFrame.to_excel]. *)
Record Store : Type := mkStore {
  open_write : string -> string -> Result unit;
  load_workbook : string -> Result (list string);
  pd_read_excel : string -> option string -> Result DataFrame;
  to_excel : DataFrame -> string -> string -> Result unit
}.

Module ExcelDataHandler.

Definition read_excel (st : Store) (file_path : string)
           (sheet_name : option string) : Result DataFrame :=
  try_except
    (match sheet_name with
     | Some (String c s) => pd_read_excel st file_path (Some (String c s))
     | _ => pd_read_excel st file_path None
     end)
    (fun e => Raise (HTTPException 400
                       ("Failed to read Excel file: " ++ str_exc e))).

Definition get_sheet_names (st : Store) (file_path : string)
  : Result (list string) :=
  try_except
    (load_workbook st file_path)
    (fun e => Raise (HTTPException 400
                       ("Failed to read Excel file: " ++ str_exc e))).

Definition write_excel (st : Store) (df : DataFrame) (file_path : string)
  : Result unit :=
  try_except
    (to_excel st df file_path "Sheet1")
    (fun e => Raise (HTTPException 500
                       ("Failed to write Excel file: " ++ str_exc e))).

End ExcelDataHandler.

(** [str.endswith]. *)
Definition endswith (s suffix : string) : bool :=
  let n := String.length s in
  let m := String.length suffix in
  (m <=? n)%nat && (substring (n - m) m s =? suffix)%string.

(** [UPLOAD_DIR / filename]: an absolute right operand replaces the
    directory. *)
Definition upload_path (filename : string) : string :=
  match filename with
  | String "/" _ => filename
  | _ => "uploads/" ++ filename
  end.

Record UploadInfo : Type := mkUploadInfo {
  up_status : string;
  up_filename : string;
  up_file_path : string;
  up_sheets : list string;
  up_rows : nat;
  up_columns : list Label;
  up_data_types : list (Label * dtype)
}.

Definition upload_file (st : Store) (filename content : string)
  : Result UploadInfo :=
  try_except
    (if negb (endswith filename ".xlsx" || endswith filename ".xls") then
       Raise (HTTPException 400 "Only Excel files (.xlsx, .xls) are supported")
     else
       let file_path := upload_path filename in
       _ <- open_write st file_path content ;;
       sheet_names <- ExcelDataHandler.get_sheet_names st file_path ;;
       df <- ExcelDataHandler.read_excel st file_path None ;;
       Ok (mkUploadInfo "success" filename file_path sheet_names (nrows df)
             (columns df)
             (map (fun c => (fst c, dtype_of (snd c))) (df_cols df))))
    (fun e => Raise (HTTPException 500 (str_exc e))).

(** The status of the HTTP response FastAPI builds from an endpoint's
    outcome.  A returned value is encoded as JSON, which refuses NaN and
    the infinities: [serialises] says whether the value can be encoded;
    when it cannot, the answer is a 500. *)
Definition http_status {A : Type} (serialises : A -> bool) (r : Result A) : Z :=
  match r with
  | Ok a => if serialises a then 200 else 500
  | Raise (HTTPException c _) => c
  | Raise _ => 500
  end.

(** ** Date operations *)

Definition ns_per_day : Z := 86400 * 10 ^ 9.

Definition days_of_ns (ns : Z) : Z := ns / ns_per_day.

(** The proleptic Gregorian date of a day number (days since
    1970-01-01): year, month, day. *)
Definition civil_of_days (days : Z) : Z * Z * Z :=
  let z := days + 719468 in
  let era := z / 146097 in
  let doe := z - era * 146097 in
  let yoe := (doe - doe / 1460 + doe / 36524 - doe / 146096) / 365 in
  let doy := doe - (365 * yoe + yoe / 4 - yoe / 100) in
  let mp := (5 * doy + 2) / 153 in
  let d := doy - (153 * mp + 2) / 5 + 1 in
  let m := if mp <? 10 then mp + 3 else mp - 9 in
  let y := yoe + era * 400 + (if m <=? 2 then 1 else 0) in
  (y, m, d).

Definition ts_year (ns : Z) : Z := fst (fst (civil_of_days (days_of_ns ns))).
Definition ts_month (ns : Z) : Z := snd (fst (civil_of_days (days_of_ns ns))).
Definition ts_day (ns : Z) : Z := snd (civil_of_days (days_of_ns ns)).
(** Monday is 0; 1970-01-01 was a Thursday. *)
Definition ts_dayofweek (ns : Z) : Z := (days_of_ns ns + 3) mod 7.

Definition is_nat_cell (c : Cell) : bool :=
  match c with CNaT => true | _ => false end.

(** [s.dt.year] and the like on a date-time column: integers, or floats
    with NaN when the column has a missing date. *)
Definition dt_field (field : Z -> Z) (s : Series) : Series :=
  if existsb is_nat_cell s then
    map (fun c => match c with
                  | CTime ns => CFloat (float_of_int64 (field ns))
                  | _ => CFloat nan
                  end) s
  else
    map (fun c => match c with
                  | CTime ns => CInt (field ns)
                  | _ => CInt 0
                  end) s.

Fixpoint traverse {A B : Type} (f : A -> Result B) (xs : list A)
  : Result (list B) :=
  match xs with
  | [] => Ok []
  | x :: xs' => y <- f x ;; ys <- traverse f xs' ;; Ok (y :: ys)
  end.

Section DateOperations.

(** pandas' parser of date strings, and its reading of a float as a
    number of nanoseconds. *)
Variable parse_datetime : string -> option Z.
Variable datetime_of_float : float -> option Z.

Definition to_datetime_cell (c : Cell) : Result Cell :=
  match c with
  | CTime ns => Ok (CTime ns)
  | CNaT => Ok CNaT
  | CInt ns => if ns =? - 2 ^ 63 then Ok CNaT else Ok (CTime ns)
  | CStr s =>
      match parse_datetime s with
      | Some ns => Ok (CTime ns)
      | None => Raise (ValueError ("Unknown datetime string format: " ++ s))
      end
  | CFloat f =>
      if PrimFloat.is_nan f then Ok CNaT
      else match datetime_of_float f with
           | Some ns => Ok (CTime ns)
           | None => Raise (ValueError "cannot convert input with unit 'ns'")
           end
  end.

(** [pd.to_datetime(s)]: one value that does not parse fails the whole
    column. *)
Definition to_datetime (s : Series) : Result Series :=
  traverse to_datetime_cell s.

Definition add_dt_column (df : DataFrame) (date_col suffix : string)
           (field : Z -> Z) : Result DataFrame :=
  d <- getitem df date_col ;;
  Ok (setitem df (date_col ++ suffix) (dt_field field d)).

Definition date_operations (df : DataFrame) (date_col : string)
  : Result DataFrame :=
  try_except
    (s <- getitem df date_col ;;
     parsed <- to_datetime s ;;
     let df0 := setitem df date_col parsed in
     df1 <- add_dt_column df0 date_col "_year" ts_year ;;
     df2 <- add_dt_column df1 date_col "_month" ts_month ;;
     df3 <- add_dt_column df2 date_col "_day" ts_day ;;
     df4 <- add_dt_column df3 date_col "_dayofweek" ts_dayofweek ;;
     Ok df4)
    (fun e => Raise (ValueError ("Date operation failed: " ++ str_exc e))).

End DateOperations.

(** ** Filter *)

Inductive Cmp : Type := Lt | Le | Gt | Ge | Eq | Ne.

(** The fragment of the query language of [DataFrame.query] covered
    here: comparisons between columns or the index, literals and
    reductions of a column ([salary > 1000], [a <= b], [index > 0],
    [a < a.max()]), joined by [and], [or] and [not]. *)
Inductive Term : Type :=
| TCol (name : string)
| TLit (c : Cell)
| TAgg (f : AggFunc) (name : string).

Inductive Expr : Type :=
| ECmp (op : Cmp) (lhs rhs : Term)
| EAnd (a b : Expr)
| EOr (a b : Expr)
| ENot (a : Expr).

Inductive Operand : Type :=
| Column (s : Series)
| Scalar (c : Cell).

Definition cmp_Z (op : Cmp) (x y : Z) : bool :=
  match op with
  | Lt => x <? y | Le => x <=? y | Gt => y <? x | Ge => y <=? x
  | Eq => x =? y | Ne => negb (x =? y)
  end.

Definition cmp_float (op : Cmp) (x y : float) : bool :=
  match op with
  | Lt => (x <? y)%float | Le => (x <=? y)%float
  | Gt => (y <? x)%float | Ge => (y <=? x)%float
  | Eq => (x =? y)%float | Ne => negb (x =? y)%float
  end.

Definition cmp_str (op : Cmp) (x y : string) : bool :=
  match op with
  | Lt => negb (String.leb y x) | Le => String.leb x y
  | Gt => negb (String.leb x y) | Ge => String.leb y x
  | Eq => (x =? y)%string | Ne => negb (x =? y)%string
  end.

(** [select mask xs]: the entries of [xs] whose mask is [True]. *)
Fixpoint select {A : Type} (mask : list bool) (xs : list A) : list A :=
  match mask, xs with
  | m :: mask', x :: xs' =>
      if m then x :: select mask' xs' else select mask' xs'
  | _, _ => []
  end.

(** [df.loc[mask]]: the rows keep their labels and their order. *)
Definition select_rows (mask : list bool) (df : DataFrame) : DataFrame :=
  mkDF (df_index_name df) (select mask (df_index df)) (df_columns_name df)
       (map (fun c => (fst c, select mask (snd c))) (df_cols df)).

Fixpoint uses_agg (e : Expr) : bool :=
  let term_agg t := match t with TAgg _ _ => true | _ => false end in
  match e with
  | ECmp _ l r => term_agg l || term_agg r
  | EAnd a b | EOr a b => uses_agg a || uses_agg b
  | ENot a => uses_agg a
  end.

(** Whether a name of a query stands for the index: [index], the name
    of the index, or [ilevel_0] for a nameless one. *)
Definition names_index (df : DataFrame) (name : string) : bool :=
  (name =? "index")%string ||
  match df_index_name df with
  | Some s => (name =? s)%string
  | None => (name =? "ilevel_0")%string
  end.

(** A name in a query: the column of that name, or else the index when
    the name stands for it. *)
Definition resolve_name (df : DataFrame) (name : string) : Result Series :=
  match lookup_col (CStr name) (df_cols df) with
  | Some s => Ok s
  | None =>
      if names_index df name then Ok (df_index df)
      else Raise (NameError ("name " ++ py_repr name ++ " is not defined"))
  end.

Section Filter.

(** pandas' parser of query strings ([None]: a syntax error), its
    comparison of two values of different types, and its reductions of
    columns that are neither numeric nor text. *)
Variable parse_query : string -> option Expr.
Variable object_cmp : Cmp -> Cell -> Cell -> Result bool.
Variable object_agg : AggFunc -> Series -> Result Cell.

Definition cell_cmp (op : Cmp) (a b : Cell) : Result bool :=
  match a, b with
  | CInt x, CInt y => Ok (cmp_Z op x y)
  | CInt _, CFloat _ | CFloat _, CInt _ | CFloat _, CFloat _ =>
      Ok (cmp_float op (float_of a) (float_of b))
  | CStr x, CStr y => Ok (cmp_str op x y)
  | CTime x, CTime y => Ok (cmp_Z op x y)
  | _, _ => object_cmp op a b
  end.

Definition eval_term (df : DataFrame) (t : Term) : Result Operand :=
  match t with
  | TCol name => s <- resolve_name df name ;; Ok (Column s)
  | TLit c => Ok (Scalar c)
  | TAgg f name =>
      s <- resolve_name df name ;;
      v <- series_agg object_agg f s ;; Ok (Scalar v)
  end.

(** A comparison gives a mask over the rows; one between two scalars
    gives a single bool, which [df.loc] refuses as a row selector. *)
Definition eval_cmp (op : Cmp) (l r : Operand) : Result (list bool) :=
  match l, r with
  | Column a, Column b =>
      traverse (fun ab => cell_cmp op (fst ab) (snd ab)) (combine a b)
  | Column a, Scalar c => traverse (fun x => cell_cmp op x c) a
  | Scalar c, Column b => traverse (fun y => cell_cmp op c y) b
  | Scalar _, Scalar _ =>
      Raise (KeyError "boolean label can not be used without a boolean index")
  end.

Fixpoint eval_expr (df : DataFrame) (e : Expr) : Result (list bool) :=
  match e with
  | ECmp op l r =>
      a <- eval_term df l ;; b <- eval_term df r ;; eval_cmp op a b
  | EAnd a b =>
      ma <- eval_expr df a ;; mb <- eval_expr df b ;; Ok (map2 andb ma mb)
  | EOr a b =>
      ma <- eval_expr df a ;; mb <- eval_expr df b ;; Ok (map2 orb ma mb)
  | ENot a => ma <- eval_expr df a ;; Ok (map negb ma)
  end.

(** [df.query(condition)]. *)
Definition query (df : DataFrame) (condition : string) : Result DataFrame :=
  match parse_query condition with
  | None => Raise (ValueError ("invalid syntax: " ++ condition))
  | Some e => mask <- eval_expr df e ;; Ok (select_rows mask df)
  end.

Definition filter_data (df : DataFrame) (condition : string)
  : Result DataFrame :=
  try_except
    (query df condition)
    (fun e => Raise (ValueError ("Filter operation failed: " ++ str_exc e))).

End Filter.

(** ** Keys of joins and groups *)

(** pandas hashes keys: blanks match blanks, and the two float zeros are
    one key.  Keys of one type are compared after [key_norm]. *)
Definition key_norm (c : Cell) : Cell :=
  match c with
  | CFloat f => if (f =? 0)%float then CFloat 0%float else c
  | _ => c
  end.

(** The integer a float is, when it is one. *)
Definition float_exact_Z (f : float) : option Z :=
  match Prim2SF f with
  | S754_zero _ => Some 0
  | S754_finite s m e =>
      let magnitude :=
        if 0 <=? e then Some (Z.pos m * 2 ^ e)
        else if Z.pos m mod 2 ^ (- e) =? 0 then Some (Z.pos m / 2 ^ (- e))
        else None in
      option_map (fun z => if s then - z else z) magnitude
  | _ => None
  end.

(** Whether two keys match.  An integer next to a float, which only a
    column of objects can hold, matches it as Python compares the two:
    by value. *)
Definition key_eqb (a b : Cell) : bool :=
  match a, b with
  | CInt x, CFloat f | CFloat f, CInt x =>
      match float_exact_Z f with
      | Some z => x =? z
      | None => false
      end
  | _, _ => cell_eqb (key_norm a) (key_norm b)
  end.

(** The order in which pandas sorts labels of one type; numbers come
    before text, text before dates, blanks last. *)
Definition cell_rank (c : Cell) : Z :=
  match c with
  | CInt _ | CFloat _ => 0
  | CStr _ => 1
  | CTime _ | CNaT => 2
  end.

Definition cell_leb (a b : Cell) : bool :=
  match a, b with
  | CInt x, CInt y => x <=? y
  | CInt _, CFloat _ | CFloat _, CInt _ | CFloat _, CFloat _ =>
      if PrimFloat.is_nan (float_of b) then true
      else if PrimFloat.is_nan (float_of a) then false
      else (float_of a <=? float_of b)%float
  | CStr x, CStr y => String.leb x y
  | CTime x, CTime y => x <=? y
  | CTime _, CNaT | CNaT, CNaT => true
  | CNaT, CTime _ => false
  | _, _ => cell_rank a <=? cell_rank b
  end.

Fixpoint insert_by {A : Type} (leb : A -> A -> bool) (x : A) (l : list A)
  : list A :=
  match l with
  | [] => [x]
  | y :: l' => if leb x y then x :: y :: l' else y :: insert_by leb x l'
  end.

(** A stable sort. *)
Definition sort_by {A : Type} (leb : A -> A -> bool) (l : list A) : list A :=
  fold_right (insert_by leb) [] l.

(** ** Join *)

Inductive How : Type := Inner | LeftJoin | RightJoin | Outer.

Definition how_of_name (how : string) : option How :=
  if (how =? "inner")%string then Some Inner
  else if (how =? "left")%string then Some LeftJoin
  else if (how =? "right")%string then Some RightJoin
  else if (how =? "outer")%string then Some Outer
  else None.

Definition indexed {A : Type} (l : list A) : list (nat * A) :=
  combine (seq 0 (List.length l)) l.

(** The positions in [keys] whose key is [k]. *)
Definition matches (k : Cell) (keys : list Cell) : list nat :=
  map fst (filter (fun jk => key_eqb k (snd jk)) (indexed keys)).

(** A row of the result: the position of its left row and of its right
    row, when it has one. *)
Definition RowPair : Type := option nat * option nat.

Definition inner_pairs (lk rk : list Cell) : list RowPair :=
  flat_map (fun ik => map (fun j => (Some (fst ik), Some j))
                          (matches (snd ik) rk))
           (indexed lk).

Definition left_pairs (lk rk : list Cell) : list RowPair :=
  flat_map (fun ik => match matches (snd ik) rk with
                      | [] => [(Some (fst ik), None)]
                      | js => map (fun j => (Some (fst ik), Some j)) js
                      end)
           (indexed lk).

Definition right_pairs (lk rk : list Cell) : list RowPair :=
  flat_map (fun jk => match matches (snd jk) lk with
                      | [] => [(None, Some (fst jk))]
                      | ls => map (fun i => (Some i, Some (fst jk))) ls
                      end)
           (indexed rk).

Definition unmatched_right (lk rk : list Cell) : list RowPair :=
  flat_map (fun jk => match matches (snd jk) lk with
                      | [] => [(None, Some (fst jk))]
                      | _ => []
                      end)
           (indexed rk).

Definition pair_key (lk rk : list Cell) (p : RowPair) : Cell :=
  match p with
  | (Some i, _) => nth i lk CNaT
  | (None, Some j) => nth j rk CNaT
  | (None, None) => CNaT
  end.

(** A column with holes: integers become floats to hold NaN, dates get
    NaT, anything else gets NaN. *)
Definition fill_missing (s : Series) (cells : list (option Cell)) : Series :=
  if forallb (fun o => match o with Some _ => true | None => false end) cells
  then map (fun o => match o with Some c => c | None => CNaT end) cells
  else if forallb is_time s then
    map (fun o => match o with Some c => c | None => CNaT end) cells
  else if forallb is_int s then
    map (fun o => match o with
                  | Some c => CFloat (float_of c)
                  | None => CFloat nan
                  end) cells
  else map (fun o => match o with Some c => c | None => CFloat nan end) cells.

(** [s.take(positions)] with holes. *)
Definition take_col (positions : list (option nat)) (s : Series) : Series :=
  fill_missing s
    (map (fun o => match o with
                   | Some i => nth_error s i
                   | None => None
                   end) positions).

Definition has_label (l : Label) (cs : list (Label * Series)) : bool :=
  existsb (fun c => cell_eqb l (fst c)) cs.

Definition label_suffix (l : Label) (suffix : string) : Label :=
  match l with
  | CStr s => CStr (s ++ suffix)
  | _ => l
  end.

(** A key given by name: the column of that name, or the index when it
    bears the name; a name that is both is refused as ambiguous. *)
Definition label_or_level (df : DataFrame) (name : string) : Result Series :=
  let is_level :=
    match df_index_name df with
    | Some s => (s =? name)%string
    | None => false
    end in
  match lookup_col (CStr name) (df_cols df) with
  | Some s =>
      if is_level then
        Raise (ValueError ("'" ++ name ++ "' is both an index level and a column label, which is ambiguous."))
      else Ok s
  | None => if is_level then Ok (df_index df) else Raise (KeyError name)
  end.

(** The kinds of key columns [pd.merge] tells apart. *)
Inductive KeyKind : Type := KNumeric | KText | KTime | KMixed.

Definition key_kind (s : Series) : KeyKind :=
  match dtype_of s with
  | int64 | float64 => KNumeric
  | text => KText
  | other => if forallb is_time s then KTime else KMixed
  end.

Definition kind_eqb (a b : KeyKind) : bool :=
  match a, b with
  | KNumeric, KNumeric | KText, KText | KTime, KTime | KMixed, KMixed => true
  | _, _ => false
  end.

Definition dtype_name (s : Series) : string :=
  match dtype_of s with
  | int64 => "int64"
  | float64 => "float64"
  | text => "object"
  | other => if forallb is_time s then "datetime64[ns]" else "object"
  end.

(** An integer key column joined with a float one is converted to
    float64 before the keys are compared. *)
Definition cast_keys (lk rk : Series) : Series * Series :=
  match dtype_of lk, dtype_of rk with
  | int64, float64 => (map (fun c => CFloat (float_of c)) lk, rk)
  | float64, int64 => (lk, map (fun c => CFloat (float_of c)) rk)
  | _, _ => (lk, rk)
  end.

(** The key column of a join of two numeric key columns has one dtype:
    integers next to floats become floats. *)
Definition unify_numeric (s : Series) : Series :=
  if forallb (fun c => is_int c || is_float c) s &&
     negb (forallb is_int s) && negb (forallb is_float s)
  then map (fun c => CFloat (float_of c)) s
  else s.

Section Join.

(** What this model leaves to pandas: whether it accepts a key column of
    mixed objects next to a numeric one, or two key columns without
    rows, whose dtypes the cells do not show; the table of a join whose
    key is the index of one of the tables; and the order of the rows of
    an inner and of an outer join (pandas 2.1 groups them by key in order
    of first appearance, later versions keep the order of the left table
    and sort the outer join by key). *)
Variable coerce_keys : Series -> Series -> Result unit.
Variable merge_on_level :
  DataFrame -> DataFrame -> string -> How -> Result DataFrame.
Variable row_order : How -> list Cell -> list Cell -> RowPair -> RowPair -> bool.

(** The dtype check of the keys: text against numbers and date-times
    against anything else are refused; the check is skipped when one of
    the two tables has no rows. *)
Definition check_keys (on : string) (lk rk : Series) : Result unit :=
  match lk, rk with
  | [], [] => coerce_keys lk rk
  | [], _ :: _ => Ok tt
  | _ :: _, [] => Ok tt
  | _ :: _, _ :: _ =>
      if kind_eqb (key_kind lk) (key_kind rk) then Ok tt
      else
        match key_kind lk, key_kind rk with
        | KText, KMixed => Ok tt
        | KMixed, KText => Ok tt
        | KMixed, KNumeric => coerce_keys lk rk
        | KNumeric, KMixed => coerce_keys lk rk
        | _, _ =>
            Raise (ValueError
                     ("You are trying to merge on " ++ dtype_name lk ++ " and "
                      ++ dtype_name rk ++ " columns for key '" ++ on
                      ++ "'. If you wish to proceed you should use pd.concat"))
        end
  end.

Definition join_pairs (how : How) (lk rk : list Cell) : list RowPair :=
  match how with
  | Inner => sort_by (row_order Inner lk rk) (inner_pairs lk rk)
  | LeftJoin => left_pairs lk rk
  | RightJoin => right_pairs lk rk
  | Outer =>
      sort_by (row_order Outer lk rk)
              (left_pairs lk rk ++ unmatched_right lk rk)
  end.

(** [pd.merge(df1, df2, on=on, how=how)] on the rows [pairs]: the left
    columns with the key where it stood, then the other right columns;
    a name on both sides gets [_x] and [_y]. *)
Definition merge_frame (df1 df2 : DataFrame) (on : string)
           (lk rk : list Cell) (pairs : list RowPair) : DataFrame :=
  let key :=
    if is_numeric lk && is_numeric rk
    then unify_numeric (map (pair_key lk rk) pairs)
    else map (pair_key lk rk) pairs in
  let overlap l := negb (cell_eqb l (CStr on)) &&
                   has_label l (df_cols df1) && has_label l (df_cols df2) in
  let left c :=
    if cell_eqb (fst c) (CStr on) then (fst c, key)
    else ((if overlap (fst c) then label_suffix (fst c) "_x" else fst c),
          take_col (map fst pairs) (snd c)) in
  let right c :=
    ((if overlap (fst c) then label_suffix (fst c) "_y" else fst c),
     take_col (map snd pairs) (snd c)) in
  mkDF None (range_index (List.length pairs)) None
       (map left (df_cols df1) ++
        map right (filter (fun c => negb (cell_eqb (fst c) (CStr on)))
                          (df_cols df2))).

(** [pd.merge]: the keys are looked up, then their dtypes are checked,
    and the join kind is looked up last. *)
Definition merge (df1 df2 : DataFrame) (on how : string) : Result DataFrame :=
  if (how =? "cross")%string then
    Raise (ValueError "Can not pass on, right_on, left_on or set right_index=True or left_index=True")
  else
    lk <- label_or_level df1 on ;;
    rk <- label_or_level df2 on ;;
    _ <- check_keys on lk rk ;;
    match how_of_name how with
    | None => Raise (KeyError how)
    | Some h =>
        if has_label (CStr on) (df_cols df1) &&
           has_label (CStr on) (df_cols df2)
        then
          let (lk', rk') := cast_keys lk rk in
          Ok (merge_frame df1 df2 on lk rk (join_pairs h lk' rk'))
        else merge_on_level df1 df2 on h
    end.

Definition join_dataframes (df1 df2 : DataFrame) (on how : string)
  : Result DataFrame :=
  try_except
    (merge df1 df2 on how)
    (fun e => Raise (ValueError ("Join operation failed: " ++ str_exc e))).

End Join.

(** ** Pivot and unpivot *)

(** A row seen by the pivot: its (index, column) key and its value. *)
Definition Triple : Type := (Cell * Cell) * Cell.

Definition triples (ixs cs vs : Series) : list Triple :=
  map (fun r => ((fst r, fst (snd r)), snd (snd r)))
      (combine ixs (combine cs vs)).

Definition key_eq_dec (a b : Cell * Cell) : {a = b} + {a <> b}.
Proof. decide equality; apply cell_eq_dec. Defined.

Definition same_key (k : Cell * Cell) (r : Triple) : bool :=
  if key_eq_dec (fst r) k then true else false.

Definition group_values (k : Cell * Cell) (rows : list Triple) : Series :=
  map snd (filter (same_key k) rows).

Definition lookup_group (k : Cell * Cell) (agged : list Triple) : option Cell :=
  option_map snd (find (same_key k) agged).

Definition is_some {A : Type} (o : option A) : bool :=
  match o with Some _ => true | None => false end.

(** The cells of a block with holes, typed as [fill_missing] types a
    column: [holes] says whether the block has any. *)
Definition fill_block (holes : bool) (s : Series) (cells : list (option Cell))
  : Series :=
  if holes then
    if forallb is_time s then
      map (fun o => match o with Some c => c | None => CNaT end) cells
    else if forallb is_int s then
      map (fun o => match o with
                    | Some c => CFloat (float_of c)
                    | None => CFloat nan
                    end) cells
    else map (fun o => match o with Some c => c | None => CFloat nan end) cells
  else map (fun o => match o with Some c => c | None => CNaT end) cells.

Definition label_str (l : Label) : string :=
  match l with
  | CStr s => s
  | CInt z => str_Z z
  | _ => "<label>"
  end.

(** [df.reset_index()]: the index becomes the first column, under its
    name ([index], or [level_0] when that is taken, for a nameless
    one). *)
Definition reset_index (df : DataFrame) : Result DataFrame :=
  let name :=
    match df_index_name df with
    | Some s => s
    | None => if has_label (CStr "index") (df_cols df) then "level_0"
              else "index"
    end in
  if has_label (CStr name) (df_cols df) then
    Raise (ValueError ("cannot insert " ++ name ++ ", already exists"))
  else
    Ok (mkDF None (range_index (nrows df)) (df_columns_name df)
             ((CStr name, df_index df) :: df_cols df)).

(** The columns of a concatenation share a dtype: integers next to
    floats become floats. *)
Definition common_dtype (cols : list Series) : list Series :=
  if forallb is_numeric cols && negb (forallb (forallb is_int) cols) then
    map (map (fun c => CFloat (float_of c))) cols
  else cols.

Definition col_or_empty (df : DataFrame) (l : Label) : Series :=
  match lookup_col l (df_cols df) with
  | Some s => s
  | None => []
  end.

(** The first occurrence of every label, in order. *)
Fixpoint unique_first (l : list Label) : list Label :=
  match l with
  | [] => []
  | x :: l' => x :: filter (fun y => negb (cell_eqb y x)) (unique_first l')
  end.

Definition mem_label (l : Label) (ls : list Label) : bool :=
  existsb (cell_eqb l) ls.

(** The labels of a list that the table does not have, as pandas lists
    them in its message: each once, sorted. *)
Definition missing_labels (df : DataFrame) (ls : list Label) : list Label :=
  sort_by cell_leb
    (unique_first (filter (fun l => negb (has_label l (df_cols df))) ls)).

Definition label_repr (l : Label) : string :=
  match l with
  | CStr s => py_repr s
  | _ => label_str l
  end.

Definition labels_repr (ls : list Label) : string :=
  "[" ++ String.concat ", " (map label_repr ls) ++ "]".

(** The identifier columns of a melt, taken out of the table one by one:
    each is repeated once per melted column; an identifier named twice
    is gone the second time. *)
Fixpoint melt_ids (df : DataFrame) (k : Z) (seen id_vars : list Label)
  : Result (list (Label * Series)) :=
  match id_vars with
  | [] => Ok []
  | l :: rest =>
      if mem_label l seen then Raise (KeyError (label_str l))
      else if k <? 0 then
        Raise (ValueError "negative dimensions are not allowed")
      else
        ids <- melt_ids df k (l :: seen) rest ;;
        Ok ((l, List.concat (repeat (col_or_empty df l) (Z.to_nat k))) :: ids)
  end.

(** [pd.melt(df, id_vars=id_vars, value_vars=value_vars)]: the columns
    melted are the value columns that are no identifier, each once, in
    the order they are named; the long table has one block of rows per
    melted column. *)
Definition melt (df : DataFrame) (id_vars value_vars : list Label)
  : Result DataFrame :=
  if has_label (CStr "value") (df_cols df) then
    Raise (ValueError "value_name (value) cannot match an element in the DataFrame columns.")
  else
    match missing_labels df id_vars, missing_labels df value_vars with
    | _ :: _ as m, _ =>
        Raise (KeyError ("The following 'id_vars' are not present in the DataFrame: " ++ labels_repr m))
    | [], (_ :: _) as m =>
        Raise (KeyError ("The following 'value_vars' are not present in the DataFrame: " ++ labels_repr m))
    | [], [] =>
        let n := nrows df in
        let var_name :=
          match df_columns_name df with
          | Some s => s
          | None => "variable"
          end in
        let taken := unique_first (id_vars ++ value_vars)%list in
        let melted :=
          filter (fun l => negb (mem_label l id_vars))
                 (unique_first value_vars) in
        let k := Z.of_nat (List.length taken)
                 - Z.of_nat (List.length id_vars) in
        ids <- melt_ids df k [] id_vars ;;
        let variable := flat_map (fun v => repeat v n) melted in
        let value :=
          List.concat (common_dtype (map (col_or_empty df) melted)) in
        Ok (mkDF None (range_index (n * List.length melted)) None
                 (ids ++ [(CStr var_name, variable); (CStr "value", value)])%list)
    end.

Definition unpivot_table (df : DataFrame) (id_vars value_vars : list Label)
  : Result DataFrame :=
  try_except
    (melt df id_vars value_vars)
    (fun e => Raise (ValueError ("Unpivot operation failed: " ++ str_exc e))).

Section Pivot.

(** pandas' reductions of columns that are neither numeric nor text,
    and its aggregation functions named otherwise than the six of
    [aggregations] ([median], [first], ...). *)
Variable object_agg : AggFunc -> Series -> Result Cell.
Variable named_agg : string -> Series -> Result Cell.

Definition group_agg (aggfunc : string) (vals : Series) : Result Cell :=
  match agg_of_name aggfunc with
  | Some f => series_agg object_agg f vals
  | None => named_agg aggfunc vals
  end.

(** [pd.pivot_table(df, values=, index=, columns=, aggfunc=)] with two
    keys, each a column or the index by its name, and a value column
    that is neither of them: group the rows by (index, column), leaving
    out rows with a blank key; aggregate the values of each group,
    leaving out groups whose aggregate is blank; spread the groups over
    a grid of sorted row and column labels, blank where there is no
    group. *)
Definition pd_pivot_table (df : DataFrame) (values index cols aggfunc : string)
  : Result DataFrame :=
  vs <- getitem df values ;;
  ixs <- label_or_level df index ;;
  cs <- label_or_level df cols ;;
  let rows :=
    filter (fun r => negb (is_null (fst (fst r))) &&
                     negb (is_null (snd (fst r))))
           (triples (map key_norm ixs) (map key_norm cs) vs) in
  let keys := nodup key_eq_dec (map fst rows) in
  agged <- traverse (fun k => v <- group_agg aggfunc (group_values k rows) ;;
                              Ok (k, v)) keys ;;
  let kept := filter (fun kv => negb (is_null (snd kv))) agged in
  let row_labels :=
    sort_by cell_leb (nodup cell_eq_dec (map (fun kv => fst (fst kv)) kept)) in
  let col_labels :=
    sort_by cell_leb (nodup cell_eq_dec (map (fun kv => snd (fst kv)) kept)) in
  let grid :=
    map (fun c => map (fun i => lookup_group (i, c) kept) row_labels)
        col_labels in
  let holes := negb (forallb (forallb is_some) grid) in
  Ok (mkDF (Some index) row_labels (Some cols)
           (combine col_labels
                    (map (fill_block holes (map snd kept)) grid))).

Definition pivot_table (df : DataFrame) (values index cols aggfunc : string)
  : Result DataFrame :=
  try_except
    (pd_pivot_table df values index cols aggfunc)
    (fun e => Raise (ValueError ("Pivot operation failed: " ++ str_exc e))).

End Pivot.

(** The (index, column, value) triples a long table holds under the
    three given column names. *)
Definition long_triples (df : DataFrame) (index cols value : string)
  : list Triple :=
  triples (col_or_empty df (CStr index)) (col_or_empty df (CStr cols))
          (col_or_empty df (CStr value)).


(** ** A parser of ISO dates

    An instance of the date parser for the examples: it reads
    [YYYY-MM-DD] and nothing else. *)

Definition digit (c : ascii) : option Z :=
  let n := Z.of_nat (nat_of_ascii c) in
  if (48 <=? n) && (n <=? 57) then Some (n - 48) else None.

Definition days_of_civil (y m d : Z) : Z :=
  let y' := if m <=? 2 then y - 1 else y in
  let era := y' / 400 in
  let yoe := y' - era * 400 in
  let doy := (153 * (if 2 <? m then m - 3 else m + 9) + 2) / 5 + d - 1 in
  let doe := yoe * 365 + yoe / 4 - yoe / 100 + doy in
  era * 146097 + doe - 719468.

Definition parse_iso_date (s : string) : option Z :=
  match s with
  | String y1 (String y2 (String y3 (String y4 (String "-"
      (String m1 (String m2 (String "-"
        (String d1 (String d2 EmptyString))))))))) =>
      match digit y1, digit y2, digit y3, digit y4,
            digit m1, digit m2, digit d1, digit d2 with
      | Some a, Some b, Some c, Some d, Some e, Some f, Some g, Some h =>
          let y := 1000 * a + 100 * b + 10 * c + d in
          let m := 10 * e + f in
          let dd := 10 * g + h in
          if (1 <=? m) && (m <=? 12) && (1 <=? dd) && (dd <=? 31) then
            Some (days_of_civil y m dd * ns_per_day)
          else None
      | _, _, _, _, _, _, _, _ => None
      end
  | _ => None
  end.

Definition no_datetime_of_float : float -> option Z := fun _ => None.

(** A sheet with dates kept as text, and a column that already has the
    name of a derived one. *)
Definition events : DataFrame :=
  mkDF None (range_index 2) None
       [(CStr "day", [CStr "2024-01-15"; CStr "2024-03-01"]);
        (CStr "day_year", [CStr "first"; CStr "second"])].

(** The same dates as date-time cells. *)
Definition meetings : DataFrame :=
  mkDF None (range_index 2) None
       [(CStr "day", [CTime 1705276800000000000; CTime 1709251200000000000]);
        (CStr "room", [CStr "a"; CStr "b"])].

(** A parser of query strings that knows two conditions. *)
Definition sample_parse_query (condition : string) : option Expr :=
  if (condition =? "salary < salary.max()")%string then
    Some (ECmp Lt (TCol "salary") (TAgg Max "salary"))
  else if (condition =? "salary > 50 and score <= 1")%string then
    Some (EAnd (ECmp Gt (TCol "salary") (TLit (CInt 50)))
               (ECmp Le (TCol "score") (TLit (CInt 1))))
  else None.

(** A parser that also knows the two halves of the conjunction. *)
Definition sample_parse_parts (condition : string) : option Expr :=
  if (condition =? "salary > 50")%string then
    Some (ECmp Gt (TCol "salary") (TLit (CInt 50)))
  else if (condition =? "score <= 1")%string then
    Some (ECmp Le (TCol "score") (TLit (CInt 1)))
  else sample_parse_query condition.

(** ** The language model and the natural-language bridge *)

(** [a or b] on two optional strings: [None] and the empty string are
    falsy. *)
Definition py_or (a b : option string) : option string :=
  match a with
  | Some (String _ _) => a
  | _ => b
  end.

Definition truthy (a : option string) : bool :=
  match a with
  | Some (String _ _) => true
  | _ => false
  end.

(** The arguments [get_llm] gives the constructor of the chat model. *)
Record LlmConfig : Type := mkLlmConfig {
  llm_model : string;
  google_api_key : string;
  llm_temperature : Z;
  convert_system_message_to_human : bool
}.

(** What the service finds around it: the store, the file system's
    [os.path.exists], the environment variables, the clock (as the two
    texts the endpoints print), the constructor of the chat model and
    the agent built on it, which answers a query on a table or fails. *)
Record World (Llm Answer : Type) : Type := mkWorld {
  w_store : Store;
  path_exists : string -> bool;
  getenv : string -> option string;
  now_stamp : string;
  now_iso : string;
  chat_model : LlmConfig -> Result Llm;
  agent_invoke : Llm -> DataFrame -> string -> Result Answer
}.
Arguments w_store {Llm Answer} w.
Arguments path_exists {Llm Answer} w.
Arguments getenv {Llm Answer} w.
Arguments now_stamp {Llm Answer} w.
Arguments now_iso {Llm Answer} w.
Arguments chat_model {Llm Answer} w.
Arguments agent_invoke {Llm Answer} w.

Section Bridge.

Context {Llm Answer : Type}.
Variable w : World Llm Answer.

Definition get_llm : Result Llm :=
  try_except
    (match py_or (getenv w "GEMINI_API_KEY") (getenv w "GOOGLE_API_KEY") with
     | Some (String c k) =>
         chat_model w (mkLlmConfig "gemini-1.5-flash" (String c k) 0 true)
     | _ =>
         Raise (ValueError
                  "GEMINI_API_KEY or GOOGLE_API_KEY not found in environment")
     end)
    (fun e => Raise (HTTPException 500
                       ("LLM initialization failed: " ++ str_exc e))).

(** [NLQueryProcessor(llm).process_query(df, query)]. *)
Definition process_query (llm : Llm) (df : DataFrame) (query : string)
  : Result Answer :=
  try_except
    (agent_invoke w llm df query)
    (fun e => Raise (ValueError ("Failed to process query: " ++ str_exc e))).

Record AnalysisInfo : Type := mkAnalysisInfo {
  an_status : string;
  an_query : string;
  an_result : Answer;
  an_rows_analyzed : nat;
  an_columns : list Label;
  an_timestamp : string;
  an_llm_provider : string
}.

Definition analyze_data (file_path query : string) (sheet_name : option string)
  : Result AnalysisInfo :=
  try_except
    (if negb (path_exists w file_path) then
       Raise (HTTPException 404 "File not found")
     else
       df <- ExcelDataHandler.read_excel (w_store w) file_path sheet_name ;;
       llm <- get_llm ;;
       result <- process_query llm df query ;;
       Ok (mkAnalysisInfo "success" query result (nrows df) (columns df)
             (now_iso w) "Google Gemini"))
    (fun e => Raise (HTTPException 500 (str_exc e))).

Record HealthInfo : Type := mkHealthInfo {
  h_status : string;
  h_timestamp : string;
  h_api : string;
  h_llm : string;
  h_provider : string
}.

Definition health_check : HealthInfo :=
  let gemini_key :=
    py_or (getenv w "GEMINI_API_KEY") (getenv w "GOOGLE_API_KEY") in
  mkHealthInfo "healthy" (now_iso w) "operational"
    (if truthy gemini_key then "configured" else "not configured")
    "Google Gemini".

End Bridge.

(** ** The operation endpoints *)

(** The files an endpoint has written to when it returns or raises,
    oldest first, and its outcome.  A file holds the table written to it;
    after a write that failed it is there or not, and holds part of the
    table at most. *)
Inductive Content : Type :=
| Holds (df : DataFrame)
| Unfinished.

Definition Written : Type := list (string * Content).

Definition IO (A : Type) : Type := Written * Result A.

Definition io_lift {A : Type} (r : Result A) : IO A := ([], r).

Definition io_bind {A B : Type} (m : IO A) (k : A -> IO B) : IO B :=
  match m with
  | (log, Ok a) => let (log', r) := k a in ((log ++ log')%list, r)
  | (log, Raise e) => (log, Raise e)
  end.

Notation "x <~ m ;; k" := (io_bind m (fun x => k))
  (at level 61, m at next level, right associativity).

(** [try: body / except Exception as e: handler e] around effects:
    what the body wrote before it raised stays written. *)
Definition io_try {A : Type} (body : IO A) (handler : Exc -> Result A) : IO A :=
  match body with
  | (log, Ok a) => (log, Ok a)
  | (log, Raise e) => (log, handler e)
  end.

(** [ExcelDataHandler.write_excel] with the file it leaves. *)
Definition write_excel_io (st : Store) (df : DataFrame) (file_path : string)
  : IO unit :=
  match ExcelDataHandler.write_excel st df file_path with
  | Ok u => ([(file_path, Holds df)], Ok u)
  | Raise e => ([(file_path, Unfinished)], Raise e)
  end.

(** [OUTPUT_DIR / f"{prefix}{stamp}.xlsx"]. *)
Definition output_path (prefix stamp : string) : string :=
  "outputs/" ++ prefix ++ stamp ++ ".xlsx".

(** [df[[c1, c2, ...]]]: the named columns in the order asked. *)
Definition select_columns (df : DataFrame) (cols : list string)
  : Result DataFrame :=
  cs <- traverse (fun c => s <- getitem df c ;; Ok (CStr c, s)) cols ;;
  Ok (mkDF (df_index_name df) (df_index df) (df_columns_name df) cs).

(** [df.head(n)]. *)
Definition head (n : nat) (df : DataFrame) : DataFrame :=
  mkDF (df_index_name df) (firstn n (df_index df)) (df_columns_name df)
       (map (fun c => (fst c, firstn n (snd c))) (df_cols df)).

(** A Python dict keyed by labels, in insertion order: assigning to a
    key that is there keeps its place and changes its value. *)
Fixpoint assoc_set {V : Type} (k : Label) (v : V) (d : list (Label * V))
  : list (Label * V) :=
  match d with
  | [] => [(k, v)]
  | (k', v') :: d' =>
      if cell_eqb k k' then (k, v) :: d' else (k', v') :: assoc_set k v d'
  end.

Definition dict_of_items {V : Type} (items : list (Label * V))
  : list (Label * V) :=
  fold_left (fun d kv => assoc_set (fst kv) (snd kv) d) items [].

(** [d.get(k)]. *)
Fixpoint assoc_get {V : Type} (k : Label) (d : list (Label * V)) : option V :=
  match d with
  | [] => None
  | (k', v) :: d' => if cell_eqb k k' then Some v else assoc_get k d'
  end.

(** A row as a dict keyed by column label. *)
Definition RowDict : Type := list (Label * Cell).

Definition row_dict (cols : list (Label * Series)) (i : nat) : RowDict :=
  dict_of_items (map (fun c => (fst c, nth i (snd c) CNaT)) cols).

(** [df.to_dict('records')]: the rows are zipped from the columns, so a
    table without columns gives no record, whatever its index. *)
Definition to_records (df : DataFrame) : list RowDict :=
  match df_cols df with
  | [] => []
  | cols => map (row_dict cols) (seq 0 (nrows df))
  end.

Record MathInfo : Type := mkMathInfo {
  m_status : string;
  m_operation : string;
  m_result_file : string;
  m_sample_results : list RowDict
}.

Record FilterInfo : Type := mkFilterInfo {
  f_status : string;
  f_condition : string;
  f_rows_before : nat;
  f_rows_after : nat;
  f_result_file : string;
  f_sample_results : list RowDict
}.

Record AggregateInfo : Type := mkAggregateInfo {
  a_status : string;
  a_aggregations : RowDict
}.

Record PivotInfo : Type := mkPivotInfo {
  p_status : string;
  p_result_file : string;
  p_pivot_shape : nat * nat;
  p_sample_results : list (Label * RowDict)
}.

(** [s.split(',')]. *)
Fixpoint split_commas (s : string) : list string :=
  match s with
  | EmptyString => [EmptyString]
  | String c s' =>
      if (c =? ",")%char then EmptyString :: split_commas s'
      else match split_commas s' with
           | h :: t => String c h :: t
           | [] => [String c EmptyString]
           end
  end.

(** [lst[0]]. *)
Definition first_item {A : Type} (l : list A) : Result A :=
  match l with
  | x :: _ => Ok x
  | [] => Raise (IndexError "list index out of range")
  end.

(** [df.to_dict()]: per column label, the dict of its cells by row
    label. *)
Definition to_dict (df : DataFrame) : list (Label * RowDict) :=
  dict_of_items
    (map (fun c => (fst c, dict_of_items (combine (df_index df) (snd c))))
         (df_cols df)).

Module Api.

Section Endpoints.

(** The parameters of the engine's operations, and Python's
    [str.strip]. *)
Variable object_binop : MathOp -> Series -> Series -> Result Series.
Variable object_agg : AggFunc -> Series -> Result Cell.
Variable named_agg : string -> Series -> Result Cell.
Variable parse_query : string -> option Expr.
Variable object_cmp : Cmp -> Cell -> Cell -> Result bool.
Variable strip : string -> string.

Variable st : Store.
Variable stamp : string.

Definition http_500 {A : Type} (e : Exc) : Result A :=
  Raise (HTTPException 500 (str_exc e)).

(** The engine's [filter_data], which the endpoint of the same name
    calls. *)
Definition DataOperationsEngine_filter_data : DataFrame -> string -> Result DataFrame :=
  filter_data parse_query object_cmp object_agg.

Definition math_operation (file_path operation col1 col2 result_col : string)
           (sheet_name : option string) : IO MathInfo :=
  io_try
    (df <~ io_lift (ExcelDataHandler.read_excel st file_path sheet_name) ;;
     df_result <~ io_lift (basic_math object_binop df operation col1 col2
                                      result_col) ;;
     let out := output_path "math_result_" stamp in
     _ <~ write_excel_io st df_result out ;;
     sample <~ io_lift (select_columns df_result [col1; col2; result_col]) ;;
     io_lift (Ok (mkMathInfo "success" operation out
                    (to_records (head 10 sample)))))
    http_500.

Definition aggregate_data (file_path cols functions : string)
           (sheet_name : option string) : Result AggregateInfo :=
  try_except
    (df <- ExcelDataHandler.read_excel st file_path sheet_name ;;
     let col_list := map strip (split_commas cols) in
     let func_list := map strip (split_commas functions) in
     df_result <- aggregations object_agg df col_list func_list ;;
     record <- first_item (to_records df_result) ;;
     Ok (mkAggregateInfo "success" record))
    http_500.

Definition filter_data (file_path condition : string)
           (sheet_name : option string) : IO FilterInfo :=
  io_try
    (df <~ io_lift (ExcelDataHandler.read_excel st file_path sheet_name) ;;
     df_filtered <~ io_lift (DataOperationsEngine_filter_data df condition) ;;
     let out := output_path "filtered_" stamp in
     _ <~ write_excel_io st df_filtered out ;;
     io_lift (Ok (mkFilterInfo "success" condition (nrows df)
                    (nrows df_filtered) out
                    (to_records (head 10 df_filtered)))))
    http_500.

Definition create_pivot (file_path values index cols aggfunc : string)
           (sheet_name : option string) : IO PivotInfo :=
  io_try
    (df <~ io_lift (ExcelDataHandler.read_excel st file_path sheet_name) ;;
     df_pivot <~ io_lift (pivot_table object_agg named_agg df values index
                                      cols aggfunc) ;;
     let out := output_path "pivot_" stamp in
     flat <~ io_lift (reset_index df_pivot) ;;
     _ <~ write_excel_io st flat out ;;
     io_lift (Ok (mkPivotInfo "success" out
                    (nrows df_pivot, List.length (df_cols df_pivot))
                    (to_dict (head 10 df_pivot)))))
    http_500.

End Endpoints.

End Api.

(** ** Vocabulary of the properties *)



(** Two cells that hold the same number: the same cell, or two floats
    equal as numbers, which differ in the sign of a zero at most. *)
Definition same_number (a b : Cell) : Prop :=
  a = b \/ exists x y, a = CFloat x /\ b = CFloat y /\ (x =? y)%float = true.

(** Two records with the same keys in the same order and the same
    numbers under them. *)
Definition same_record (d d' : dict) : Prop :=
  Forall2 (fun kv kv' => fst kv = fst kv' /\ same_number (snd kv) (snd kv'))
          d d'.


(** Whether two key values are the same value: numbers by value (an
    integer and a float when the float is that integer), NaN with NaN,
    text with text, date-times by their instant, NaT with NaT. *)
Definition same_key_value (a b : Cell) : bool :=
  match a, b with
  | CInt x, CInt y => x =? y
  | CFloat x, CFloat y =>
      (x =? y)%float || (PrimFloat.is_nan x && PrimFloat.is_nan y)
  | CInt x, CFloat f | CFloat f, CInt x =>
      match float_exact_Z f with
      | Some z => x =? z
      | None => false
      end
  | CStr x, CStr y => (x =? y)%string
  | CTime x, CTime y => x =? y
  | CNaT, CNaT => true
  | _, _ => false
  end.

(** No key value occurs twice in the column. *)
Fixpoint unique_keys (ks : list Cell) : bool :=
  match ks with
  | [] => true
  | k :: ks' => negb (existsb (same_key_value k) ks') && unique_keys ks'
  end.

(** The types of cell a column can hold throughout. *)
Inductive CellType : Type := IntCell | FloatCell | TextCell | TimeCell.

Definition has_type (t : CellType) (c : Cell) : bool :=
  match t with
  | IntCell => is_int c
  | FloatCell => is_float c
  | TextCell => is_str c
  | TimeCell => is_time c
  end.



(** A name that Python prints between apostrophes as it stands:
    printable ASCII without apostrophe and backslash. *)
Definition plain_char (c : ascii) : bool :=
  let n := nat_of_ascii c in
  (32 <=? n)%nat && (n <? 127)%nat && negb (n =? 39)%nat && negb (n =? 92)%nat.

Fixpoint plain_text (s : string) : bool :=
  match s with
  | EmptyString => true
  | String c s' => plain_char c && plain_text s'
  end.

(** The suffixes of the four columns [date_operations] derives. *)
Definition derived_suffixes : list string :=
  ["_year"; "_month"; "_day"; "_dayofweek"].

(** Whether a string holds an underscore (no function name does). *)
Fixpoint has_underscore (s : string) : bool :=
  match s with
  | EmptyString => false
  | String c s' => (c =? "_")%char || has_underscore s'
  end.

(** What the record holds once the pairs in [P] have been stored:
    [value col f] is the scalar of the pair. *)
Definition record_of (value : string -> AggFunc -> Cell -> Prop)
           (P : string -> AggFunc -> Prop) (d : dict) : Prop :=
  (forall k, In k (dict_keys d) <->
             exists col f, P col f /\ k = agg_key col f) /\
  (forall col f v, P col f -> value col f v ->
                   dict_get (agg_key col f) d = Some v) /\
  NoDup (dict_keys d).

(** The scalar [aggregations] computes for a column and a function:
    the result of the reduction of that column. *)
Definition agg_value (object_agg : AggFunc -> Series -> Result Cell)
           (df : DataFrame) (col : string) (f : AggFunc) (v : Cell) : Prop :=
  exists s, getitem df col = Ok s /\ series_agg object_agg f s = Ok v.



(** The row labels and the column labels of the pivot of a list of
    triples: the distinct index values and pivot values, sorted. *)
Definition pivot_rows (l : list Triple) : list Label :=
  sort_by cell_leb (nodup cell_eq_dec (map (fun kv => fst (fst kv)) l)).

Definition pivot_cols (l : list Triple) : list Label :=
  sort_by cell_leb (nodup cell_eq_dec (map (fun kv => snd (fst kv)) l)).


(** The (index, column) combinations of the index values and the
    column values of a list of triples that none of its triples has. *)
Definition absent_keys (l : list Triple) : list (Cell * Cell) :=
  filter (fun k =>
            negb (existsb (fun t => if key_eq_dec (fst t) k then true else false)
                          l))
         (list_prod (nodup cell_eq_dec (map (fun t => fst (fst t)) l))
                    (nodup cell_eq_dec (map (fun t => snd (fst t)) l))).


(** An integer as the float of the same number; any other cell as it
    is. *)
Definition as_float (c : Cell) : Cell :=
  match c with
  | CInt z => CFloat (float_of_int64 z)
  | _ => c
  end.



(** A table with its date column replaced by [parsed] and the four
    derived columns set from it. *)
Definition with_derived (df : DataFrame) (date_col : string) (parsed : Series)
  : DataFrame :=
  setitem
    (setitem
       (setitem
          (setitem (setitem df date_col parsed)
                   (date_col ++ "_year") (dt_field ts_year parsed))
          (date_col ++ "_month") (dt_field ts_month parsed))
       (date_col ++ "_day") (dt_field ts_day parsed))
    (date_col ++ "_dayofweek") (dt_field ts_dayofweek parsed).


(** The column names a condition mentions. *)
Definition term_columns (t : Term) : list string :=
  match t with
  | TCol name => [name]
  | TLit _ => []
  | TAgg _ name => [name]
  end.

Fixpoint expr_columns (e : Expr) : list string :=
  match e with
  | ECmp _ l r => (term_columns l ++ term_columns r)%list
  | EAnd a b | EOr a b => (expr_columns a ++ expr_columns b)%list
  | ENot a => expr_columns a
  end.

(** ** Sample instances of the parameters and sample tables

    The examples below run the engine on these. *)

Definition raise_binop : MathOp -> Series -> Series -> Result Series :=
  fun _ _ _ => Raise (TypeError "unsupported operand type(s)").

Definition raise_agg : AggFunc -> Series -> Result Cell :=
  fun _ _ => Raise (TypeError "does not support reduction").

Definition raise_named_agg : string -> Series -> Result Cell :=
  fun _ _ => Raise (TypeError "unsupported aggregation function").

Definition raise_cmp : Cmp -> Cell -> Cell -> Result bool :=
  fun _ _ _ => Raise (TypeError "invalid comparison").

(** Three columns a sheet of employees could hold. *)
Definition staff : DataFrame :=
  mkDF None (range_index 3) None
       [(CStr "salary", [CInt 100; CInt 250; CInt 0]);
        (CStr "score", [CFloat 0.5; CFloat 0; CFloat 2]);
        (CStr "department", [CStr "ops"; CStr "dev"; CStr "ops"])].


(** Two sheets that share the key column [id]. *)
Definition people : DataFrame :=
  mkDF None (range_index 3) None
       [(CStr "id", [CInt 1; CInt 2; CInt 3]);
        (CStr "name", [CStr "ann"; CStr "bob"; CStr "cy"])].

Definition badges : DataFrame :=
  mkDF None (range_index 4) None
       [(CStr "id", [CInt 3; CInt 2; CInt 4; CInt 5]);
        (CStr "badge", [CStr "red"; CStr "blue"; CStr "green"; CStr "grey"])].

(** A sheet whose ids were typed as text. *)
Definition tags : DataFrame :=
  mkDF None (range_index 2) None
       [(CStr "id", [CStr "1"; CStr "2"]);
        (CStr "tag", [CStr "new"; CStr "old"])].

(** Account numbers beyond the integers float64 tells apart, and a
    sheet that holds one of them as a float. *)
Definition accounts : DataFrame :=
  mkDF None (range_index 2) None
       [(CStr "id", [CInt 9007199254740992; CInt 9007199254740993]);
        (CStr "owner", [CStr "ann"; CStr "bob"])].

Definition balances : DataFrame :=
  mkDF None (range_index 1) None
       [(CStr "id", [CFloat 9007199254740992]);
        (CStr "balance", [CFloat 10.5])].

(** Parameters of the join for the examples: every key column of mixed
    objects is accepted, a join on an index level is not run, and the
    rows keep the order of the left table, followed by the unmatched
    rows of the right one. *)
Definition accept_keys : Series -> Series -> Result unit :=
  fun _ _ => Ok tt.

Definition no_level_merge
  : DataFrame -> DataFrame -> string -> How -> Result DataFrame :=
  fun _ _ _ _ => Raise (TypeError "join on an index level").

Definition left_order
  : How -> list Cell -> list Cell -> RowPair -> RowPair -> bool :=
  fun _ _ _ _ _ => true.

(** Sales per region and quarter: one row per (region, quarter) in
    [sales], two rows for (north, q1) in [orders]. *)
Definition sales : DataFrame :=
  mkDF None (range_index 3) None
       [(CStr "region", [CStr "north"; CStr "north"; CStr "south"]);
        (CStr "quarter", [CStr "q1"; CStr "q2"; CStr "q1"]);
        (CStr "amount", [CFloat 1.5; CFloat 2; CFloat 3])].



(** The pivot of [sales]: amounts by region and quarter. *)
Definition sales_pivot : DataFrame :=
  mkDF (Some "region") [CStr "north"; CStr "south"] (Some "quarter")
       [(CStr "q1", [CFloat 1.5; CFloat 3]);
        (CStr "q2", [CFloat 2; CFloat nan])].

(** A [strip] that knows one kind of white space, the space character. *)
Fixpoint lstrip_spaces (s : string) : string :=
  match s with
  | String " " s' => lstrip_spaces s'
  | _ => s
  end.

Fixpoint rstrip_spaces (s : string) : string :=
  match s with
  | EmptyString => EmptyString
  | String c s' =>
      match rstrip_spaces s' with
      | EmptyString => if (c =? " ")%char then EmptyString
                       else String c EmptyString
      | t => String c t
      end
  end.

Definition strip_spaces (s : string) : string :=
  rstrip_spaces (lstrip_spaces s).

(** A store that holds the sheet of employees under one path, takes
    every write, and knows no other file. *)
Definition staff_store : Store :=
  mkStore (fun _ _ => Ok tt)
          (fun _ => Ok ["Sheet1"])
          (fun file_path _ =>
             if (file_path =? "uploads/staff.xlsx")%string then Ok staff
             else Raise (OSError "No such file or directory"))
          (fun _ _ _ => Ok tt).

(** The same for the sheet of sales. *)
Definition sales_store : Store :=
  mkStore (fun _ _ => Ok tt)
          (fun _ => Ok ["Sheet1"])
          (fun file_path _ =>
             if (file_path =? "uploads/sales.xlsx")%string then Ok sales
             else Raise (OSError "No such file or directory"))
          (fun _ _ _ => Ok tt).

(** The answer of /operations/filter for the two employees that earn
    more than 50 with a score of at most 1. *)
Definition staff_filter_answer : FilterInfo :=
  mkFilterInfo "success" "salary > 50 and score <= 1" 3 2
    (output_path "filtered_" "20240115_093000")
    (to_records (head 10 (select_rows [true; true; false] staff))).

(** The pivot of the sales as /operations/pivot writes it, and its
    answer. *)
Definition sales_pivot_flat : DataFrame :=
  mkDF None (range_index 2) (Some "quarter")
       [(CStr "region", [CStr "north"; CStr "south"]);
        (CStr "q1", [CFloat 1.5; CFloat 3]);
        (CStr "q2", [CFloat 2; CFloat nan])].

Definition sales_pivot_answer : PivotInfo :=
  mkPivotInfo "success" (output_path "pivot_" "20240115_093000") (2, 2)%nat
    (to_dict (head 10 sales_pivot)).

(** A service without any API key in its environment; its agent answers
    with a text. *)
Definition keyless_world : World unit string :=
  mkWorld unit string staff_store
          (fun file_path => (file_path =? "uploads/staff.xlsx")%string)
          (fun _ => None)
          "20240115_093000" "2024-01-15T09:30:00"
          (fun _ => Ok tt)
          (fun _ _ _ => Ok "42").

(** The same service with an empty [GEMINI_API_KEY] and a
    [GOOGLE_API_KEY]. *)
Definition google_world : World unit string :=
  mkWorld unit string staff_store
          (fun file_path => (file_path =? "uploads/staff.xlsx")%string)
          (fun name =>
             if (name =? "GEMINI_API_KEY")%string then Some ""
             else if (name =? "GOOGLE_API_KEY")%string then Some "g-key"
             else None)
          "20240115_093000" "2024-01-15T09:30:00"
          (fun _ => Ok tt)
          (fun _ _ _ => Ok "42").

(* ===================================================================== *)
(** * Properties *)
(* ===================================================================== *)

(** ** Facts on float64 comparisons *)

Lemma compare_cont_Eq (m1 m2 : positive) :
  Pos.compare_cont Datatypes.Eq m1 m2 = (m1 ?= m2)%positive.
Proof. reflexivity. Qed.



Lemma SFcompare_refl (f : spec_float) :
  f <> S754_nan -> SFcompare f f = Some Datatypes.Eq.
Proof.
  destruct f as [s|s| |s m e]; simpl; intros H; try congruence.
  - now destruct s.
  - destruct s; rewrite Z.compare_refl, compare_cont_Eq, Pos.compare_refl;
      reflexivity.
Qed.


Lemma SFcompare_antisym (a b : spec_float) (c : comparison) :
  SFcompare a b = Some c -> SFcompare b a = Some (CompOpp c).
Proof.
  destruct a as [sa|sa| |sa ma ea], b as [sb|sb| |sb mb eb]; simpl;
    intros H; try discriminate; injection H as <-; f_equal;
    try (now destruct sa); try (now destruct sb);
    try (now destruct sa, sb).
  destruct sa, sb; try reflexivity;
    rewrite !compare_cont_Eq, (Z.compare_antisym ea eb),
      (Pos.compare_antisym ma mb);
    destruct (ea ?= eb)%Z; simpl; try reflexivity;
    destruct (ma ?= mb)%positive; reflexivity.
Qed.



Lemma Prim2SF_inj (x y : float) : Prim2SF x = Prim2SF y -> x = y.
Proof.
  intros H. rewrite <- (SF2Prim_Prim2SF x), <- (SF2Prim_Prim2SF y).
  now rewrite H.
Qed.

Lemma is_nan_false (x : float) :
  PrimFloat.is_nan x = false <-> Prim2SF x <> S754_nan.
Proof.
  unfold PrimFloat.is_nan. rewrite FloatAxioms.eqb_spec. unfold SFeqb. split.
  - intros H E. rewrite E in H. discriminate.
  - intros H. now rewrite SFcompare_refl.
Qed.

Lemma is_nan_true (x : float) : PrimFloat.is_nan x = true -> x = nan.
Proof.
  intros H. apply Prim2SF_inj.
  destruct (Prim2SF x) eqn:E; try reflexivity;
    assert (Hn : PrimFloat.is_nan x = false)
      by (apply is_nan_false; rewrite E; discriminate);
    congruence.
Qed.





Lemma feqb_nan_l (x y : float) :
  PrimFloat.is_nan x = true -> (x =? y)%float = false.
Proof.
  intros H. apply is_nan_true in H. subst.
  rewrite FloatAxioms.eqb_spec. reflexivity.
Qed.

Lemma feqb_sym (x y : float) : (x =? y)%float = (y =? x)%float.
Proof.
  rewrite !FloatAxioms.eqb_spec. unfold SFeqb.
  destruct (SFcompare (Prim2SF x) (Prim2SF y)) as [c|] eqn:E.
  - rewrite (SFcompare_antisym _ _ _ E). now destruct c.
  - destruct (SFcompare (Prim2SF y) (Prim2SF x)) as [c|] eqn:E';
      [|reflexivity].
    apply SFcompare_antisym in E'. congruence.
Qed.







(** ** Facts on the order of text *)





(** ** Folding a choice between two values over a list *)

Section FoldPick.

Context {A : Type}.
Variable le : A -> A -> Prop.
Variable P : A -> Prop.
Variable pick : A -> A -> A.
Hypothesis pick_in : forall a b, pick a b = a \/ pick a b = b.
Hypothesis pick_l : forall a b, P a -> P b -> le (pick a b) a.
Hypothesis pick_r : forall a b, P a -> P b -> le (pick a b) b.
Hypothesis le_refl : forall a, P a -> le a a.
Hypothesis le_trans : forall a b c, le a b -> le b c -> le a c.




End FoldPick.

(** ** Results *)

Lemma bind_ok {A B : Type} (r : Result A) (k : A -> Result B) (b : B) :
  bind r k = Ok b -> exists a, r = Ok a /\ k a = Ok b.
Proof. destruct r as [a|e]; simpl; [eauto | discriminate]. Qed.

(** ** Columns of a table *)

Lemma cell_eqb_refl (a : Cell) : cell_eqb a a = true.
Proof. unfold cell_eqb. destruct (cell_eq_dec a a); congruence. Qed.

Lemma cell_eqb_eq (a b : Cell) : cell_eqb a b = true <-> a = b.
Proof. unfold cell_eqb. destruct (cell_eq_dec a b); split; congruence. Qed.

Lemma cell_eqb_neq (a b : Cell) : cell_eqb a b = false <-> a <> b.
Proof. unfold cell_eqb. destruct (cell_eq_dec a b); split; congruence. Qed.

Lemma lookup_set_col_same (l : Label) (s : Series) (cs : list (Label * Series)) :
  lookup_col l (set_col l s cs) = Some s.
Proof.
  induction cs as [|[l' s'] cs IH]; simpl.
  - now rewrite cell_eqb_refl.
  - destruct (cell_eqb l l') eqn:E; simpl.
    + now rewrite cell_eqb_refl.
    + now rewrite E.
Qed.

Lemma lookup_set_col_other (l l' : Label) (s : Series)
      (cs : list (Label * Series)) :
  l' <> l -> lookup_col l' (set_col l s cs) = lookup_col l' cs.
Proof.
  intros Hne. induction cs as [|[l0 s0] cs IH]; simpl.
  - apply cell_eqb_neq in Hne. now rewrite Hne.
  - destruct (cell_eqb l l0) eqn:E; simpl.
    + apply cell_eqb_eq in E. subst l0.
      apply cell_eqb_neq in Hne. now rewrite Hne.
    + now rewrite IH.
Qed.

Lemma lookup_col_In (l : Label) (cs : list (Label * Series)) (s : Series) :
  lookup_col l cs = Some s -> In (l, s) cs.
Proof.
  induction cs as [|[l' s'] cs IH]; simpl; [discriminate|].
  destruct (cell_eqb l l') eqn:E.
  - apply cell_eqb_eq in E. intros [= ->]. left. now subst.
  - intros H. right. now apply IH.
Qed.

Lemma getitem_setitem_same (df : DataFrame) (col : string) (s : Series) :
  getitem (setitem df col s) col = Ok s.
Proof. unfold getitem, setitem. simpl. now rewrite lookup_set_col_same. Qed.

Lemma getitem_setitem_other (df : DataFrame) (col col' : string) (s : Series) :
  col' <> col -> getitem (setitem df col s) col' = getitem df col'.
Proof.
  intros Hne. unfold getitem, setitem. simpl.
  rewrite lookup_set_col_other; [reflexivity | congruence].
Qed.

Lemma nrows_setitem (df : DataFrame) (col : string) (s : Series) :
  nrows (setitem df col s) = nrows df.
Proof. reflexivity. Qed.

Lemma getitem_length (df : DataFrame) (col : string) (s : Series) :
  wf_df df -> getitem df col = Ok s -> List.length s = nrows df.
Proof.
  intros [_ Hlen] H. unfold getitem in H.
  destruct (lookup_col (CStr col) (df_cols df)) eqn:E; [|discriminate].
  injection H as ->. apply lookup_col_In in E.
  rewrite Forall_forall in Hlen. exact (Hlen _ E).
Qed.

Lemma map2_length {A B C : Type} (f : A -> B -> C) (xs : list A) (ys : list B) :
  List.length xs = List.length ys ->
  List.length (map2 f xs ys) = List.length xs.
Proof.
  revert ys. induction xs as [|x xs IH]; intros [|y ys]; simpl; try easy.
  intros [= H]. now rewrite IH.
Qed.

Lemma map2_nth_error {A B C : Type} (f : A -> B -> C) (xs : list A)
      (ys : list B) (i : nat) (x : A) (y : B) :
  nth_error xs i = Some x -> nth_error ys i = Some y ->
  nth_error (map2 f xs ys) i = Some (f x y).
Proof.
  revert ys i. induction xs as [|x0 xs IH]; intros [|y0 ys] [|i]; simpl;
    try discriminate.
  - now intros [= ->] [= ->].
  - apply IH.
Qed.

Lemma forallb_nth_error {A : Type} (p : A -> bool) (xs : list A) (i : nat) (x : A) :
  forallb p xs = true -> nth_error xs i = Some x -> p x = true.
Proof.
  intros H Hn. rewrite forallb_forall in H. apply H.
  eapply nth_error_In; eauto.
Qed.

(** ** basic_math *)

Lemma dtype_int64_cells (s : Series) (i : nat) (x : Cell) :
  dtype_of s = int64 -> nth_error s i = Some x -> exists z, x = CInt z.
Proof.
  unfold dtype_of. intros H Hn.
  destruct (forallb is_int s) eqn:E.
  - pose proof (forallb_nth_error _ _ _ _ E Hn) as Hx.
    destruct x; try discriminate. eauto.
  - destruct (forallb is_float s); [discriminate|].
    destruct (forallb is_str s); discriminate.
Qed.

Lemma dtype_float64_cells (s : Series) (i : nat) (x : Cell) :
  dtype_of s = float64 -> nth_error s i = Some x -> exists f, x = CFloat f.
Proof.
  unfold dtype_of. intros H Hn.
  destruct (forallb is_int s) eqn:E; [discriminate|].
  destruct (forallb is_float s) eqn:E'.
  - pose proof (forallb_nth_error _ _ _ _ E' Hn) as Hx.
    destruct x; try discriminate. eauto.
  - destruct (forallb is_str s); discriminate.
Qed.

(** On two numeric columns the operator never fails, whatever the
    values, and works row by row. *)
Lemma series_binop_numeric (ob : MathOp -> Series -> Series -> Result Series)
      (op : MathOp) (a b : Series) :
  is_numeric a = true -> is_numeric b = true ->
  exists r, series_binop ob op a b = Ok r /\
    (List.length a = List.length b -> List.length r = List.length a) /\
    forall i x y, nth_error a i = Some x -> nth_error b i = Some y ->
                  nth_error r i = Some (scalar_op op x y).
Proof.
  unfold is_numeric, series_binop. intros Ha Hb.
  destruct (dtype_of a) eqn:Da; try discriminate;
    destruct (dtype_of b) eqn:Db; try discriminate;
    eexists; (split; [reflexivity|]); (split; [apply map2_length|]);
    intros i x y Hx Hy; rewrite (map2_nth_error _ _ _ _ _ _ Hx Hy); f_equal.
  - destruct (dtype_int64_cells _ _ _ Da Hx) as [z ->].
    destruct (dtype_int64_cells _ _ _ Db Hy) as [w ->]. reflexivity.
  - destruct (dtype_int64_cells _ _ _ Da Hx) as [z ->].
    destruct (dtype_float64_cells _ _ _ Db Hy) as [w ->]. reflexivity.
  - destruct (dtype_float64_cells _ _ _ Da Hx) as [z ->].
    destruct (dtype_int64_cells _ _ _ Db Hy) as [w ->]. reflexivity.
  - destruct (dtype_float64_cells _ _ _ Da Hx) as [z ->].
    destruct (dtype_float64_cells _ _ _ Db Hy) as [w ->]. reflexivity.
Qed.

Lemma basic_math_known (ob : MathOp -> Series -> Series -> Result Series)
      (df : DataFrame) (operation : string) (op : MathOp)
      (col1 col2 result_col : string) :
  op_of_name operation = Some op ->
  basic_math ob df operation col1 col2 result_col =
  try_except (apply_math ob df op col1 col2 result_col)
    (fun e => Raise (ValueError ("Math operation failed: " ++ str_exc e))).
Proof.
  unfold op_of_name, basic_math.
  destruct (operation =? "add")%string; [now intros [= <-]|].
  destruct (operation =? "subtract")%string; [now intros [= <-]|].
  destruct (operation =? "multiply")%string; [now intros [= <-]|].
  destruct (operation =? "divide")%string; [now intros [= <-]|].
  discriminate.
Qed.

(** C1.  For an operator among add, subtract, multiply, divide and two
    existing numeric source columns, [basic_math] returns a table with
    the row count of its input whose result column holds, row for row,
    the operator applied to the cells of the two source columns: on two
    integers the sum, difference or product wrapped to 64 bits, or the
    float64 quotient; with a float on either side the float64 sum,
    difference, product or quotient of the two cells as floats. *)
Theorem basic_math_elementwise
        (ob : MathOp -> Series -> Series -> Result Series)
        (df : DataFrame) (operation : string) (op : MathOp)
        (col1 col2 result_col : string) (a b : Series) :
  wf_df df ->
  op_of_name operation = Some op ->
  getitem df col1 = Ok a ->
  getitem df col2 = Ok b ->
  is_numeric a = true ->
  is_numeric b = true ->
  exists df' r,
    basic_math ob df operation col1 col2 result_col = Ok df' /\
    nrows df' = nrows df /\
    getitem df' result_col = Ok r /\
    List.length r = nrows df /\
    forall i x y,
      nth_error a i = Some x -> nth_error b i = Some y ->
      nth_error r i =
      Some (match x, y with
            | CInt zx, CInt zy =>
                match op with
                | Add => CInt ((zx + zy + 2 ^ 63) mod 2 ^ 64 - 2 ^ 63)
                | Subtract => CInt ((zx - zy + 2 ^ 63) mod 2 ^ 64 - 2 ^ 63)
                | Multiply => CInt ((zx * zy + 2 ^ 63) mod 2 ^ 64 - 2 ^ 63)
                | Divide => CFloat (float_of_int64 zx / float_of_int64 zy)
                end
            | _, _ =>
                match op with
                | Add => CFloat (float_of x + float_of y)
                | Subtract => CFloat (float_of x - float_of y)
                | Multiply => CFloat (float_of x * float_of y)
                | Divide => CFloat (float_of x / float_of y)
                end
            end).
Proof.
  intros Hwf Hop Ha Hb Na Nb.
  destruct (series_binop_numeric ob op a b Na Nb) as (r & Hr & Hlen & Hcells).
  exists (setitem df result_col r), r.
  rewrite (basic_math_known _ _ _ _ _ _ _ Hop).
  unfold apply_math. rewrite Ha, Hb. simpl. rewrite Hr. simpl.
  repeat split.
  - apply getitem_setitem_same.
  - rewrite Hlen; [now apply getitem_length with col1|].
    rewrite (getitem_length _ _ _ Hwf Ha). symmetry.
    now apply getitem_length with col2.
  - intros i x y Hx Hy. rewrite (Hcells i x y Hx Hy).
    destruct x, y, op; reflexivity.
Qed.

Lemma staff_wf : wf_df staff.
Proof.
  split.
  - repeat constructor; simpl; intuition discriminate.
  - repeat constructor.
Qed.

Lemma basic_math_elementwise_witness :
  exists df' r,
    basic_math raise_binop staff "multiply" "salary" "score" "weighted" = Ok df' /\
    nrows df' = nrows staff /\
    getitem df' "weighted" = Ok r /\
    List.length r = nrows staff /\
    forall i x y,
      nth_error [CInt 100; CInt 250; CInt 0] i = Some x ->
      nth_error [CFloat 0.5; CFloat 0; CFloat 2] i = Some y ->
      nth_error r i =
      Some (match x, y with
            | CInt zx, CInt zy => CInt ((zx * zy + 2 ^ 63) mod 2 ^ 64 - 2 ^ 63)
            | _, _ => CFloat (float_of x * float_of y)
            end).
Proof.
  apply (basic_math_elementwise raise_binop staff "multiply" Multiply
           "salary" "score" "weighted");
    [ exact staff_wf | reflexivity | reflexivity | reflexivity
    | reflexivity | reflexivity ].
Defined.

(** A float64 division by a zero gives an infinity or NaN. *)
Lemma float_div_zero (x y : float) :
  (y =? 0)%float = true ->
  (x / y)%float = nan \/ (x / y)%float = infinity \/
  (x / y)%float = neg_infinity.
Proof.
  intros Hy. rewrite FloatAxioms.eqb_spec in Hy.
  assert (Hz : exists s, Prim2SF y = S754_zero s).
  { destruct (Prim2SF y) as [s|s| |s m e]; try (now eauto);
      cbn in Hy; try discriminate; destruct s; discriminate. }
  destruct Hz as [s Hz].
  pose proof (FloatAxioms.div_spec x y) as Hd. rewrite Hz in Hd.
  rewrite <- (FloatAxioms.SF2Prim_Prim2SF (x / y)). rewrite Hd.
  destruct (Prim2SF x) as [sx|sx| |sx mx ex]; cbn.
  - left. reflexivity.
  - destruct sx, s; cbn; auto.
  - left; reflexivity.
  - destruct sx, s; cbn; auto.
Qed.

Lemma scalar_divide (x y : Cell) :
  scalar_op Divide x y = CFloat (float_of x / float_of y).
Proof. destruct x, y; reflexivity. Qed.

(** C9.  Dividing two existing numeric columns never fails, zeros in the
    divisor column included: the operation succeeds, every result cell
    is the float64 quotient of its row, and where the divisor is zero
    that quotient is an infinity or NaN. *)
Theorem basic_math_divide_by_zero
        (ob : MathOp -> Series -> Series -> Result Series)
        (df : DataFrame) (col1 col2 result_col : string) (a b : Series) :
  getitem df col1 = Ok a ->
  getitem df col2 = Ok b ->
  is_numeric a = true ->
  is_numeric b = true ->
  exists df' r,
    basic_math ob df "divide" col1 col2 result_col = Ok df' /\
    getitem df' result_col = Ok r /\
    forall i x y,
      nth_error a i = Some x -> nth_error b i = Some y ->
      exists q,
        nth_error r i = Some (CFloat q) /\
        q = (float_of x / float_of y)%float /\
        ((float_of y =? 0)%float = true ->
         q = nan \/ q = infinity \/ q = neg_infinity).
Proof.
  intros Ha Hb Na Nb.
  destruct (series_binop_numeric ob Divide a b Na Nb) as (r & Hr & _ & Hcells).
  exists (setitem df result_col r), r.
  rewrite (basic_math_known _ _ _ Divide) by reflexivity.
  unfold apply_math. rewrite Ha, Hb. simpl. rewrite Hr. simpl.
  repeat split.
  - apply getitem_setitem_same.
  - intros i x y Hx Hy. exists (float_of x / float_of y)%float.
    rewrite (Hcells i x y Hx Hy), scalar_divide.
    repeat split. apply float_div_zero.
Qed.

Lemma basic_math_divide_by_zero_witness :
  exists df' r,
    basic_math raise_binop staff "divide" "salary" "score" "ratio" = Ok df' /\
    getitem df' "ratio" = Ok r /\
    forall i x y,
      nth_error [CInt 100; CInt 250; CInt 0] i = Some x ->
      nth_error [CFloat 0.5; CFloat 0; CFloat 2] i = Some y ->
      exists q,
        nth_error r i = Some (CFloat q) /\
        q = (float_of x / float_of y)%float /\
        ((float_of y =? 0)%float = true ->
         q = nan \/ q = infinity \/ q = neg_infinity).
Proof.
  apply (basic_math_divide_by_zero raise_binop staff "salary" "score" "ratio");
    reflexivity.
Defined.

(** The cells a zero divisor produces on the sample table, and the three
    outcomes of a division by zero. *)
Example divide_by_zero_cells :
  basic_math raise_binop staff "divide" "salary" "score" "ratio"
  = Ok (setitem staff "ratio" [CFloat 200; CFloat infinity; CFloat 0])
  /\ scalar_op Divide (CInt 0) (CInt 0) = CFloat nan
  /\ scalar_op Divide (CInt (-3)) (CInt 0) = CFloat neg_infinity
  /\ scalar_op Divide (CFloat 1) (CFloat 0) = CFloat infinity.
Proof. repeat split; vm_compute; reflexivity. Qed.

(** C10.  An operation name outside add, subtract, multiply, divide
    raises nothing and returns the input table as it is: no column is
    created, none is modified. *)
Theorem basic_math_unknown_operation
        (ob : MathOp -> Series -> Series -> Result Series)
        (df : DataFrame) (operation col1 col2 result_col : string) :
  operation <> "add" ->
  operation <> "subtract" ->
  operation <> "multiply" ->
  operation <> "divide" ->
  basic_math ob df operation col1 col2 result_col = Ok df.
Proof.
  intros H1 H2 H3 H4. unfold basic_math.
  apply String.eqb_neq in H1, H2, H3, H4.
  now rewrite H1, H2, H3, H4.
Qed.

Lemma basic_math_unknown_operation_witness :
  basic_math raise_binop staff "power" "salary" "nowhere" "out" = Ok staff.
Proof.
  apply basic_math_unknown_operation; discriminate.
Defined.

(** ** The /upload endpoint *)

(** Whatever is raised inside [upload_file], the handler at its end
    answers 500: the endpoint never answers 400. *)
Lemma upload_file_status (serialises : UploadInfo -> bool) (st : Store)
      (filename content : string) :
  http_status serialises (upload_file st filename content) = 200 \/
  http_status serialises (upload_file st filename content) = 500.
Proof.
  unfold upload_file, try_except.
  destruct (if negb (endswith filename ".xlsx" || endswith filename ".xls")
            then _ else _) as [info|e]; simpl; [destruct (serialises info)|];
    auto.
Qed.

Lemma upload_bad_extension (st : Store) (filename content : string) :
  endswith filename ".xlsx" = false ->
  endswith filename ".xls" = false ->
  upload_file st filename content =
  Raise (HTTPException 500
           (str_exc (HTTPException 400
                       "Only Excel files (.xlsx, .xls) are supported"))).
Proof. intros H1 H2. unfold upload_file. now rewrite H1, H2. Qed.

(** C3.  The upload of [report.csv], a name that ends neither in .xlsx
    nor in .xls: the 400 raised by the extension check is caught by the
    handler of the same function and leaves as a 500 whose detail is
    the text of the 400, whatever the store does. *)
Theorem upload_csv_answers_500 (serialises : UploadInfo -> bool)
        (st : Store) (content : string) :
  upload_file st "report.csv" content =
  Raise (HTTPException 500
           (str_exc (HTTPException 400
                       "Only Excel files (.xlsx, .xls) are supported")))
  /\ http_status serialises (upload_file st "report.csv" content) = 500.
Proof. split; reflexivity. Qed.

(** ** date_operations *)

Lemma set_col_present (l : Label) (s : Series) (cs : list (Label * Series)) :
  In l (map fst cs) -> map fst (set_col l s cs) = map fst cs.
Proof.
  induction cs as [|[l' s'] cs IH]; simpl; [tauto|].
  intros Hin. destruct (cell_eqb l l') eqn:E; simpl.
  - apply cell_eqb_eq in E. now subst.
  - f_equal. apply IH. destruct Hin as [->|Hin]; [|exact Hin].
    now rewrite cell_eqb_refl in E.
Qed.

Lemma set_col_absent (l : Label) (s : Series) (cs : list (Label * Series)) :
  ~ In l (map fst cs) -> set_col l s cs = (cs ++ [(l, s)])%list.
Proof.
  induction cs as [|[l' s'] cs IH]; simpl; [reflexivity|].
  intros Hnin. destruct (cell_eqb l l') eqn:E.
  - apply cell_eqb_eq in E. subst. tauto.
  - f_equal. apply IH. tauto.
Qed.

Lemma lookup_col_some_In (l : Label) (cs : list (Label * Series)) (s : Series) :
  lookup_col l cs = Some s -> In l (map fst cs).
Proof. intros H. apply lookup_col_In in H. now apply (in_map fst) in H. Qed.

Lemma lookup_col_app_absent (l l' : Label) (s : Series)
      (cs : list (Label * Series)) :
  l <> l' -> lookup_col l (cs ++ [(l', s)])%list = lookup_col l cs.
Proof.
  intros Hne. induction cs as [|[l0 s0] cs IH]; simpl.
  - apply cell_eqb_neq in Hne. now rewrite Hne.
  - now rewrite IH.
Qed.

Lemma string_app_inj (s a b : string) : s ++ a = s ++ b -> a = b.
Proof. induction s as [|c s IH]; simpl; [easy|]. intros [= H]. auto. Qed.

Lemma string_app_nil_r (s : string) : s ++ "" = s.
Proof. induction s as [|c s IH]; simpl; congruence. Qed.

Lemma string_app_neq (s t : string) : t <> "" -> s ++ t <> s.
Proof.
  intros Ht H. apply Ht. apply (string_app_inj s). now rewrite H, string_app_nil_r.
Qed.

Lemma traverse_length {A B : Type} (f : A -> Result B) (xs : list A) (ys : list B) :
  traverse f xs = Ok ys -> List.length ys = List.length xs.
Proof.
  revert ys. induction xs as [|x xs IH]; simpl; intros ys H.
  - now injection H as <-.
  - destruct (f x) as [y|e]; simpl in H; [|discriminate].
    destruct (traverse f xs) as [ys'|e]; simpl in H; [|discriminate].
    injection H as <-. simpl. f_equal. now apply IH.
Qed.

Lemma dt_field_length (field : Z -> Z) (s : Series) :
  List.length (dt_field field s) = List.length s.
Proof. unfold dt_field. destruct (existsb is_nat_cell s); apply length_map. Qed.

Section DateOperationsFacts.

Variable parse_datetime : string -> option Z.
Variable datetime_of_float : float -> option Z.

Lemma to_datetime_time_column (s : Series) :
  forallb is_time s = true ->
  to_datetime parse_datetime datetime_of_float s = Ok s.
Proof.
  unfold to_datetime. induction s as [|c s IH]; simpl; [reflexivity|].
  intros H. apply andb_prop in H as [Hc Hs]. rewrite (IH Hs).
  destruct c; try discriminate; reflexivity.
Qed.

Lemma add_dt_column_new (df : DataFrame) (date_col suffix : string)
      (field : Z -> Z) (d : Series) :
  getitem df date_col = Ok d ->
  ~ In (CStr (date_col ++ suffix)) (columns df) ->
  add_dt_column df date_col suffix field =
  Ok (mkDF (df_index_name df) (df_index df) (df_columns_name df)
           (df_cols df ++ [(CStr (date_col ++ suffix), dt_field field d)])%list).
Proof.
  intros Hd Hnew. unfold add_dt_column. rewrite Hd. simpl.
  unfold setitem. now rewrite set_col_absent.
Qed.

(** The table [date_operations] returns when the date column parses and
    none of the four derived names is taken. *)
Lemma date_operations_result (df : DataFrame) (date_col : string)
      (s parsed : Series) :
  getitem df date_col = Ok s ->
  to_datetime parse_datetime datetime_of_float s = Ok parsed ->
  (forall suffix, In suffix derived_suffixes ->
                  ~ In (CStr (date_col ++ suffix)) (columns df)) ->
  date_operations parse_datetime datetime_of_float df date_col =
  Ok (mkDF (df_index_name df) (df_index df) (df_columns_name df)
        (set_col (CStr date_col) parsed (df_cols df) ++
         [(CStr (date_col ++ "_year"), dt_field ts_year parsed);
          (CStr (date_col ++ "_month"), dt_field ts_month parsed);
          (CStr (date_col ++ "_day"), dt_field ts_day parsed);
          (CStr (date_col ++ "_dayofweek"), dt_field ts_dayofweek parsed)])%list).
Proof.
  intros Hs Hp Hfree. unfold date_operations. rewrite Hs. simpl. rewrite Hp. simpl.
  assert (Hcols : map fst (set_col (CStr date_col) parsed (df_cols df))
                  = columns df).
  { apply set_col_present. unfold getitem in Hs.
    destruct (lookup_col (CStr date_col) (df_cols df)) eqn:E; [|discriminate].
    eapply lookup_col_some_In; eauto. }
  assert (Hget : forall extra,
             Forall (fun c => fst c <> CStr date_col) extra ->
             getitem (mkDF (df_index_name df) (df_index df) (df_columns_name df)
                        (set_col (CStr date_col) parsed (df_cols df) ++ extra)%list)
                     date_col = Ok parsed).
  { intros extra. unfold getitem. simpl.
    induction extra as [|[l x] extra IH] using rev_ind; intros Hex.
    - now rewrite app_nil_r, lookup_set_col_same.
    - apply Forall_app in Hex as [Hex Hl]. inversion Hl; subst. simpl in *.
      rewrite app_assoc, lookup_col_app_absent by congruence. now apply IH. }
  assert (Hne : forall suffix, In suffix derived_suffixes ->
                               CStr (date_col ++ suffix) <> CStr date_col).
  { intros suffix Hin [= H]. revert H. apply string_app_neq.
    simpl in Hin. intuition (subst; discriminate). }
  assert (Hdiff : forall a b, a <> b -> CStr (date_col ++ a) <> CStr (date_col ++ b)).
  { intros a b Hab [= H]. apply Hab. eapply string_app_inj; eauto. }
  rewrite (add_dt_column_new _ _ "_year" _ parsed).
  2:{ apply getitem_setitem_same. }
  2:{ unfold columns, setitem. simpl. rewrite Hcols. apply Hfree. simpl; auto. }
  simpl. rewrite (add_dt_column_new _ _ "_month" _ parsed).
  2:{ apply (Hget [_]). repeat constructor; simpl.
      apply Hne; simpl; auto. }
  2:{ unfold columns. simpl. rewrite map_app, Hcols. simpl.
      rewrite in_app_iff. intros [H|[H|[]]].
      - revert H. apply Hfree. simpl; auto.
      - revert H. apply Hdiff. discriminate. }
  simpl. rewrite (add_dt_column_new _ _ "_day" _ parsed).
  2:{ rewrite <- app_assoc. apply (Hget [_; _]).
      repeat constructor; simpl; apply Hne; simpl; auto. }
  2:{ unfold columns. simpl. rewrite !map_app, Hcols. simpl.
      rewrite !in_app_iff. simpl. intros [[H|[H|[]]]|[H|[]]].
      - revert H. apply Hfree. simpl; auto.
      - revert H. apply Hdiff. discriminate.
      - revert H. apply Hdiff. discriminate. }
  simpl. rewrite (add_dt_column_new _ _ "_dayofweek" _ parsed).
  2:{ rewrite <- !app_assoc. apply (Hget [_; _; _]).
      repeat constructor; simpl; apply Hne; simpl; auto. }
  2:{ unfold columns. simpl. rewrite !map_app, Hcols. simpl.
      rewrite !in_app_iff. simpl. intros [[[H|[H|[]]]|[H|[]]]|[H|[]]].
      - revert H. apply Hfree. simpl; auto.
      - revert H. apply Hdiff. discriminate.
      - revert H. apply Hdiff. discriminate.
      - revert H. apply Hdiff. discriminate. }
  simpl. now rewrite <- !app_assoc.
Qed.

End DateOperationsFacts.

Lemma lookup_col_app_present (l : Label) (cs extra : list (Label * Series)) :
  In l (map fst cs) -> lookup_col l (cs ++ extra)%list = lookup_col l cs.
Proof.
  induction cs as [|[l' s'] cs IH]; simpl; [tauto|].
  intros Hin. destruct (cell_eqb l l') eqn:E; [reflexivity|].
  apply IH. destruct Hin as [->|Hin]; [|exact Hin].
  now rewrite cell_eqb_refl in E.
Qed.

Lemma set_col_lengths (l : Label) (s : Series) (cs : list (Label * Series))
      (n : nat) :
  List.length s = n ->
  Forall (fun c => List.length (snd c) = n) cs ->
  Forall (fun c => List.length (snd c) = n) (set_col l s cs).
Proof.
  intros Hs. induction 1 as [|[l' s'] cs Hc Hcs IH]; simpl.
  - now repeat constructor.
  - destruct (cell_eqb l l'); constructor; auto.
Qed.

Lemma derived_labels_NoDup (date_col : string) :
  NoDup (map (fun suffix => CStr (date_col ++ suffix)) derived_suffixes).
Proof.
  assert (Hdiff : forall a b, a <> b -> CStr (date_col ++ a) <> CStr (date_col ++ b)).
  { intros a b Hab [= H]. apply Hab. eapply string_app_inj; eauto. }
  unfold derived_suffixes. simpl.
  repeat (apply NoDup_cons; [simpl; intros Hin|]); [| | | |apply NoDup_nil];
    repeat (destruct Hin as [Hin|Hin]; [revert Hin; apply Hdiff; discriminate|]);
    exact Hin.
Qed.

(** C4, as the code has it.  When the date column parses and none of the
    four derived names is taken, [date_operations] appends exactly the
    four columns year, month, day and day-of-week; the date column is
    replaced by its parsed date-times, which are its own cells when it
    held date-times already; every other column is as it was. *)
Theorem date_operations_frame
        (parse_datetime : string -> option Z)
        (datetime_of_float : float -> option Z)
        (df : DataFrame) (date_col : string) (s parsed : Series) :
  wf_df df ->
  getitem df date_col = Ok s ->
  to_datetime parse_datetime datetime_of_float s = Ok parsed ->
  (forall suffix, In suffix derived_suffixes ->
                  ~ In (CStr (date_col ++ suffix)) (columns df)) ->
  exists df',
    date_operations parse_datetime datetime_of_float df date_col = Ok df' /\
    wf_df df' /\
    nrows df' = nrows df /\
    columns df' =
      (columns df ++ map (fun suffix => CStr (date_col ++ suffix))
                         derived_suffixes)%list /\
    getitem df' date_col = Ok parsed /\
    (forallb is_time s = true -> parsed = s) /\
    (forall l, In l (columns df) -> l <> CStr date_col ->
               lookup_col l (df_cols df') = lookup_col l (df_cols df)).
Proof.
  intros [Hnd Hlen] Hs Hp Hfree.
  eexists. split; [apply (date_operations_result _ _ _ _ s parsed); assumption|].
  assert (Hin : In (CStr date_col) (columns df)).
  { unfold getitem in Hs.
    destruct (lookup_col (CStr date_col) (df_cols df)) eqn:E; [|discriminate].
    eapply lookup_col_some_In; eauto. }
  assert (Hcols : map fst (set_col (CStr date_col) parsed (df_cols df))
                  = columns df) by now apply set_col_present.
  assert (Hplen : List.length parsed = nrows df).
  { rewrite (traverse_length _ _ _ Hp).
    apply (getitem_length df date_col); [now split | exact Hs]. }
  assert (Hcolumns :
            columns (mkDF (df_index_name df) (df_index df) (df_columns_name df)
              (set_col (CStr date_col) parsed (df_cols df) ++
               [(CStr (date_col ++ "_year"), dt_field ts_year parsed);
                (CStr (date_col ++ "_month"), dt_field ts_month parsed);
                (CStr (date_col ++ "_day"), dt_field ts_day parsed);
                (CStr (date_col ++ "_dayofweek"),
                  dt_field ts_dayofweek parsed)])%list)
            = (columns df ++ map (fun suffix => CStr (date_col ++ suffix))
                                 derived_suffixes)%list).
  { unfold columns. simpl. now rewrite map_app, Hcols. }
  split; [|split; [reflexivity|split; [exact Hcolumns|split; [|split]]]].
  - split.
    + rewrite Hcolumns. apply NoDup_app; [exact Hnd| |].
      * apply derived_labels_NoDup.
      * intros l Hl Hl'. apply in_map_iff in Hl' as (suffix & <- & Hsuf).
        exact (Hfree suffix Hsuf Hl).
    + unfold nrows. simpl. apply Forall_app. split.
      * apply set_col_lengths; assumption.
      * repeat constructor; simpl; now rewrite dt_field_length.
  - unfold getitem. simpl.
    rewrite lookup_col_app_present by (rewrite Hcols; exact Hin).
    now rewrite lookup_set_col_same.
  - intros Ht. rewrite to_datetime_time_column in Hp by exact Ht. congruence.
  - intros l Hl Hne. simpl.
    rewrite lookup_col_app_present by (rewrite Hcols; exact Hl).
    now apply lookup_set_col_other.
Qed.

Lemma meetings_wf : wf_df meetings.
Proof.
  split.
  - repeat constructor; simpl; intuition discriminate.
  - repeat constructor.
Qed.

Lemma meetings_names_free (suffix : string) :
  In suffix derived_suffixes -> ~ In (CStr ("day" ++ suffix)) (columns meetings).
Proof.
  intros [<-|[<-|[<-|[<-|[]]]]]; simpl; intuition discriminate.
Qed.

Lemma date_operations_frame_witness :
  exists df',
    date_operations parse_iso_date no_datetime_of_float meetings "day" = Ok df' /\
    wf_df df' /\
    nrows df' = nrows meetings /\
    columns df' =
      (columns meetings ++ map (fun suffix => CStr ("day" ++ suffix))
                               derived_suffixes)%list /\
    getitem df' "day" =
      Ok [CTime 1705276800000000000; CTime 1709251200000000000] /\
    (forallb is_time [CTime 1705276800000000000; CTime 1709251200000000000]
       = true ->
     [CTime 1705276800000000000; CTime 1709251200000000000] =
     [CTime 1705276800000000000; CTime 1709251200000000000]) /\
    (forall l, In l (columns meetings) -> l <> CStr "day" ->
               lookup_col l (df_cols df') = lookup_col l (df_cols meetings)).
Proof.
  apply (date_operations_frame parse_iso_date no_datetime_of_float meetings "day");
    [ exact meetings_wf | reflexivity | reflexivity | exact meetings_names_free ].
Defined.

(** C4, as the claim has it, fails on a sheet whose dates are text and
    which has a column named like a derived one: the date column comes
    back as date-times in place of its text, the column [day_year] is
    overwritten, and three columns are added, not four. *)
Lemma date_operations_changes_columns :
  date_operations parse_iso_date no_datetime_of_float events "day" =
  Ok (mkDF None (range_index 2) None
        [(CStr "day", [CTime 1705276800000000000; CTime 1709251200000000000]);
         (CStr "day_year", [CInt 2024; CInt 2024]);
         (CStr "day_month", [CInt 1; CInt 3]);
         (CStr "day_day", [CInt 15; CInt 1]);
         (CStr "day_dayofweek", [CInt 0; CInt 4])])
  /\ getitem events "day" = Ok [CStr "2024-01-15"; CStr "2024-03-01"]
  /\ getitem events "day_year" = Ok [CStr "first"; CStr "second"]
  /\ List.length (columns events) = 2%nat.
Proof. repeat split; vm_compute; reflexivity. Qed.

(** ** filter_data *)

Lemma select_nil_r {A : Type} (mask : list bool) : select mask (@nil A) = [].
Proof. destruct mask as [|[|] mask]; reflexivity. Qed.

Lemma select_select {A : Type} (m : list bool) (xs : list A) :
  select (select m m) (select m xs) = select m xs.
Proof.
  revert xs. induction m as [|b m IH]; intros [|x xs]; simpl; try reflexivity.
  - destruct b; simpl; [reflexivity | apply select_nil_r].
  - destruct b; simpl; now rewrite IH.
Qed.

Lemma select_map {A B : Type} (f : A -> B) (m : list bool) (xs : list A) :
  select m (map f xs) = map f (select m xs).
Proof.
  revert xs. induction m as [|b m IH]; intros [|x xs]; simpl; try reflexivity.
  destruct b; simpl; now rewrite IH.
Qed.

Lemma map2_nil_r {A B C : Type} (f : A -> B -> C) (xs : list A) :
  map2 f xs [] = [].
Proof. destruct xs; reflexivity. Qed.

Lemma select_map2 {A B C : Type} (f : A -> B -> C) (m : list bool)
      (xs : list A) (ys : list B) :
  select m (map2 f xs ys) = map2 f (select m xs) (select m ys).
Proof.
  revert xs ys. induction m as [|b m IH]; intros [|x xs] [|y ys]; simpl;
    rewrite ?select_nil_r, ?map2_nil_r; try reflexivity.
  destruct b; simpl; now rewrite IH.
Qed.

Lemma combine_nil_r {A B : Type} (xs : list A) : combine xs (@nil B) = [].
Proof. destruct xs; reflexivity. Qed.

Lemma select_combine {A B : Type} (m : list bool) (xs : list A) (ys : list B) :
  select m (combine xs ys) = combine (select m xs) (select m ys).
Proof.
  revert xs ys. induction m as [|b m IH]; intros [|x xs] [|y ys]; simpl;
    rewrite ?select_nil_r, ?combine_nil_r; try reflexivity.
  destruct b; simpl; now rewrite IH.
Qed.

Lemma traverse_select {A B : Type} (f : A -> Result B) (m : list bool)
      (xs : list A) (ys : list B) :
  traverse f xs = Ok ys -> traverse f (select m xs) = Ok (select m ys).
Proof.
  revert xs ys. induction m as [|b m IH]; intros xs ys H.
  - now destruct xs.
  - destruct xs as [|x xs]; simpl in H.
    + injection H as <-. reflexivity.
    + destruct (f x) as [y|e] eqn:Ey; simpl in H; [|discriminate].
      destruct (traverse f xs) as [ys'|e] eqn:E; simpl in H; [|discriminate].
      injection H as <-. destruct b; simpl.
      * now rewrite Ey, (IH xs ys' E).
      * now apply IH.
Qed.

Lemma lookup_col_select (l : Label) (m : list bool) (cs : list (Label * Series)) :
  lookup_col l (map (fun c => (fst c, select m (snd c))) cs) =
  option_map (select m) (lookup_col l cs).
Proof.
  induction cs as [|[l' s] cs IH]; simpl; [reflexivity|].
  now destruct (cell_eqb l l').
Qed.

Lemma getitem_select_rows (df : DataFrame) (m : list bool) (col : string)
      (s : Series) :
  getitem df col = Ok s -> getitem (select_rows m df) col = Ok (select m s).
Proof.
  unfold getitem, select_rows. simpl. rewrite lookup_col_select.
  destruct (lookup_col (CStr col) (df_cols df)); simpl; [|discriminate].
  now intros [= ->].
Qed.

Lemma select_rows_select_rows (m : list bool) (df : DataFrame) :
  select_rows (select m m) (select_rows m df) = select_rows m df.
Proof.
  unfold select_rows. simpl. f_equal.
  - apply select_select.
  - rewrite map_map. apply map_ext. intros [l s]. simpl.
    now rewrite select_select.
Qed.

Lemma resolve_name_select_rows (df : DataFrame) (m : list bool)
      (name : string) (s : Series) :
  resolve_name df name = Ok s ->
  resolve_name (select_rows m df) name = Ok (select m s).
Proof.
  unfold resolve_name, names_index, select_rows. cbn [df_cols df_index_name df_index].
  rewrite lookup_col_select.
  destruct (lookup_col (CStr name) (df_cols df)) as [s'|]; simpl.
  - now intros [= ->].
  - destruct ((name =? "index")%string ||
              match df_index_name df with
              | Some s0 => (name =? s0)%string
              | None => (name =? "ilevel_0")%string
              end); [|discriminate].
    now intros [= ->].
Qed.

Section FilterFacts.

Variable parse_query : string -> option Expr.
Variable object_cmp : Cmp -> Cell -> Cell -> Result bool.
Variable object_agg : AggFunc -> Series -> Result Cell.

(** The mask of a condition without reductions is computed row by row:
    on a selection of the rows it is the selection of the mask. *)
Lemma eval_expr_select (df : DataFrame) (e : Expr) (m : list bool) :
  uses_agg e = false ->
  eval_expr object_cmp object_agg df e = Ok m ->
  forall mask,
    eval_expr object_cmp object_agg (select_rows mask df) e
    = Ok (select mask m).
Proof.
  revert m. induction e as [op l r|a IHa b IHb|a IHa b IHb|a IHa];
    intros m Hagg Hm mask; simpl in *.
  - apply orb_false_elim in Hagg as [Hl Hr].
    apply bind_ok in Hm as (x & Hx & Hm). apply bind_ok in Hm as (y & Hy & Hm).
    assert (Hterm : forall t v,
               match t with TAgg _ _ => true | _ => false end = false ->
               eval_term object_agg df t = Ok v ->
               eval_term object_agg (select_rows mask df) t =
               Ok (match v with
                   | Column s => Column (select mask s)
                   | Scalar c => Scalar c
                   end)).
    { intros [name|c|f name] v Ht Hv; simpl in *; try discriminate.
      - apply bind_ok in Hv as (s & Hs & [= <-]).
        now rewrite (resolve_name_select_rows _ _ _ _ Hs).
      - now injection Hv as <-. }
    rewrite (Hterm l x Hl Hx), (Hterm r y Hr Hy). simpl.
    destruct x as [s|c], y as [s'|c']; simpl in *.
    + rewrite <- select_combine. now apply traverse_select.
    + now apply traverse_select.
    + now apply traverse_select.
    + discriminate.
  - apply orb_false_elim in Hagg as [Ha Hb].
    apply bind_ok in Hm as (ma & Hma & Hm).
    apply bind_ok in Hm as (mb & Hmb & [= <-]).
    rewrite (IHa ma Ha Hma mask), (IHb mb Hb Hmb mask). simpl.
    now rewrite select_map2.
  - apply orb_false_elim in Hagg as [Ha Hb].
    apply bind_ok in Hm as (ma & Hma & Hm).
    apply bind_ok in Hm as (mb & Hmb & [= <-]).
    rewrite (IHa ma Ha Hma mask), (IHb mb Hb Hmb mask). simpl.
    now rewrite select_map2.
  - apply bind_ok in Hm as (ma & Hma & [= <-]).
    rewrite (IHa ma Hagg Hma mask). simpl. now rewrite select_map.
Qed.

Lemma try_except_ok {A : Type} (body : Result A) (h : Exc -> Result A) (a : A) :
  (forall e, h e <> Ok a) -> try_except body h = Ok a -> body = Ok a.
Proof. destruct body; simpl; [easy|]. intros Hh H. now apply Hh in H. Qed.

End FilterFacts.

(** C7, as the code has it.  For a condition that compares the cells of
    a row with each other and with literals (no reduction of a column
    such as [salary.max()]), filtering the filtered table again with
    the same condition succeeds and returns it unchanged: same rows,
    same order. *)
Theorem filter_data_idempotent
        (parse_query : string -> option Expr)
        (object_cmp : Cmp -> Cell -> Cell -> Result bool)
        (object_agg : AggFunc -> Series -> Result Cell)
        (df df1 : DataFrame) (condition : string) (e : Expr) :
  parse_query condition = Some e ->
  uses_agg e = false ->
  filter_data parse_query object_cmp object_agg df condition = Ok df1 ->
  filter_data parse_query object_cmp object_agg df1 condition = Ok df1.
Proof.
  intros Hparse Hagg H1. unfold filter_data in *.
  apply try_except_ok in H1; [|discriminate].
  unfold query in *. rewrite Hparse in *.
  apply bind_ok in H1 as (m & Hm & [= <-]).
  rewrite (eval_expr_select _ _ _ _ _ Hagg Hm m). simpl.
  now rewrite select_rows_select_rows.
Qed.

Lemma filter_data_idempotent_witness :
  filter_data sample_parse_query raise_cmp raise_agg
    (select_rows [true; true; false] staff) "salary > 50 and score <= 1"
  = Ok (select_rows [true; true; false] staff).
Proof.
  apply (filter_data_idempotent sample_parse_query raise_cmp raise_agg staff
           (select_rows [true; true; false] staff)
           "salary > 50 and score <= 1"
           (EAnd (ECmp Gt (TCol "salary") (TLit (CInt 50)))
                 (ECmp Le (TCol "score") (TLit (CInt 1)))));
    reflexivity.
Defined.

(** C7, as the claim has it, fails for a condition that compares a
    column with a reduction of itself: [salary < salary.max()] keeps two
    of the three rows, and on those two it keeps one. *)
Lemma filter_data_not_idempotent :
  filter_data sample_parse_query raise_cmp raise_agg staff
    "salary < salary.max()"
  = Ok (select_rows [true; false; true] staff)
  /\ filter_data sample_parse_query raise_cmp raise_agg
       (select_rows [true; false; true] staff) "salary < salary.max()"
     = Ok (select_rows [false; false; true] staff)
  /\ nrows (select_rows [true; false; true] staff) = 2%nat
  /\ nrows (select_rows [false; false; true] staff) = 1%nat.
Proof. repeat split; vm_compute; reflexivity. Qed.

(** ** aggregations *)

Lemma agg_of_name_name (f : AggFunc) : agg_of_name (agg_name f) = Some f.
Proof. destruct f; reflexivity. Qed.

Lemma agg_of_name_some (func : string) (f : AggFunc) :
  agg_of_name func = Some f -> func = agg_name f.
Proof.
  unfold agg_of_name.
  repeat match goal with
         | |- (if (?a =? ?b)%string then _ else _) = _ -> _ =>
             destruct (String.eqb_spec a b);
             [intros [= <-]; assumption|]
         end.
  discriminate.
Qed.

Lemma agg_name_inj (f g : AggFunc) : agg_name f = agg_name g -> f = g.
Proof.
  intros H. apply (f_equal agg_of_name) in H.
  rewrite !agg_of_name_name in H. congruence.
Qed.

Lemma has_underscore_app (a b : string) :
  has_underscore (a ++ String "_" b) = true.
Proof.
  induction a as [|c a IH]; simpl in *; [reflexivity|].
  rewrite IH. apply orb_true_r.
Qed.

Lemma underscore_split (a b x y : string) :
  has_underscore x = false -> has_underscore y = false ->
  a ++ "_" ++ x = b ++ "_" ++ y -> a = b /\ x = y.
Proof.
  intros Hx Hy. revert b.
  induction a as [|c a IH]; intros [|d b] H; simpl in H.
  - injection H as H. auto.
  - injection H as Hc H. subst x.
    now rewrite has_underscore_app in Hx.
  - injection H as Hc H. subst y.
    now rewrite has_underscore_app in Hy.
  - injection H as -> H. destruct (IH b H) as [-> ->]. auto.
Qed.

(** Two (column, function) pairs never share a key: no function name
    holds an underscore. *)
Lemma agg_key_inj (c1 c2 : string) (f1 f2 : AggFunc) :
  agg_key c1 f1 = agg_key c2 f2 -> c1 = c2 /\ f1 = f2.
Proof.
  unfold agg_key. intros H.
  apply underscore_split in H as [-> H];
    [ split; [reflexivity | now apply agg_name_inj]
    | now destruct f1 | now destruct f2 ].
Qed.

Lemma dict_get_set_same (k : string) (v : Cell) (d : dict) :
  dict_get k (dict_set k v d) = Some v.
Proof.
  induction d as [|[k' v'] d IH]; simpl.
  - now rewrite String.eqb_refl.
  - destruct (k =? k')%string eqn:E; simpl.
    + now rewrite String.eqb_refl.
    + now rewrite E.
Qed.

Lemma dict_get_set_other (k k' : string) (v : Cell) (d : dict) :
  k' <> k -> dict_get k' (dict_set k v d) = dict_get k' d.
Proof.
  intros Hne. induction d as [|[k0 v0] d IH]; simpl.
  - apply String.eqb_neq in Hne. now rewrite Hne.
  - destruct (k =? k0)%string eqn:E; simpl.
    + apply String.eqb_eq in E. subst k0.
      apply String.eqb_neq in Hne. now rewrite Hne.
    + now rewrite IH.
Qed.

Lemma dict_keys_set (k k' : string) (v : Cell) (d : dict) :
  In k' (dict_keys (dict_set k v d)) <-> k' = k \/ In k' (dict_keys d).
Proof.
  induction d as [|[k0 v0] d IH]; simpl.
  - intuition.
  - destruct (k =? k0)%string eqn:E; simpl.
    + apply String.eqb_eq in E. subst k0. intuition.
    + unfold dict_keys in IH. rewrite IH. intuition.
Qed.

Lemma dict_keys_set_NoDup (k : string) (v : Cell) (d : dict) :
  NoDup (dict_keys d) -> NoDup (dict_keys (dict_set k v d)).
Proof.
  induction d as [|[k0 v0] d IH]; simpl; intros Hnd.
  - repeat constructor. simpl. tauto.
  - inversion Hnd as [|? ? Hnin Hnd']; subst.
    destruct (k =? k0)%string eqn:E; simpl.
    + apply String.eqb_eq in E. subst k0. now constructor.
    + constructor; [|now apply IH].
      intros Hin. apply dict_keys_set in Hin as [->|Hin]; [|tauto].
      now rewrite String.eqb_refl in E.
Qed.

Lemma record_of_ext (value : string -> AggFunc -> Cell -> Prop)
      (P Q : string -> AggFunc -> Prop) (d : dict) :
  (forall col f, P col f <-> Q col f) ->
  record_of value P d -> record_of value Q d.
Proof.
  intros Heq (Hk & Hv & Hnd). repeat split; auto.
  - intros Hin. apply Hk in Hin as (col & f & HP & ->).
    exists col, f. split; [now apply Heq | reflexivity].
  - intros (col & f & HQ & ->). apply Hk. exists col, f.
    split; [now apply Heq | reflexivity].
  - intros col f v HQ. apply Hv. now apply Heq.
Qed.

Lemma record_of_store (value : string -> AggFunc -> Cell -> Prop)
      (P : string -> AggFunc -> Prop) (d : dict) (col : string) (f : AggFunc)
      (v : Cell) :
  (forall v', value col f v' -> v' = v) ->
  record_of value P d ->
  record_of value (fun c g => P c g \/ (c = col /\ g = f))
            (dict_set (agg_key col f) v d).
Proof.
  intros Hval (Hk & Hv & Hnd). repeat split.
  - intros Hin. apply dict_keys_set in Hin as [->|Hin].
    + exists col, f. auto.
    + apply Hk in Hin as (c & g & HP & ->). exists c, g. auto.
  - intros (c & g & [HP|[-> ->]] & ->); apply dict_keys_set.
    + right. apply Hk. eauto.
    + now left.
  - intros c g v' HP Hv'.
    destruct (string_dec (agg_key c g) (agg_key col f)) as [E|E].
    + rewrite E, dict_get_set_same.
      apply agg_key_inj in E as [-> ->]. f_equal. symmetry. now apply Hval.
    + rewrite dict_get_set_other by exact E.
      destruct HP as [HP|[-> ->]]; [now apply Hv | congruence].
  - now apply dict_keys_set_NoDup.
Qed.

Section AggregationsFacts.

Variable object_agg : AggFunc -> Series -> Result Cell.

(** On a numeric column all six reductions are defined. *)
Lemma series_agg_numeric (f : AggFunc) (s : Series) :
  is_numeric s = true -> series_agg object_agg f s = Ok (numeric_agg f s).
Proof.
  unfold is_numeric, series_agg. now destruct (dtype_of s).
Qed.

Lemma agg_func_step_name (df : DataFrame) (col : string) (result : dict)
      (func : string) :
  agg_func_step object_agg df col result func =
  match agg_of_name func with
  | Some f => agg_store object_agg df col f result
  | None => Ok result
  end.
Proof.
  unfold agg_func_step, agg_of_name.
  repeat match goal with
         | |- context [(?a =? ?b)%string] => destruct (a =? b)%string
         end; reflexivity.
Qed.

Lemma inner_loop_record (df : DataFrame) (col : string) (s : Series)
      (funcs : list string) :
  getitem df col = Ok s ->
  (forall f, In (agg_name f) funcs ->
             is_ok (series_agg object_agg f s) = true) ->
  forall (P : string -> AggFunc -> Prop) (d : dict),
    record_of (agg_value object_agg df) P d ->
    exists d',
      for_each (agg_func_step object_agg df col) funcs d = Ok d' /\
      record_of (agg_value object_agg df)
                (fun c g => P c g \/ (c = col /\ In (agg_name g) funcs)) d'.
Proof.
  intros Hs. induction funcs as [|func funcs IH]; intros Hdef P d Hd; simpl.
  - exists d. split; [reflexivity|].
    eapply record_of_ext; [|exact Hd]. simpl. tauto.
  - assert (Hdef' : forall f, In (agg_name f) funcs ->
                              is_ok (series_agg object_agg f s) = true)
      by (intros f Hf; apply Hdef; now right).
    rewrite agg_func_step_name. destruct (agg_of_name func) as [f|] eqn:Ef.
    + apply agg_of_name_some in Ef. subst func.
      assert (Hf : is_ok (series_agg object_agg f s) = true)
        by (apply Hdef; now left).
      unfold agg_store. rewrite Hs. simpl.
      destruct (series_agg object_agg f s) as [v|e] eqn:Ev; [|discriminate].
      simpl.
      assert (Hstore : record_of (agg_value object_agg df)
                         (fun c g => P c g \/ (c = col /\ g = f))
                         (dict_set (agg_key col f) v d)).
      { apply record_of_store; [|exact Hd].
        intros v' (s' & Hs' & Hv'). congruence. }
      destruct (IH Hdef' _ _ Hstore) as (d' & Hd' & Hr).
      exists d'. split; [exact Hd'|].
      eapply record_of_ext; [|exact Hr]. simpl. intros c g.
      split.
      * intros [[HP|[-> ->]]|[-> Hin]]; auto.
      * intros [HP|[-> [E|Hin]]]; auto.
        apply agg_name_inj in E. subst g. auto.
    + simpl. destruct (IH Hdef' _ _ Hd) as (d' & Hd' & Hr).
      exists d'. split; [exact Hd'|].
      eapply record_of_ext; [|exact Hr]. simpl. intros c g.
      split.
      * intros [HP|[-> Hin]]; auto.
      * intros [HP|[-> [E|Hin]]]; auto.
        subst func. rewrite agg_of_name_name in Ef. discriminate.
Qed.

Lemma outer_loop_record (df : DataFrame) (funcs cols : list string) :
  (forall col, In col cols ->
     exists s, getitem df col = Ok s /\
               forall f, In (agg_name f) funcs ->
                         is_ok (series_agg object_agg f s) = true) ->
  forall (P : string -> AggFunc -> Prop) (d : dict),
    record_of (agg_value object_agg df) P d ->
    exists d',
      for_each (fun result col =>
                  for_each (agg_func_step object_agg df col) funcs result)
               cols d = Ok d' /\
      record_of (agg_value object_agg df)
                (fun c g => P c g \/ (In c cols /\ In (agg_name g) funcs)) d'.
Proof.
  induction cols as [|col cols IH]; intros Hcols P d Hd; simpl.
  - exists d. split; [reflexivity|].
    eapply record_of_ext; [|exact Hd]. simpl. tauto.
  - destruct (Hcols col (or_introl eq_refl)) as (s & Hs & Hdef).
    destruct (inner_loop_record df col s funcs Hs Hdef P d Hd)
      as (d1 & Hd1 & Hr1).
    rewrite Hd1. simpl.
    destruct (IH (fun c Hc => Hcols c (or_intror Hc)) _ _ Hr1)
      as (d' & Hd' & Hr).
    exists d'. split; [exact Hd'|].
    eapply record_of_ext; [|exact Hr]. simpl. intros c g.
    split.
    + intros [[HP|[-> Hin]]|[Hc Hin]]; auto.
    + intros [HP|[[->|Hc] Hin]]; auto.
Qed.

End AggregationsFacts.

(** C2, as the code has it.  For columns that are present and on which
    each requested reduction is defined (all six on a numeric column;
    not mean and std on text), and any list of function names,
    [aggregations] returns the one-row table of a record whose keys are
    exactly [<column>_<function>] for the requested columns and the
    requested names among sum, mean, min, max, count, std, each holding
    that reduction of that column; any other name adds no key and
    raises nothing. *)
Theorem aggregations_record
        (object_agg : AggFunc -> Series -> Result Cell)
        (df : DataFrame) (cols funcs : list string) :
  (forall col, In col cols ->
     exists s, getitem df col = Ok s /\
               forall f, In (agg_name f) funcs ->
                         is_ok (series_agg object_agg f s) = true) ->
  exists record,
    aggregations object_agg df cols funcs = Ok (frame_of_record record) /\
    NoDup (dict_keys record) /\
    (forall k, In k (dict_keys record) <->
               exists col f, In col cols /\ In (agg_name f) funcs /\
                             k = agg_key col f) /\
    (forall col f s v, In col cols -> In (agg_name f) funcs ->
                       getitem df col = Ok s ->
                       series_agg object_agg f s = Ok v ->
                       dict_get (agg_key col f) record = Some v).
Proof.
  intros Hcols.
  assert (H0 : record_of (agg_value object_agg df) (fun _ _ => False) []).
  { repeat split; simpl; try tauto.
    - intros (c & g & [] & _).
    - constructor. }
  destruct (outer_loop_record object_agg df funcs cols Hcols _ _ H0)
    as (d & Hd & Hk & Hv & Hnd).
  exists d. unfold aggregations, agg_loop. rewrite Hd. simpl.
  repeat split; auto.
  - intros Hin. apply Hk in Hin as (c & g & [[]|[Hc Hg]] & ->). eauto.
  - intros (c & g & Hc & Hg & ->). apply Hk. exists c, g. auto.
  - intros col f s v Hc Hf Hs Hval. apply Hv; [auto|]. exists s. auto.
Qed.

(** For numeric columns the premise of [aggregations_record] holds
    whatever the function names, and the scalars are the numeric
    reductions. *)
Lemma numeric_columns_reduce
      (object_agg : AggFunc -> Series -> Result Cell)
      (df : DataFrame) (cols funcs : list string) :
  (forall col, In col cols ->
               exists s, getitem df col = Ok s /\ is_numeric s = true) ->
  forall col, In col cols ->
    exists s, getitem df col = Ok s /\
              forall f, In (agg_name f) funcs ->
                        is_ok (series_agg object_agg f s) = true.
Proof.
  intros H col Hcol. destruct (H col Hcol) as (s & Hs & Hnum).
  exists s. split; [exact Hs|]. intros f _.
  now rewrite (series_agg_numeric object_agg f s Hnum).
Qed.

Lemma staff_reductions (col : string) :
  In col ["salary"; "score"; "department"] ->
  exists s, getitem staff col = Ok s /\
            forall f, In (agg_name f) ["max"; "median"; "count"] ->
                      is_ok (series_agg raise_agg f s) = true.
Proof.
  intros [<-|[<-|[<-|[]]]]; eexists; (split; [reflexivity|]);
    intros [] Hf; simpl in Hf; try reflexivity;
    decompose [or] Hf; try discriminate; contradiction.
Qed.

Lemma aggregations_record_witness :
  exists record,
    aggregations raise_agg staff ["salary"; "score"; "department"]
      ["max"; "median"; "count"]
    = Ok (frame_of_record record) /\
    NoDup (dict_keys record) /\
    (forall k, In k (dict_keys record) <->
               exists col f, In col ["salary"; "score"; "department"] /\
                             In (agg_name f) ["max"; "median"; "count"] /\
                             k = agg_key col f) /\
    (forall col f s v, In col ["salary"; "score"; "department"] ->
                       In (agg_name f) ["max"; "median"; "count"] ->
                       getitem staff col = Ok s ->
                       series_agg raise_agg f s = Ok v ->
                       dict_get (agg_key col f) record = Some v).
Proof.
  apply (aggregations_record raise_agg staff
           ["salary"; "score"; "department"] ["max"; "median"; "count"]).
  exact staff_reductions.
Defined.

(** The record of that request: [median] leaves no key. *)
Example aggregations_skips_median :
  aggregations raise_agg staff ["salary"; "score"] ["mean"; "median"; "max"]
  = Ok (frame_of_record
          [("salary_mean", CFloat (350 / 3)); ("salary_max", CInt 250);
           ("score_mean", CFloat (2.5 / 3)); ("score_max", CFloat 2)]).
Proof. vm_compute. reflexivity. Qed.

(** C2, as the claim has it, fails on a column of text: the column
    [department] is present, and asking for its mean raises. *)
Lemma aggregations_text_column_raises :
  getitem staff "department" = Ok [CStr "ops"; CStr "dev"; CStr "ops"]
  /\ exists msg,
       aggregations raise_agg staff ["department"] ["mean"]
       = Raise (ValueError ("Aggregation failed: " ++ msg)).
Proof. split; [reflexivity | eexists; reflexivity]. Qed.

(** *** Row order *)
















Lemma for_each_ext {A S : Type} (step1 step2 : S -> A -> Result S)
      (xs : list A) (st : S) :
  (forall st' x, In x xs -> step1 st' x = step2 st' x) ->
  for_each step1 xs st = for_each step2 xs st.
Proof.
  revert st. induction xs as [|x xs IH]; intros st H; simpl; [reflexivity|].
  rewrite (H st x (or_introl eq_refl)).
  destruct (step2 st x) as [st'|e]; simpl; [|reflexivity].
  apply IH. intros st0 y Hy. apply H. now right.
Qed.












Section RowOrder.

Variable object_agg : AggFunc -> Series -> Result Cell.



Lemma same_number_refl (a : Cell) : same_number a a.
Proof. now left. Qed.

Lemma same_record_refl (d : dict) : same_record d d.
Proof.
  induction d as [|kv d IH]; constructor; [|exact IH].
  split; [reflexivity | apply same_number_refl].
Qed.


End RowOrder.






(** ** join_dataframes *)

Lemma range_index_length (n : nat) : List.length (range_index n) = n.
Proof. unfold range_index. now rewrite length_map, length_seq. Qed.

Lemma insert_by_length {A : Type} (leb : A -> A -> bool) (x : A) (l : list A) :
  List.length (insert_by leb x l) = S (List.length l).
Proof.
  induction l as [|y l IH]; simpl; [reflexivity|].
  destruct (leb x y); simpl; congruence.
Qed.

Lemma sort_by_length {A : Type} (leb : A -> A -> bool) (l : list A) :
  List.length (sort_by leb l) = List.length l.
Proof.
  induction l as [|x l IH]; simpl; [reflexivity|].
  now rewrite insert_by_length, IH.
Qed.

































Section JoinFacts.

Variable coerce_keys : Series -> Series -> Result unit.
Variable merge_on_level :
  DataFrame -> DataFrame -> string -> How -> Result DataFrame.
Variable row_order : How -> list Cell -> list Cell -> RowPair -> RowPair -> bool.




End JoinFacts.






(** C6, as the claim has it, fails on key columns of different types.
    Integer ids joined with ids typed as text are refused by [pd.merge],
    whatever the kind of join.  Integer ids joined with float ids are
    compared as float64: the two distinct account numbers 2^53 and
    2^53 + 1 both match the one float 2^53, so the inner join has two
    rows although one key value only is present in both tables. *)
Lemma join_key_types_matter :
  getitem people "id" = Ok [CInt 1; CInt 2; CInt 3]
  /\ getitem tags "id" = Ok [CStr "1"; CStr "2"]
  /\ (exists msg,
        join_dataframes accept_keys no_level_merge left_order
          people tags "id" "inner"
        = Raise (ValueError ("Join operation failed: " ++ msg)))
  /\ (exists msg,
        join_dataframes accept_keys no_level_merge left_order
          people tags "id" "outer"
        = Raise (ValueError ("Join operation failed: " ++ msg)))
  /\ getitem accounts "id"
     = Ok [CInt 9007199254740992; CInt 9007199254740993]
  /\ getitem balances "id" = Ok [CFloat 9007199254740992]
  /\ unique_keys [CInt 9007199254740992; CInt 9007199254740993] = true
  /\ unique_keys [CFloat 9007199254740992] = true
  /\ (exists r,
        join_dataframes accept_keys no_level_merge left_order
          accounts balances "id" "inner" = Ok r
        /\ nrows r = 2%nat)
  /\ List.length
       (filter (fun k => existsb (same_key_value k)
                           [CFloat 9007199254740992])
               [CInt 9007199254740992; CInt 9007199254740993])
     = 1%nat.
Proof.
  repeat split; try (vm_compute; reflexivity);
    eexists; try split; vm_compute; reflexivity.
Qed.

(** The two joins of the sample sheets: ids 2 and 3 are in both, five
    ids occur in all. *)
Example join_people_badges :
  join_dataframes accept_keys no_level_merge left_order
    people badges "id" "inner"
  = Ok (mkDF None (range_index 2) None
          [(CStr "id", [CInt 2; CInt 3]);
           (CStr "name", [CStr "bob"; CStr "cy"]);
           (CStr "badge", [CStr "blue"; CStr "red"])])
  /\ join_dataframes accept_keys no_level_merge left_order
       people badges "id" "outer"
     = Ok (mkDF None (range_index 5) None
             [(CStr "id", [CInt 1; CInt 2; CInt 3; CInt 4; CInt 5]);
              (CStr "name", [CStr "ann"; CStr "bob"; CStr "cy";
                             CFloat nan; CFloat nan]);
              (CStr "badge", [CFloat nan; CStr "blue"; CStr "red";
                              CStr "green"; CStr "grey"])]).
Proof. split; vm_compute; reflexivity. Qed.

(** ** pivot_table and unpivot_table *)

Lemma insert_by_perm {A : Type} (leb : A -> A -> bool) (x : A) (l : list A) :
  Permutation (insert_by leb x l) (x :: l).
Proof.
  induction l as [|y l IH]; simpl; [apply Permutation_refl|].
  destruct (leb x y); [apply Permutation_refl|].
  eapply Permutation_trans; [apply perm_skip, IH | apply perm_swap].
Qed.

Lemma sort_by_perm {A : Type} (leb : A -> A -> bool) (l : list A) :
  Permutation (sort_by leb l) l.
Proof.
  induction l as [|x l IH]; simpl; [apply Permutation_refl|].
  eapply Permutation_trans; [apply insert_by_perm | now apply perm_skip].
Qed.



















Lemma as_float_typed (ty : CellType) (c : Cell) :
  has_type ty c = true -> ty <> IntCell -> as_float c = c.
Proof. destruct ty, c; simpl; try discriminate; congruence. Qed.


Lemma pivot_rows_In (l : list Triple) (i : Cell) :
  In i (pivot_rows l) <-> exists t, In t l /\ fst (fst t) = i.
Proof.
  unfold pivot_rows. split.
  - intros H. apply (Permutation_in _ (sort_by_perm _ _)) in H.
    apply nodup_In, in_map_iff in H as (t & <- & Ht). eauto.
  - intros (t & Ht & <-).
    apply (Permutation_in _ (Permutation_sym (sort_by_perm _ _))).
    apply nodup_In. now apply (in_map (fun kv => fst (fst kv))).
Qed.

Lemma pivot_cols_In (l : list Triple) (c : Cell) :
  In c (pivot_cols l) <-> exists t, In t l /\ snd (fst t) = c.
Proof.
  unfold pivot_cols. split.
  - intros H. apply (Permutation_in _ (sort_by_perm _ _)) in H.
    apply nodup_In, in_map_iff in H as (t & <- & Ht). eauto.
  - intros (t & Ht & <-).
    apply (Permutation_in _ (Permutation_sym (sort_by_perm _ _))).
    apply nodup_In. now apply (in_map (fun kv => snd (fst kv))).
Qed.

Lemma pivot_rows_NoDup (l : list Triple) : NoDup (pivot_rows l).
Proof.
  unfold pivot_rows.
  apply (Permutation_NoDup (Permutation_sym (sort_by_perm _ _))).
  apply NoDup_nodup.
Qed.

Lemma pivot_cols_NoDup (l : list Triple) : NoDup (pivot_cols l).
Proof.
  unfold pivot_cols.
  apply (Permutation_NoDup (Permutation_sym (sort_by_perm _ _))).
  apply NoDup_nodup.
Qed.





Section PivotFacts.

Variable object_agg : AggFunc -> Series -> Result Cell.
Variable named_agg : string -> Series -> Result Cell.



End PivotFacts.



Lemma has_label_true (l : Label) (cs : list (Label * Series)) :
  In l (map fst cs) -> has_label l cs = true.
Proof.
  intros Hin. apply in_map_iff in Hin as (c & <- & Hc).
  apply existsb_exists. exists c. split; [exact Hc | apply cell_eqb_refl].
Qed.










Lemma filter_none {A : Type} (p : A -> bool) (l : list A) :
  (forall x, In x l -> p x = false) -> filter p l = [].
Proof.
  induction l as [|x l IH]; simpl; intros H; [reflexivity|].
  rewrite (H x (or_introl eq_refl)). apply IH. auto.
Qed.

Lemma unique_first_incl (l : list Label) (x : Label) :
  In x (unique_first l) -> In x l.
Proof.
  revert x. induction l as [|y l IH]; simpl; intros x H; [exact H|].
  destruct H as [H|H]; [now left|]. right. apply IH.
  now apply filter_In in H.
Qed.











Lemma triples_In (a b d : Series) (i c v : Cell) :
  In ((i, c), v) (triples a b d) -> In i a /\ In c b /\ In v d.
Proof.
  unfold triples. intros H.
  apply in_map_iff in H as ([i0 [c0 v0]] & [= -> -> ->] & H).
  pose proof (in_combine_l _ _ _ _ H).
  apply in_combine_r in H.
  pose proof (in_combine_l _ _ _ _ H).
  apply in_combine_r in H. auto.
Qed.











(** The long table of that round trip: the three triples of [sales],
    and a blank for (south, q2), which [sales] does not have. *)
Example pivot_unpivot_sales :
  (pt <- pivot_table raise_agg raise_named_agg sales
           "amount" "region" "quarter" "max" ;;
   flat <- reset_index pt ;;
   long <- unpivot_table flat [CStr "region"] (columns pt) ;;
   Ok (long_triples long "region" "quarter" "value"))
  = Ok [((CStr "north", CStr "q1"), CFloat 1.5);
        ((CStr "south", CStr "q1"), CFloat 3);
        ((CStr "north", CStr "q2"), CFloat 2);
        ((CStr "south", CStr "q2"), CFloat nan)]
  /\ absent_keys (triples [CStr "north"; CStr "north"; CStr "south"]
                    [CStr "q1"; CStr "q2"; CStr "q1"]
                    [CFloat 1.5; CFloat 2; CFloat 3])
     = [(CStr "south", CStr "q2")].
Proof. split; vm_compute; reflexivity. Qed.


(* ===================================================================== *)
(** * Further properties of the engine *)
(* ===================================================================== *)

(** ** basic_math: what it leaves alone, how it fails *)

Lemma lookup_col_none (l : Label) (cs : list (Label * Series)) :
  lookup_col l cs = None <-> ~ In l (map fst cs).
Proof.
  induction cs as [|[l' s] cs IH]; simpl; [tauto|].
  destruct (cell_eqb l l') eqn:E.
  - apply cell_eqb_eq in E. subst. split; [discriminate | tauto].
  - apply cell_eqb_neq in E. rewrite IH. split; [intros H [H'|H']; auto | tauto].
Qed.

Lemma getitem_missing (df : DataFrame) (col : string) :
  ~ In (CStr col) (columns df) -> getitem df col = Raise (KeyError col).
Proof.
  intros H. unfold getitem.
  now rewrite (proj2 (lookup_col_none (CStr col) (df_cols df)) H).
Qed.

Lemma getitem_present (df : DataFrame) (col : string) :
  In (CStr col) (columns df) -> exists s, getitem df col = Ok s.
Proof.
  intros H. unfold getitem.
  destruct (lookup_col (CStr col) (df_cols df)) as [s|] eqn:E; [eauto|].
  apply lookup_col_none in E. contradiction.
Qed.

(** A plain name is printed between apostrophes as it stands. *)
Lemma plain_char_repr (c : ascii) :
  plain_char c = true ->
  repr_char apostrophe c = String c "" /\ (apostrophe =? c)%char = false.
Proof.
  destruct c as [[] [] [] [] [] [] [] []]; intros H;
    try discriminate H; split; reflexivity.
Qed.

Lemma py_repr_plain (s : string) :
  plain_text s = true -> py_repr s = "'" ++ s ++ "'".
Proof.
  intros H.
  assert (E : string_has apostrophe s = false /\ repr_chars apostrophe s = s).
  { induction s as [|c s IH];
      cbn [string_has repr_chars plain_text] in *; [auto|].
    apply andb_true_iff in H as [Hc Hs].
    destruct (plain_char_repr c Hc) as [-> ->].
    destruct (IH Hs) as [-> ->]. auto. }
  destruct E as [E1 E2]. unfold py_repr. rewrite E1. cbn [andb].
  cbv beta iota zeta. rewrite E2. reflexivity.
Qed.

(** X1.  Whenever [basic_math] succeeds with one of the four operators,
    the table it returns has the rows and the index of its input, every
    column other than the result column is as it was, and the columns
    keep their order: the result column stays where it stood if it was
    there, and is the new last column if not. *)
Theorem basic_math_frame
        (ob : MathOp -> Series -> Series -> Result Series)
        (df df' : DataFrame) (operation : string) (op : MathOp)
        (col1 col2 result_col : string) :
  op_of_name operation = Some op ->
  basic_math ob df operation col1 col2 result_col = Ok df' ->
  df_index df' = df_index df /\
  (forall l, l <> CStr result_col ->
             lookup_col l (df_cols df') = lookup_col l (df_cols df)) /\
  (In (CStr result_col) (columns df) -> columns df' = columns df) /\
  (~ In (CStr result_col) (columns df) ->
   columns df' = (columns df ++ [CStr result_col])%list).
Proof.
  intros Hop H. rewrite (basic_math_known _ _ _ _ _ _ _ Hop) in H.
  apply try_except_ok in H; [|discriminate].
  unfold apply_math in H.
  apply bind_ok in H as (a & _ & H). apply bind_ok in H as (b & _ & H).
  apply bind_ok in H as (r & _ & [= <-]).
  repeat split.
  - intros l Hl. simpl. now apply lookup_set_col_other.
  - intros Hin. unfold columns, setitem. simpl. now apply set_col_present.
  - intros Hnin. unfold columns, setitem. simpl.
    rewrite set_col_absent by exact Hnin. now rewrite map_app.
Qed.

Lemma basic_math_frame_witness :
  df_index (setitem staff "total" [CInt 200; CInt 500; CInt 0])
  = df_index staff /\
  (forall l, l <> CStr "total" ->
             lookup_col l (df_cols (setitem staff "total"
                                      [CInt 200; CInt 500; CInt 0]))
             = lookup_col l (df_cols staff)) /\
  (In (CStr "total") (columns staff) ->
   columns (setitem staff "total" [CInt 200; CInt 500; CInt 0])
   = columns staff) /\
  (~ In (CStr "total") (columns staff) ->
   columns (setitem staff "total" [CInt 200; CInt 500; CInt 0])
   = (columns staff ++ [CStr "total"])%list).
Proof.
  apply (basic_math_frame raise_binop staff _ "add" Add "salary" "salary" "total");
    reflexivity.
Defined.

(** X2.  With one of the four operators and a source column that the
    table does not have, [basic_math] raises ValueError: its text is
    [Math operation failed: ] followed by the first missing column as
    Python prints the key of a KeyError, which for a plain name is the
    name between apostrophes. *)
Theorem basic_math_missing_column
        (ob : MathOp -> Series -> Series -> Result Series)
        (df : DataFrame) (operation : string) (op : MathOp)
        (col1 col2 result_col : string) :
  op_of_name operation = Some op ->
  (~ In (CStr col1) (columns df) ->
   exists msg,
     basic_math ob df operation col1 col2 result_col
     = Raise (ValueError ("Math operation failed: " ++ msg)) /\
     (plain_text col1 = true -> msg = "'" ++ col1 ++ "'")) /\
  (In (CStr col1) (columns df) -> ~ In (CStr col2) (columns df) ->
   exists msg,
     basic_math ob df operation col1 col2 result_col
     = Raise (ValueError ("Math operation failed: " ++ msg)) /\
     (plain_text col2 = true -> msg = "'" ++ col2 ++ "'")).
Proof.
  intros Hop. rewrite (basic_math_known _ _ _ _ _ _ _ Hop). unfold apply_math.
  split.
  - intros H1. rewrite (getitem_missing _ _ H1). simpl.
    eexists. split; [reflexivity | apply py_repr_plain].
  - intros H1 H2. destruct (getitem_present _ _ H1) as [a ->].
    simpl. rewrite (getitem_missing _ _ H2). simpl.
    eexists. split; [reflexivity | apply py_repr_plain].
Qed.

Lemma basic_math_missing_column_witness :
  (~ In (CStr "bonus") (columns staff) ->
   exists msg,
     basic_math raise_binop staff "subtract" "bonus" "salary" "net"
     = Raise (ValueError ("Math operation failed: " ++ msg)) /\
     (plain_text "bonus" = true -> msg = "'" ++ "bonus" ++ "'")) /\
  (In (CStr "bonus") (columns staff) -> ~ In (CStr "salary") (columns staff) ->
   exists msg,
     basic_math raise_binop staff "subtract" "bonus" "salary" "net"
     = Raise (ValueError ("Math operation failed: " ++ msg)) /\
     (plain_text "salary" = true -> msg = "'" ++ "salary" ++ "'")).
Proof.
  apply (basic_math_missing_column raise_binop staff "subtract" Subtract).
  reflexivity.
Defined.

(** A bonus column the sheet of employees lacks: the message as the
    engine gives it, also for a name with an apostrophe. *)
Example basic_math_missing_bonus :
  basic_math raise_binop staff "subtract" "bonus" "salary" "net"
  = Raise (ValueError "Math operation failed: 'bonus'")
  /\ str_exc (KeyError "year's bonus")
     = String double_quote ("year's bonus" ++ String double_quote "").
Proof. split; vm_compute; reflexivity. Qed.

(** ** aggregations: what it never reads, how it fails *)

Lemma for_each_ok_step {A S : Type} (step : S -> A -> Result S) (xs : list A)
      (st st' : S) (x : A) :
  for_each step xs st = Ok st' -> In x xs ->
  exists s0 s1, step s0 x = Ok s1.
Proof.
  revert st. induction xs as [|y xs IH]; intros st H Hin; [destruct Hin|].
  simpl in H. apply bind_ok in H as (s1 & Hs1 & H).
  destruct Hin as [->|Hin]; [eauto | eapply IH; eauto].
Qed.

Lemma for_each_skip {A S : Type} (step : S -> A -> Result S) (xs : list A)
      (st : S) :
  (forall s x, In x xs -> step s x = Ok s) -> for_each step xs st = Ok st.
Proof.
  induction xs as [|y xs IH]; intros H; simpl; [reflexivity|].
  rewrite (H st y (or_introl eq_refl)). simpl. apply IH.
  intros s x Hx. apply H. now right.
Qed.

(** X3.  When none of the requested function names is one of sum, mean,
    min, max, count, std, [aggregations] reads no column at all: it
    returns the one-row table of the empty record for any list of
    column names, names of columns the table does not have included. *)
Theorem aggregations_no_known_function
        (object_agg : AggFunc -> Series -> Result Cell)
        (df : DataFrame) (cols funcs : list string) :
  (forall func, In func funcs -> agg_of_name func = None) ->
  aggregations object_agg df cols funcs = Ok (frame_of_record []).
Proof.
  intros Hnone. unfold aggregations, agg_loop.
  rewrite for_each_skip; [reflexivity|].
  intros d col _. apply for_each_skip. intros d' func Hf.
  rewrite agg_func_step_name. now rewrite (Hnone func Hf).
Qed.

Lemma aggregations_no_known_function_witness :
  aggregations raise_agg staff ["salary"; "no_such_column"] ["median"; "mode"]
  = Ok (frame_of_record []).
Proof.
  apply aggregations_no_known_function.
  intros func [<-|[<-|[]]]; reflexivity.
Defined.

(** X4.  When a requested column is not in the table and a requested
    function name is one of the six, [aggregations] fails: it raises
    ValueError and returns no partial record. *)
Theorem aggregations_missing_column
        (object_agg : AggFunc -> Series -> Result Cell)
        (df : DataFrame) (cols funcs : list string) (col func : string)
        (f : AggFunc) :
  In col cols ->
  ~ In (CStr col) (columns df) ->
  In func funcs ->
  agg_of_name func = Some f ->
  exists msg,
    aggregations object_agg df cols funcs
    = Raise (ValueError ("Aggregation failed: " ++ msg)).
Proof.
  intros Hcol Hmiss Hfunc Hf. unfold aggregations.
  destruct (agg_loop object_agg df cols funcs) as [d|e] eqn:E; simpl.
  - exfalso. unfold agg_loop in E.
    destruct (for_each_ok_step _ _ _ _ col E Hcol) as (d0 & d1 & Hinner).
    destruct (for_each_ok_step _ _ _ _ func Hinner Hfunc) as (d2 & d3 & Hstep).
    rewrite agg_func_step_name, Hf in Hstep. unfold agg_store in Hstep.
    now rewrite (getitem_missing _ _ Hmiss) in Hstep.
  - eauto.
Qed.

Lemma aggregations_missing_column_witness :
  exists msg,
    aggregations raise_agg staff ["salary"; "bonus"] ["median"; "max"]
    = Raise (ValueError ("Aggregation failed: " ++ msg)).
Proof.
  apply (aggregations_missing_column raise_agg staff ["salary"; "bonus"]
           ["median"; "max"] "bonus" "max" Max);
    [ simpl; auto | simpl; intuition discriminate | simpl; auto | reflexivity ].
Defined.

(** ** join_dataframes: the four kinds of join *)


















(** ** unpivot_table: the shape of the long table, how it fails *)




Lemma has_label_In (l : Label) (cs : list (Label * Series)) :
  has_label l cs = true <-> In l (map fst cs).
Proof.
  split; [|apply has_label_true].
  intros H. apply existsb_exists in H as (c & Hc & Heq).
  apply cell_eqb_eq in Heq. subst l. now apply in_map.
Qed.


Lemma sort_by_nil {A : Type} (leb : A -> A -> bool) (l : list A) :
  sort_by leb l = [] -> l = [].
Proof.
  intros H. apply (f_equal (@List.length A)) in H.
  rewrite sort_by_length in H. now destruct l.
Qed.

Lemma unique_first_nil (l : list Label) : unique_first l = [] -> l = [].
Proof. now destruct l. Qed.

(** No label is missing when the table has them all. *)
Lemma missing_labels_nil (df : DataFrame) (ls : list Label) :
  missing_labels df ls = [] <-> forall l, In l ls -> In l (columns df).
Proof.
  unfold missing_labels. split.
  - intros H l Hl. apply sort_by_nil, unique_first_nil in H.
    apply has_label_In.
    destruct (has_label l (df_cols df)) eqn:E; [reflexivity|].
    assert (Hin : In l (filter (fun l => negb (has_label l (df_cols df))) ls))
      by (apply filter_In; now rewrite E).
    rewrite H in Hin. destruct Hin.
  - intros H. rewrite filter_none; [reflexivity|].
    intros l Hl. apply negb_false_iff, has_label_In. now apply H.
Qed.





(** A value column named twice is melted once, and a column that is an
    identifier is not melted. *)
Example unpivot_repeated_value_column :
  unpivot_table staff [CStr "department"]
    [CStr "salary"; CStr "salary"; CStr "department"]
  = Ok (mkDF None (range_index 3) None
          [(CStr "department", [CStr "ops"; CStr "dev"; CStr "ops"]);
           (CStr "variable", [CStr "salary"; CStr "salary"; CStr "salary"]);
           (CStr "value", [CInt 100; CInt 250; CInt 0])]).
Proof. vm_compute. reflexivity. Qed.

(** X10.  [unpivot_table] fails with ValueError when an identifier or
    value column is not a column of the table, and when the table
    already has a column named [value]. *)
Theorem unpivot_failures
        (df : DataFrame) (id_vars value_vars : list Label) (l : Label) :
  (In l (id_vars ++ value_vars)%list /\ ~ In l (columns df)) \/
  In (CStr "value") (columns df) ->
  exists msg,
    unpivot_table df id_vars value_vars
    = Raise (ValueError ("Unpivot operation failed: " ++ msg)).
Proof.
  intros H. unfold unpivot_table, melt.
  destruct (has_label (CStr "value") (df_cols df)) eqn:Hv; [simpl; eauto|].
  destruct H as [[Hin Hnin]|Hval].
  2:{ rewrite (has_label_true _ _ Hval) in Hv. discriminate. }
  destruct (missing_labels df id_vars) as [|l0 rest] eqn:Hmi; [|simpl; eauto].
  destruct (missing_labels df value_vars) as [|l1 rest] eqn:Hmv;
    [|simpl; eauto].
  exfalso. apply Hnin.
  apply in_app_or in Hin as [Hin|Hin].
  - now apply (proj1 (missing_labels_nil df id_vars) Hmi).
  - now apply (proj1 (missing_labels_nil df value_vars) Hmv).
Qed.

Lemma unpivot_failures_witness :
  exists msg,
    unpivot_table staff [CStr "department"] [CStr "salary"; CStr "bonus"]
    = Raise (ValueError ("Unpivot operation failed: " ++ msg)).
Proof.
  apply (unpivot_failures staff [CStr "department"]
           [CStr "salary"; CStr "bonus"] (CStr "bonus")).
  left. split; simpl; intuition discriminate.
Defined.

(** ** pivot_table: the grid it returns, how it fails *)

Lemma fill_block_length (holes : bool) (s : Series) (cells : list (option Cell)) :
  List.length (fill_block holes s cells) = List.length cells.
Proof.
  unfold fill_block.
  destruct holes, (forallb is_time s), (forallb is_int s); apply length_map.
Qed.

Lemma traverse_keys {K V : Type} (f : K -> Result V) (keys : list K)
      (out : list (K * V)) :
  traverse (fun k => v <- f k ;; Ok (k, v)) keys = Ok out ->
  map fst out = keys.
Proof.
  revert out. induction keys as [|k keys IH]; simpl; intros out H.
  - now injection H as <-.
  - apply bind_ok in H as ([k' v] & Hkv & H).
    apply bind_ok in Hkv as (v' & _ & [= <- <-]).
    apply bind_ok in H as (rest & Hrest & [= <-]).
    simpl. f_equal. now apply IH.
Qed.

Lemma map_fst_combine {A B : Type} (l : list A) (l' : list B) :
  List.length l = List.length l' -> map fst (combine l l') = l.
Proof.
  revert l'. induction l as [|x l IH]; intros [|y l']; simpl; try easy.
  intros [= H]. now rewrite IH.
Qed.

Lemma grid_frame_wf (name : option string) (rows : list Label)
      (cname : option string) (labels : list Label) (cells : list Series) :
  List.length labels = List.length cells ->
  NoDup labels ->
  (forall s, In s cells -> List.length s = List.length rows) ->
  wf_df (mkDF name rows cname (combine labels cells)) /\
  columns (mkDF name rows cname (combine labels cells)) = labels.
Proof.
  intros Hlen Hnd Hcells.
  assert (Hc : columns (mkDF name rows cname (combine labels cells)) = labels)
    by (apply map_fst_combine; exact Hlen).
  split; [|exact Hc]. split.
  - now rewrite Hc.
  - unfold nrows. cbn [df_index df_cols]. apply Forall_forall.
    intros [c s] Hin. apply in_combine_r in Hin. now apply Hcells.
Qed.

Lemma label_or_level_getitem (df : DataFrame) (name : string) (s s' : Series) :
  getitem df name = Ok s -> label_or_level df name = Ok s' -> s' = s.
Proof.
  unfold getitem, label_or_level.
  destruct (lookup_col (CStr name) (df_cols df)); [|discriminate].
  intros [= ->].
  destruct (df_index_name df) as [i|]; [|now intros [= ->]].
  destruct (i =? name)%string; [discriminate | now intros [= ->]].
Qed.

(** X11.  Whenever [pivot_table] succeeds, the table it returns keeps
    the table invariant and is a grid over the data: its index bears
    the name of the index column and its column axis the name of the
    pivot column; no row label and no column label occurs twice or is
    blank; every row label is a value of the index column and every
    column label a value of the pivot column. *)
Theorem pivot_table_grid
        (object_agg : AggFunc -> Series -> Result Cell)
        (named_agg : string -> Series -> Result Cell)
        (df pt : DataFrame) (values index cols aggfunc : string)
        (ixs cs : Series) :
  getitem df index = Ok ixs ->
  getitem df cols = Ok cs ->
  pivot_table object_agg named_agg df values index cols aggfunc = Ok pt ->
  wf_df pt /\
  df_index_name pt = Some index /\
  df_columns_name pt = Some cols /\
  NoDup (df_index pt) /\
  (forall i, In i (df_index pt) ->
             In i (map key_norm ixs) /\ is_null i = false) /\
  (forall c, In c (columns pt) ->
             In c (map key_norm cs) /\ is_null c = false).
Proof.
  intros Hixs Hcs H. unfold pivot_table in H.
  apply try_except_ok in H; [|discriminate]. unfold pd_pivot_table in H.
  apply bind_ok in H as (vs & Hvs & H).
  apply bind_ok in H as (ixs' & Hixs' & H).
  apply bind_ok in H as (cs' & Hcs' & H).
  rewrite (label_or_level_getitem _ _ _ _ Hixs Hixs') in H.
  rewrite (label_or_level_getitem _ _ _ _ Hcs Hcs') in H.
  clear ixs' cs' Hixs' Hcs'.
  apply bind_ok in H as (agged & Hagg & H). injection H as <-.
  apply traverse_keys in Hagg.
  set (rows := filter (fun r : Cell * Cell * Cell =>
                         negb (is_null (fst (fst r))) &&
                         negb (is_null (snd (fst r))))
                      (triples (map key_norm ixs) (map key_norm cs) vs)) in *.
  set (kept := filter (fun kv : Cell * Cell * Cell => negb (is_null (snd kv)))
                      agged) in *.
  fold (pivot_rows kept). fold (pivot_cols kept).
  assert (Hkey : forall t, In t kept ->
                   (In (fst (fst t)) (map key_norm ixs) /\
                    is_null (fst (fst t)) = false) /\
                   (In (snd (fst t)) (map key_norm cs) /\
                    is_null (snd (fst t)) = false)).
  { intros t Ht. apply filter_In in Ht as [Ht _].
    apply (in_map fst) in Ht. rewrite Hagg in Ht.
    apply nodup_In, in_map_iff in Ht as ([[i c] v] & Heq & Hr).
    rewrite <- Heq. simpl. unfold rows in Hr.
    apply filter_In in Hr as [Hr Hnn]. simpl in Hnn.
    apply andb_prop in Hnn as [Hi Hc]. apply negb_true_iff in Hi, Hc.
    apply triples_In in Hr. tauto. }
  match goal with
  | |- wf_df (mkDF _ _ _ (combine _ ?X0)) /\ _ => set (X := X0)
  end.
  destruct (grid_frame_wf (Some index) (pivot_rows kept) (Some cols)
              (pivot_cols kept) X) as [Hwf Hcolumns].
  { unfold X. now rewrite !length_map. }
  { apply pivot_cols_NoDup. }
  { intros s Hs. unfold X in Hs.
    apply in_map_iff in Hs as (cells & <- & Hcells).
    apply in_map_iff in Hcells as (c0 & <- & _).
    now rewrite fill_block_length, length_map. }
  split; [exact Hwf|]. cbn [df_index_name df_columns_name df_index].
  assert (Hcol : forall c,
             In c (columns (mkDF (Some index) (pivot_rows kept) (Some cols)
                              (combine (pivot_cols kept) X))) ->
             In c (pivot_cols kept))
    by (intros c Hc; rewrite <- Hcolumns; exact Hc).
  repeat split.
  - apply pivot_rows_NoDup.
  - apply pivot_rows_In in H as (t & Ht & <-). apply (Hkey t Ht).
  - apply pivot_rows_In in H as (t & Ht & <-). apply (Hkey t Ht).
  - apply Hcol, pivot_cols_In in H as (t & Ht & <-). apply (Hkey t Ht).
  - apply Hcol, pivot_cols_In in H as (t & Ht & <-). apply (Hkey t Ht).
Qed.

Lemma pivot_table_grid_witness :
  wf_df sales_pivot /\
  df_index_name sales_pivot = Some "region" /\
  df_columns_name sales_pivot = Some "quarter" /\
  NoDup (df_index sales_pivot) /\
  (forall i, In i (df_index sales_pivot) ->
             In i (map key_norm [CStr "north"; CStr "north"; CStr "south"]) /\
             is_null i = false) /\
  (forall c, In c (columns sales_pivot) ->
             In c (map key_norm [CStr "q1"; CStr "q2"; CStr "q1"]) /\
             is_null c = false).
Proof.
  apply (pivot_table_grid raise_agg raise_named_agg sales sales_pivot
           "amount" "region" "quarter" "max");
    [ reflexivity | reflexivity | vm_compute; reflexivity ].
Defined.



(** A table indexed by region, without a column of that name, is
    pivoted by its index. *)
Example pivot_table_by_index_level :
  pivot_table raise_agg raise_named_agg
    (mkDF (Some "region") [CStr "north"; CStr "north"; CStr "south"] None
          [(CStr "quarter", [CStr "q1"; CStr "q2"; CStr "q1"]);
           (CStr "amount", [CFloat 1.5; CFloat 2; CFloat 3])])
    "amount" "region" "quarter" "max"
  = Ok sales_pivot.
Proof. vm_compute. reflexivity. Qed.

(** ** date_operations: running it again, what it keeps, how it fails *)

Lemma set_col_id (l : Label) (s : Series) (cs : list (Label * Series)) :
  lookup_col l cs = Some s -> set_col l s cs = cs.
Proof.
  induction cs as [|[l' s'] cs IH]; simpl; [discriminate|].
  destruct (cell_eqb l l') eqn:E.
  - apply cell_eqb_eq in E. now intros [= ->]; subst.
  - intros H. now rewrite IH.
Qed.

Lemma setitem_id (df : DataFrame) (col : string) (s : Series) :
  getitem df col = Ok s -> setitem df col s = df.
Proof.
  unfold getitem, setitem.
  destruct (lookup_col (CStr col) (df_cols df)) as [s'|] eqn:E; [|discriminate].
  intros [= ->]. rewrite (set_col_id _ _ _ E). now destruct df.
Qed.

Lemma setitem_wf (df : DataFrame) (col : string) (s : Series) :
  wf_df df -> List.length s = nrows df -> wf_df (setitem df col s).
Proof.
  intros [Hnd Hlen] Hs. split.
  - unfold columns, setitem. cbn [df_cols].
    destruct (in_dec cell_eq_dec (CStr col) (map fst (df_cols df))) as [Hin|Hnin].
    + now rewrite set_col_present.
    + rewrite set_col_absent, map_app by exact Hnin.
      apply NoDup_app; [exact Hnd | repeat constructor; simpl; tauto |].
      intros l Hl [<-|[]]. contradiction.
  - unfold nrows, setitem. cbn [df_cols df_index].
    now apply set_col_lengths.
Qed.

Lemma traverse_ok_In {A B : Type} (f : A -> Result B) (xs : list A)
      (ys : list B) (x : A) :
  traverse f xs = Ok ys -> In x xs -> exists y, f x = Ok y /\ In y ys.
Proof.
  revert ys. induction xs as [|a xs IH]; intros ys H Hin; [destruct Hin|].
  simpl in H. apply bind_ok in H as (y & Hy & H).
  apply bind_ok in H as (ys' & Hys & [= <-]).
  destruct Hin as [->|Hin].
  - exists y. simpl. auto.
  - destruct (IH ys' Hys Hin) as (y' & Hy' & Hin'). exists y'. simpl. auto.
Qed.

Lemma derived_label_neq (date_col suffix : string) :
  In suffix derived_suffixes -> date_col ++ suffix <> date_col.
Proof.
  intros Hin. apply string_app_neq.
  simpl in Hin. intuition (subst; discriminate).
Qed.

Section DateOperationsMore.

Variable parse_datetime : string -> option Z.
Variable datetime_of_float : float -> option Z.

Lemma to_datetime_gives_times (s parsed : Series) :
  to_datetime parse_datetime datetime_of_float s = Ok parsed ->
  forallb is_time parsed = true.
Proof.
  unfold to_datetime. revert parsed.
  induction s as [|c s IH]; simpl; intros parsed H.
  - now injection H as <-.
  - apply bind_ok in H as (y & Hy & H).
    apply bind_ok in H as (ys & Hys & [= <-]).
    simpl. rewrite (IH ys Hys), andb_true_r.
    destruct c; cbn [to_datetime_cell] in Hy.
    + destruct (z =? - 2 ^ 63); now injection Hy as <-.
    + destruct (PrimFloat.is_nan f); [now injection Hy as <-|].
      destruct (datetime_of_float f); [now injection Hy as <-|discriminate].
    + destruct (parse_datetime s0); [now injection Hy as <-|discriminate].
    + now injection Hy as <-.
    + now injection Hy as <-.
Qed.

(** The table [date_operations] returns, in the general case: a derived
    name that is taken is overwritten. *)
Lemma date_operations_eq (df : DataFrame) (date_col : string)
      (s parsed : Series) :
  getitem df date_col = Ok s ->
  to_datetime parse_datetime datetime_of_float s = Ok parsed ->
  date_operations parse_datetime datetime_of_float df date_col
  = Ok (with_derived df date_col parsed).
Proof.
  intros Hs Hp. unfold date_operations, with_derived.
  rewrite Hs. cbn [bind]. rewrite Hp. cbn [bind].
  unfold add_dt_column.
  rewrite getitem_setitem_same. cbn [bind].
  rewrite getitem_setitem_other
    by (apply not_eq_sym, derived_label_neq; simpl; auto).
  rewrite getitem_setitem_same. cbn [bind].
  rewrite !getitem_setitem_other
    by (apply not_eq_sym, derived_label_neq; simpl; auto).
  rewrite getitem_setitem_same. cbn [bind].
  rewrite !getitem_setitem_other
    by (apply not_eq_sym, derived_label_neq; simpl; auto).
  rewrite getitem_setitem_same. reflexivity.
Qed.

Lemma date_operations_inv (df df1 : DataFrame) (date_col : string) :
  date_operations parse_datetime datetime_of_float df date_col = Ok df1 ->
  exists s parsed,
    getitem df date_col = Ok s /\
    to_datetime parse_datetime datetime_of_float s = Ok parsed /\
    df1 = with_derived df date_col parsed.
Proof.
  intros H.
  destruct (getitem df date_col) as [s|e] eqn:Hs.
  - destruct (to_datetime parse_datetime datetime_of_float s) as [parsed|e]
      eqn:Hp.
    + rewrite (date_operations_eq df date_col s parsed Hs Hp) in H.
      injection H as <-. eauto.
    + unfold date_operations in H. rewrite Hs in H. cbn [bind] in H.
      rewrite Hp in H. discriminate.
  - unfold date_operations in H. rewrite Hs in H. discriminate.
Qed.

End DateOperationsMore.

Lemma suffix_labels_differ (date_col a b : string) :
  a <> b -> date_col ++ a <> date_col ++ b.
Proof. intros Hab H. apply Hab. eapply string_app_inj; eauto. Qed.

Ltac other_label :=
  first [ apply not_eq_sym, derived_label_neq; simpl; now auto 6
        | apply derived_label_neq; simpl; now auto 6
        | apply suffix_labels_differ; discriminate ].

Lemma with_derived_columns (df : DataFrame) (date_col : string)
      (parsed : Series) :
  getitem (with_derived df date_col parsed) date_col = Ok parsed /\
  getitem (with_derived df date_col parsed) (date_col ++ "_year")
  = Ok (dt_field ts_year parsed) /\
  getitem (with_derived df date_col parsed) (date_col ++ "_month")
  = Ok (dt_field ts_month parsed) /\
  getitem (with_derived df date_col parsed) (date_col ++ "_day")
  = Ok (dt_field ts_day parsed) /\
  getitem (with_derived df date_col parsed) (date_col ++ "_dayofweek")
  = Ok (dt_field ts_dayofweek parsed).
Proof.
  unfold with_derived. repeat split.
  - rewrite !getitem_setitem_other by other_label.
    apply getitem_setitem_same.
  - rewrite !getitem_setitem_other by other_label.
    apply getitem_setitem_same.
  - rewrite !getitem_setitem_other by other_label.
    apply getitem_setitem_same.
  - rewrite !getitem_setitem_other by other_label.
    apply getitem_setitem_same.
  - apply getitem_setitem_same.
Qed.

Lemma with_derived_other (df : DataFrame) (date_col col : string)
      (parsed : Series) :
  col <> date_col ->
  (forall suffix, In suffix derived_suffixes -> col <> date_col ++ suffix) ->
  getitem (with_derived df date_col parsed) col = getitem df col.
Proof.
  intros Hne Hsuf. unfold with_derived.
  rewrite !getitem_setitem_other; auto; apply Hsuf; simpl; auto 6.
Qed.

Lemma with_derived_wf (df : DataFrame) (date_col : string) (parsed : Series) :
  wf_df df -> List.length parsed = nrows df ->
  wf_df (with_derived df date_col parsed).
Proof.
  intros Hwf Hlen. unfold with_derived.
  repeat (apply setitem_wf;
          [| rewrite ?dt_field_length, ?nrows_setitem; exact Hlen]).
  exact Hwf.
Qed.

(** X13.  Running [date_operations] on the table it returned, for the same
    column, succeeds and returns that table unchanged: the parsed column
    parses to itself and the four derived columns are recomputed to the
    values they already hold. *)
Theorem date_operations_idempotent
        (parse_datetime : string -> option Z)
        (datetime_of_float : float -> option Z)
        (df df1 : DataFrame) (date_col : string) :
  date_operations parse_datetime datetime_of_float df date_col = Ok df1 ->
  date_operations parse_datetime datetime_of_float df1 date_col = Ok df1.
Proof.
  intros H.
  apply date_operations_inv in H as (s & parsed & Hs & Hp & ->).
  destruct (with_derived_columns df date_col parsed)
    as (Hd & Hy & Hm & Hdd & Hw).
  pose proof (to_datetime_gives_times _ _ _ _ Hp) as Htimes.
  rewrite (date_operations_eq parse_datetime datetime_of_float _ date_col
             parsed parsed Hd
             (to_datetime_time_column _ _ _ Htimes)).
  f_equal.
  set (d := with_derived df date_col parsed) in *.
  unfold with_derived at 1.
  rewrite (setitem_id d date_col parsed Hd).
  rewrite (setitem_id d _ _ Hy).
  rewrite (setitem_id d _ _ Hm).
  rewrite (setitem_id d _ _ Hdd).
  apply (setitem_id d _ _ Hw).
Qed.

Lemma date_operations_idempotent_witness :
  date_operations parse_iso_date no_datetime_of_float
    (with_derived events "day"
       [CTime 1705276800000000000; CTime 1709251200000000000]) "day"
  = Ok (with_derived events "day"
          [CTime 1705276800000000000; CTime 1709251200000000000]).
Proof.
  apply (date_operations_idempotent parse_iso_date no_datetime_of_float
           events).
  vm_compute. reflexivity.
Defined.


(** X15.  Whatever the column names, a successful [date_operations] on a
    well-formed table returns a well-formed table with the same index: the
    date column holds date-time cells only, each derived column holds the
    field of the parsed dates (overwriting a column that had that name),
    and a column with any other name is returned as it was. *)
Theorem date_operations_general
        (parse_datetime : string -> option Z)
        (datetime_of_float : float -> option Z)
        (df df1 : DataFrame) (date_col : string) :
  wf_df df ->
  date_operations parse_datetime datetime_of_float df date_col = Ok df1 ->
  wf_df df1 /\
  df_index df1 = df_index df /\
  exists parsed,
    getitem df1 date_col = Ok parsed /\
    forallb is_time parsed = true /\
    getitem df1 (date_col ++ "_year") = Ok (dt_field ts_year parsed) /\
    getitem df1 (date_col ++ "_month") = Ok (dt_field ts_month parsed) /\
    getitem df1 (date_col ++ "_day") = Ok (dt_field ts_day parsed) /\
    getitem df1 (date_col ++ "_dayofweek")
    = Ok (dt_field ts_dayofweek parsed) /\
    forall col,
      col <> date_col ->
      (forall suffix, In suffix derived_suffixes ->
                      col <> date_col ++ suffix) ->
      getitem df1 col = getitem df col.
Proof.
  intros Hwf H.
  apply date_operations_inv in H as (s & parsed & Hs & Hp & ->).
  assert (Hlen : List.length parsed = nrows df).
  { unfold to_datetime in Hp. rewrite (traverse_length _ _ _ Hp).
    now apply (getitem_length df date_col). }
  split; [now apply with_derived_wf|].
  split; [reflexivity|].
  exists parsed.
  destruct (with_derived_columns df date_col parsed)
    as (Hd & Hy & Hm & Hdd & Hw).
  repeat split; try assumption.
  - exact (to_datetime_gives_times _ _ _ _ Hp).
  - intros col Hne Hsuf. now apply with_derived_other.
Qed.

Lemma events_wf : wf_df events.
Proof.
  split.
  - repeat constructor; simpl; intuition discriminate.
  - repeat constructor.
Qed.

Lemma date_operations_general_witness :
  wf_df (with_derived events "day"
           [CTime 1705276800000000000; CTime 1709251200000000000]) /\
  df_index (with_derived events "day"
              [CTime 1705276800000000000; CTime 1709251200000000000])
  = df_index events /\
  exists parsed,
    getitem (with_derived events "day"
               [CTime 1705276800000000000; CTime 1709251200000000000]) "day"
    = Ok parsed /\
    forallb is_time parsed = true /\
    getitem (with_derived events "day"
               [CTime 1705276800000000000; CTime 1709251200000000000])
            ("day" ++ "_year") = Ok (dt_field ts_year parsed) /\
    getitem (with_derived events "day"
               [CTime 1705276800000000000; CTime 1709251200000000000])
            ("day" ++ "_month") = Ok (dt_field ts_month parsed) /\
    getitem (with_derived events "day"
               [CTime 1705276800000000000; CTime 1709251200000000000])
            ("day" ++ "_day") = Ok (dt_field ts_day parsed) /\
    getitem (with_derived events "day"
               [CTime 1705276800000000000; CTime 1709251200000000000])
            ("day" ++ "_dayofweek") = Ok (dt_field ts_dayofweek parsed) /\
    forall col,
      col <> "day" ->
      (forall suffix, In suffix derived_suffixes -> col <> "day" ++ suffix) ->
      getitem (with_derived events "day"
                 [CTime 1705276800000000000; CTime 1709251200000000000]) col
      = getitem events col.
Proof.
  apply (date_operations_general parse_iso_date no_datetime_of_float events).
  - exact events_wf.
  - vm_compute. reflexivity.
Defined.

(** ** filter_data: what the result keeps, how conditions compose *)

Lemma select_length_le {A : Type} (m : list bool) (xs : list A) :
  (List.length (select m xs) <= List.length xs)%nat.
Proof.
  revert xs. induction m as [|b m IH]; intros [|x xs]; simpl; try lia.
  specialize (IH xs). destruct b; simpl; lia.
Qed.

Lemma select_length_eq {A B : Type} (m : list bool) (xs : list A)
      (ys : list B) :
  List.length xs = List.length ys ->
  List.length (select m xs) = List.length (select m ys).
Proof.
  revert xs ys. induction m as [|b m IH]; intros [|x xs] [|y ys] H;
    simpl in *; try reflexivity; try discriminate.
  injection H as H. destruct b; simpl; auto.
Qed.

Lemma select_In {A : Type} (m : list bool) (xs : list A) (x : A) :
  In x (select m xs) -> In x xs.
Proof.
  revert xs. induction m as [|b m IH]; intros [|y xs]; simpl; try tauto.
  destruct b; simpl; intuition auto.
Qed.

Lemma select_full {A : Type} (m : list bool) (xs : list A) :
  List.length m = List.length xs ->
  select m m = repeat true (List.length (select m xs)).
Proof.
  revert xs. induction m as [|b m IH]; intros [|x xs] H; simpl in *;
    try reflexivity; try discriminate.
  injection H as H. destruct b; simpl; [f_equal|]; auto.
Qed.

Lemma select_select_and {A : Type} (ma mb : list bool) (xs : list A) :
  select (select ma mb) (select ma xs) = select (map2 andb ma mb) xs.
Proof.
  revert mb xs. induction ma as [|a ma IH]; intros mb xs; [reflexivity|].
  destruct mb as [|b mb]; [reflexivity|].
  destruct xs as [|x xs].
  - simpl. destruct a; simpl; rewrite ?select_nil_r; now destruct b.
  - destruct a; simpl.
    + destruct b; now rewrite IH.
    + apply IH.
Qed.

Lemma select_rows_and (ma mb : list bool) (df : DataFrame) :
  select_rows (select ma mb) (select_rows ma df)
  = select_rows (map2 andb ma mb) df.
Proof.
  unfold select_rows. simpl. f_equal.
  - apply select_select_and.
  - rewrite map_map. apply map_ext. intros [l s]. simpl.
    now rewrite select_select_and.
Qed.

Lemma select_rows_wf (m : list bool) (df : DataFrame) :
  wf_df df -> wf_df (select_rows m df).
Proof.
  intros [Hnd Hlen]. split.
  - unfold columns, select_rows. simpl. rewrite map_map. simpl. exact Hnd.
  - unfold nrows, select_rows. simpl. rewrite Forall_map. simpl.
    eapply Forall_impl; [|exact Hlen]. intros [l s] H. simpl in *.
    now apply select_length_eq.
Qed.

Lemma columns_select_rows (m : list bool) (df : DataFrame) :
  columns (select_rows m df) = columns df.
Proof. unfold columns, select_rows. simpl. now rewrite map_map. Qed.

Lemma traverse_raises {A B : Type} (f : A -> Result B) (xs : list A)
      (x : A) (e : Exc) :
  In x xs -> f x = Raise e -> exists e', traverse f xs = Raise e'.
Proof.
  intros Hin Hx. destruct (traverse f xs) as [ys|e'] eqn:E; [|eauto].
  destruct (traverse_ok_In _ _ _ _ E Hin) as (y & Hy & _). congruence.
Qed.

Lemma resolve_name_length (df : DataFrame) (name : string) (s : Series) :
  wf_df df -> resolve_name df name = Ok s -> List.length s = nrows df.
Proof.
  intros [_ Hlen] H. unfold resolve_name in H.
  destruct (lookup_col (CStr name) (df_cols df)) as [s'|] eqn:E.
  - injection H as <-. apply lookup_col_In in E.
    rewrite Forall_forall in Hlen. exact (Hlen _ E).
  - destruct (names_index df name); [|discriminate].
    now injection H as <-.
Qed.

Section FilterMore.

Variable parse_query : string -> option Expr.
Variable object_cmp : Cmp -> Cell -> Cell -> Result bool.
Variable object_agg : AggFunc -> Series -> Result Cell.

Lemma filter_data_inv (df df1 : DataFrame) (condition : string) :
  filter_data parse_query object_cmp object_agg df condition = Ok df1 ->
  exists e m,
    parse_query condition = Some e /\
    eval_expr object_cmp object_agg df e = Ok m /\
    df1 = select_rows m df.
Proof.
  intros H. unfold filter_data in H.
  apply try_except_ok in H; [|discriminate].
  unfold query in H. destruct (parse_query condition) as [e|]; [|discriminate].
  apply bind_ok in H as (m & Hm & [= <-]). eauto.
Qed.

Lemma filter_data_mask (df : DataFrame) (condition : string) (e : Expr)
      (m : list bool) :
  parse_query condition = Some e ->
  eval_expr object_cmp object_agg df e = Ok m ->
  filter_data parse_query object_cmp object_agg df condition
  = Ok (select_rows m df).
Proof.
  intros Hp Hm. unfold filter_data, query. now rewrite Hp, Hm.
Qed.

Lemma eval_term_column_length (df : DataFrame) (t : Term) (s : Series) :
  wf_df df ->
  eval_term object_agg df t = Ok (Column s) -> List.length s = nrows df.
Proof.
  intros Hwf H. destruct t as [name|c|f name]; simpl in H.
  - apply bind_ok in H as (s' & Hs & [= <-]).
    now apply (resolve_name_length df name).
  - discriminate.
  - apply bind_ok in H as (s' & _ & H).
    apply bind_ok in H as (v & _ & H). discriminate.
Qed.

Lemma eval_expr_length (df : DataFrame) (e : Expr) (m : list bool) :
  wf_df df ->
  eval_expr object_cmp object_agg df e = Ok m ->
  List.length m = nrows df.
Proof.
  intros Hwf. revert m.
  induction e as [op l r|a IHa b IHb|a IHa b IHb|a IHa]; intros m H;
    simpl in H.
  - apply bind_ok in H as (x & Hx & H). apply bind_ok in H as (y & Hy & H).
    destruct x as [sa|ca], y as [sb|cb]; simpl in H.
    + apply traverse_length in H. rewrite H, length_combine.
      rewrite (eval_term_column_length _ _ _ Hwf Hx),
              (eval_term_column_length _ _ _ Hwf Hy). lia.
    + apply traverse_length in H. rewrite H.
      exact (eval_term_column_length _ _ _ Hwf Hx).
    + apply traverse_length in H. rewrite H.
      exact (eval_term_column_length _ _ _ Hwf Hy).
    + discriminate.
  - apply bind_ok in H as (ma & Hma & H).
    apply bind_ok in H as (mb & Hmb & [= <-]).
    rewrite map2_length; [now apply IHa|].
    now rewrite (IHa _ Hma), (IHb _ Hmb).
  - apply bind_ok in H as (ma & Hma & H).
    apply bind_ok in H as (mb & Hmb & [= <-]).
    rewrite map2_length; [now apply IHa|].
    now rewrite (IHa _ Hma), (IHb _ Hmb).
  - apply bind_ok in H as (ma & Hma & [= <-]).
    rewrite length_map. now apply IHa.
Qed.

End FilterMore.

(** X16.  A successful [filter_data] on a well-formed table returns a
    well-formed table with the same columns in the same order and the same
    index name; it has no more rows than the input, and every row label of
    the result is a row label of the input. *)
Theorem filter_data_shape
        (parse_query : string -> option Expr)
        (object_cmp : Cmp -> Cell -> Cell -> Result bool)
        (object_agg : AggFunc -> Series -> Result Cell)
        (df df1 : DataFrame) (condition : string) :
  wf_df df ->
  filter_data parse_query object_cmp object_agg df condition = Ok df1 ->
  wf_df df1 /\
  columns df1 = columns df /\
  df_index_name df1 = df_index_name df /\
  (nrows df1 <= nrows df)%nat /\
  (forall label, In label (df_index df1) -> In label (df_index df)).
Proof.
  intros Hwf H. apply filter_data_inv in H as (e & m & _ & _ & ->).
  split; [now apply select_rows_wf|].
  split; [apply columns_select_rows|].
  split; [reflexivity|].
  split; [apply select_length_le|].
  intros label. apply select_In.
Qed.

Lemma filter_data_shape_witness :
  wf_df (select_rows [true; true; false] staff) /\
  columns (select_rows [true; true; false] staff) = columns staff /\
  df_index_name (select_rows [true; true; false] staff)
  = df_index_name staff /\
  (nrows (select_rows [true; true; false] staff) <= nrows staff)%nat /\
  (forall label,
      In label (df_index (select_rows [true; true; false] staff)) ->
      In label (df_index staff)).
Proof.
  apply (filter_data_shape sample_parse_query raise_cmp raise_agg staff
           (select_rows [true; true; false] staff)
           "salary > 50 and score <= 1").
  - exact staff_wf.
  - reflexivity.
Defined.

(** X17.  Every row [filter_data] keeps satisfies the condition: for a
    condition without a reduction of a column, evaluating it on the result
    of a successful filter of a well-formed table gives [True] for each of
    its rows. *)
Theorem filter_data_kept_rows_match
        (parse_query : string -> option Expr)
        (object_cmp : Cmp -> Cell -> Cell -> Result bool)
        (object_agg : AggFunc -> Series -> Result Cell)
        (df df1 : DataFrame) (condition : string) (e : Expr) :
  wf_df df ->
  parse_query condition = Some e ->
  uses_agg e = false ->
  filter_data parse_query object_cmp object_agg df condition = Ok df1 ->
  eval_expr object_cmp object_agg df1 e = Ok (repeat true (nrows df1)).
Proof.
  intros Hwf Hparse Hagg H.
  apply filter_data_inv in H as (e' & m & Hparse' & Hm & ->).
  rewrite Hparse in Hparse'. injection Hparse' as <-.
  rewrite (eval_expr_select _ _ _ _ _ Hagg Hm m). f_equal.
  apply select_full. exact (eval_expr_length _ _ _ _ _ Hwf Hm).
Qed.

Lemma filter_data_kept_rows_match_witness :
  eval_expr raise_cmp raise_agg (select_rows [true; true; false] staff)
    (EAnd (ECmp Gt (TCol "salary") (TLit (CInt 50)))
          (ECmp Le (TCol "score") (TLit (CInt 1))))
  = Ok (repeat true (nrows (select_rows [true; true; false] staff))).
Proof.
  apply (filter_data_kept_rows_match sample_parse_query raise_cmp raise_agg
           staff (select_rows [true; true; false] staff)
           "salary > 50 and score <= 1").
  - exact staff_wf.
  - reflexivity.
  - reflexivity.
  - reflexivity.
Defined.

(** X18.  Filtering composes: when a condition parses as [a and b], with
    [b] free of reductions of a column, and [filter_data] succeeds with
    it, then filtering by [a] succeeds, and filtering its result by [b]
    succeeds and gives the same table as the conjunction did. *)
Theorem filter_data_conjunction
        (parse_query : string -> option Expr)
        (object_cmp : Cmp -> Cell -> Cell -> Result bool)
        (object_agg : AggFunc -> Series -> Result Cell)
        (df df2 : DataFrame) (cond cond_a cond_b : string) (a b : Expr) :
  parse_query cond = Some (EAnd a b) ->
  parse_query cond_a = Some a ->
  parse_query cond_b = Some b ->
  uses_agg b = false ->
  filter_data parse_query object_cmp object_agg df cond = Ok df2 ->
  exists df1,
    filter_data parse_query object_cmp object_agg df cond_a = Ok df1 /\
    filter_data parse_query object_cmp object_agg df1 cond_b = Ok df2.
Proof.
  intros Hp Hpa Hpb Hagg H.
  apply filter_data_inv in H as (e & m & He & Hm & ->).
  rewrite Hp in He. injection He as <-. simpl in Hm.
  apply bind_ok in Hm as (ma & Hma & Hm).
  apply bind_ok in Hm as (mb & Hmb & [= <-]).
  exists (select_rows ma df). split.
  - now apply filter_data_mask with (e := a).
  - rewrite (filter_data_mask _ _ _ _ cond_b b (select ma mb) Hpb).
    + now rewrite select_rows_and.
    + now apply eval_expr_select.
Qed.

Lemma filter_data_conjunction_witness :
  exists df1,
    filter_data sample_parse_parts raise_cmp raise_agg staff "salary > 50"
    = Ok df1 /\
    filter_data sample_parse_parts raise_cmp raise_agg df1 "score <= 1"
    = Ok (select_rows [true; true; false] staff).
Proof.
  apply (filter_data_conjunction sample_parse_parts raise_cmp raise_agg staff
           (select_rows [true; true; false] staff)
           "salary > 50 and score <= 1" "salary > 50" "score <= 1"
           (ECmp Gt (TCol "salary") (TLit (CInt 50)))
           (ECmp Le (TCol "score") (TLit (CInt 1))));
    reflexivity.
Defined.

(** ** The natural-language bridge *)

Lemma py_or_falsy (a b : option string) :
  truthy (py_or a b) = false ->
  (a = None \/ a = Some "") /\ (b = None \/ b = Some "").
Proof.
  destruct a as [[|c a]|], b as [[|c' b]|]; simpl; intros H;
    try discriminate; auto.
Qed.

Lemma health_not_configured {Llm Answer : Type} (w : World Llm Answer) :
  h_llm (health_check w) = "not configured" ->
  truthy (py_or (getenv w "GEMINI_API_KEY") (getenv w "GOOGLE_API_KEY"))
  = false.
Proof.
  unfold health_check. simpl.
  destruct (truthy _); [discriminate | reflexivity].
Qed.

Lemma health_configured {Llm Answer : Type} (w : World Llm Answer) :
  h_llm (health_check w) = "configured" ->
  truthy (py_or (getenv w "GEMINI_API_KEY") (getenv w "GOOGLE_API_KEY"))
  = true.
Proof.
  unfold health_check. simpl.
  destruct (truthy _); [reflexivity | discriminate].
Qed.

(** X20.  [analyze_data] never answers 404: for a path that does not
    exist, the 404 it raises is caught by its own handler and comes out as
    a 500 whose detail is the text of the 404; the file is not read and
    the language model is not built. *)
Theorem analyze_data_missing_file
        {Llm Answer : Type} (w : World Llm Answer)
        (serialises : AnalysisInfo -> bool)
        (file_path query : string) (sheet_name : option string) :
  path_exists w file_path = false ->
  analyze_data w file_path query sheet_name
  = Raise (HTTPException 500
             (str_exc (HTTPException 404 "File not found"))) /\
  http_status serialises (analyze_data w file_path query sheet_name) = 500.
Proof.
  intros H. unfold analyze_data. rewrite H. split; reflexivity.
Qed.

Lemma analyze_data_missing_file_witness :
  analyze_data keyless_world "uploads/none.xlsx" "average salary" None
  = Raise (HTTPException 500
             (str_exc (HTTPException 404 "File not found"))) /\
  http_status (fun _ => true)
    (analyze_data keyless_world "uploads/none.xlsx" "average salary" None)
  = 500.
Proof.
  apply (analyze_data_missing_file keyless_world).
  reflexivity.
Defined.

(** X21.  When /health reports the language model as "not configured",
    /analyze on a file that exists and reads fails for every query: the
    agent is not run, and the answer is a 500 whose detail is the text of
    the inner 500 of [get_llm]. *)
Theorem analyze_data_without_key
        {Llm Answer : Type} (w : World Llm Answer)
        (file_path query : string) (sheet_name : option string)
        (df : DataFrame) :
  h_llm (health_check w) = "not configured" ->
  path_exists w file_path = true ->
  ExcelDataHandler.read_excel (w_store w) file_path sheet_name = Ok df ->
  get_llm w
  = Raise (HTTPException 500
             "LLM initialization failed: GEMINI_API_KEY or GOOGLE_API_KEY not found in environment") /\
  analyze_data w file_path query sheet_name
  = Raise (HTTPException 500
             (str_exc
                (HTTPException 500
                   "LLM initialization failed: GEMINI_API_KEY or GOOGLE_API_KEY not found in environment"))).
Proof.
  intros Hh Hex Hread.
  apply health_not_configured in Hh.
  assert (Hllm : get_llm w
                 = Raise (HTTPException 500
                            "LLM initialization failed: GEMINI_API_KEY or GOOGLE_API_KEY not found in environment")).
  { unfold get_llm.
    destruct (py_or (getenv w "GEMINI_API_KEY") (getenv w "GOOGLE_API_KEY"))
      as [[|c k]|]; try discriminate; reflexivity. }
  split; [exact Hllm|].
  unfold analyze_data. rewrite Hex, Hread. cbn [negb bind].
  rewrite Hllm. reflexivity.
Qed.

Lemma analyze_data_without_key_witness :
  get_llm keyless_world
  = Raise (HTTPException 500
             "LLM initialization failed: GEMINI_API_KEY or GOOGLE_API_KEY not found in environment") /\
  analyze_data keyless_world "uploads/staff.xlsx" "average salary" None
  = Raise (HTTPException 500
             (str_exc
                (HTTPException 500
                   "LLM initialization failed: GEMINI_API_KEY or GOOGLE_API_KEY not found in environment"))).
Proof.
  apply (analyze_data_without_key keyless_world "uploads/staff.xlsx"
           "average salary" None staff); reflexivity.
Defined.

(** X22.  When /health reports the language model as "configured",
    [get_llm] builds the chat model with a key that is not empty: the
    value of GEMINI_API_KEY when that is set and not empty, and otherwise
    the value of GOOGLE_API_KEY; a failure of the constructor comes out as
    a 500. *)
Theorem get_llm_key_choice
        {Llm Answer : Type} (w : World Llm Answer) :
  h_llm (health_check w) = "configured" ->
  exists key,
    key <> "" /\
    (getenv w "GEMINI_API_KEY" = Some key \/
     (getenv w "GEMINI_API_KEY" = None \/
      getenv w "GEMINI_API_KEY" = Some "") /\
     getenv w "GOOGLE_API_KEY" = Some key) /\
    get_llm w
    = match chat_model w (mkLlmConfig "gemini-1.5-flash" key 0 true) with
      | Ok llm => Ok llm
      | Raise e =>
          Raise (HTTPException 500
                   ("LLM initialization failed: " ++ str_exc e))
      end.
Proof.
  intros Hh. apply health_configured in Hh. unfold get_llm.
  destruct (getenv w "GEMINI_API_KEY") as [[|c k]|] eqn:Eg;
    destruct (getenv w "GOOGLE_API_KEY") as [[|c' k']|] eqn:Eo;
    simpl in Hh |- *; try discriminate.
  - exists (String c' k'). repeat split; auto; discriminate.
  - exists (String c k). repeat split; auto; discriminate.
  - exists (String c k). repeat split; auto; discriminate.
  - exists (String c k). repeat split; auto; discriminate.
  - exists (String c' k'). repeat split; auto; discriminate.
Qed.

Lemma get_llm_key_choice_witness :
  exists key,
    key <> "" /\
    (getenv google_world "GEMINI_API_KEY" = Some key \/
     (getenv google_world "GEMINI_API_KEY" = None \/
      getenv google_world "GEMINI_API_KEY" = Some "") /\
     getenv google_world "GOOGLE_API_KEY" = Some key) /\
    get_llm google_world
    = match chat_model google_world
              (mkLlmConfig "gemini-1.5-flash" key 0 true) with
      | Ok llm => Ok llm
      | Raise e =>
          Raise (HTTPException 500
                   ("LLM initialization failed: " ++ str_exc e))
      end.
Proof.
  apply (get_llm_key_choice google_world).
  reflexivity.
Defined.

(** ** The operation endpoints *)

Lemma io_try_ok {A : Type} (body : IO A) (h : Exc -> Result A)
      (log : Written) (a : A) :
  (forall e, h e <> Ok a) -> io_try body h = (log, Ok a) ->
  body = (log, Ok a).
Proof.
  destruct body as [l [x|e]]; simpl; intros Hh H.
  - exact H.
  - injection H as _ H. now apply Hh in H.
Qed.

Lemma io_bind_ok {A B : Type} (m : IO A) (k : A -> IO B) (log : Written)
      (b : B) :
  io_bind m k = (log, Ok b) ->
  exists l1 a l2, m = (l1, Ok a) /\ k a = (l2, Ok b) /\ log = (l1 ++ l2)%list.
Proof.
  destruct m as [l1 [a|e]]; simpl; [|discriminate].
  destruct (k a) as [l2 r] eqn:E. intros [= <- ->]. eauto 6.
Qed.

Lemma io_lift_ok {A : Type} (r : Result A) (log : Written) (a : A) :
  io_lift r = (log, Ok a) -> r = Ok a /\ log = [].
Proof. unfold io_lift. now intros [= <- ->]. Qed.

Lemma write_excel_io_ok (st : Store) (df : DataFrame) (file_path : string)
      (log : Written) (u : unit) :
  write_excel_io st df file_path = (log, Ok u) ->
  log = [(file_path, Holds df)].
Proof.
  unfold write_excel_io.
  destruct (ExcelDataHandler.write_excel st df file_path); [|discriminate].
  now intros [= <- _].
Qed.

Lemma write_excel_succeeds (st : Store) (df : DataFrame) (file_path : string) :
  to_excel st df file_path "Sheet1" = Ok tt ->
  write_excel_io st df file_path = ([(file_path, Holds df)], Ok tt).
Proof.
  intros H. unfold write_excel_io, ExcelDataHandler.write_excel.
  now rewrite H.
Qed.

Lemma read_excel_raises (st : Store) (file_path : string)
      (sheet_name : option string) (e : Exc) :
  ExcelDataHandler.read_excel st file_path sheet_name = Raise e ->
  exists detail,
    e = HTTPException 400 ("Failed to read Excel file: " ++ detail).
Proof.
  unfold ExcelDataHandler.read_excel.
  destruct sheet_name as [[|c s]|];
    match goal with
    | |- try_except ?r _ = _ -> _ => destruct r as [df|x]
    end; simpl; try discriminate; intros [= <-]; eauto.
Qed.

(** X23.  A file that cannot be read never gives a 400: when
    [read_excel] raises its 400, each of the four operation endpoints
    answers 500, with the text of that 400 as detail, and writes no
    file. *)
Theorem operations_unreadable_file
        (object_binop : MathOp -> Series -> Series -> Result Series)
        (object_agg : AggFunc -> Series -> Result Cell)
        (named_agg : string -> Series -> Result Cell)
        (parse_query : string -> option Expr)
        (object_cmp : Cmp -> Cell -> Cell -> Result bool)
        (strip : string -> string)
        (st : Store) (stamp file_path : string) (sheet_name : option string)
        (e : Exc) :
  ExcelDataHandler.read_excel st file_path sheet_name = Raise e ->
  exists detail,
    e = HTTPException 400 ("Failed to read Excel file: " ++ detail) /\
    (forall operation col1 col2 result_col,
        Api.math_operation object_binop st stamp file_path operation col1
                           col2 result_col sheet_name
        = ([], Raise (HTTPException 500
                        (str_exc
                           (HTTPException 400
                              ("Failed to read Excel file: " ++ detail)))))) /\
    (forall cols functions,
        Api.aggregate_data object_agg strip st file_path cols functions
                           sheet_name
        = Raise (HTTPException 500
                   (str_exc
                      (HTTPException 400
                         ("Failed to read Excel file: " ++ detail))))) /\
    (forall condition,
        Api.filter_data object_agg parse_query object_cmp st stamp file_path
                        condition sheet_name
        = ([], Raise (HTTPException 500
                        (str_exc
                           (HTTPException 400
                              ("Failed to read Excel file: " ++ detail)))))) /\
    (forall values index cols aggfunc,
        Api.create_pivot object_agg named_agg st stamp file_path values index
                         cols aggfunc sheet_name
        = ([], Raise (HTTPException 500
                        (str_exc
                           (HTTPException 400
                              ("Failed to read Excel file: " ++ detail)))))).
Proof.
  intros H. destruct (read_excel_raises _ _ _ _ H) as (detail & ->).
  exists detail. split; [reflexivity|].
  repeat split; intros;
    unfold Api.math_operation, Api.aggregate_data, Api.filter_data,
      Api.create_pivot; rewrite H; reflexivity.
Qed.

Lemma operations_unreadable_file_witness :
  exists detail,
    HTTPException 400 "Failed to read Excel file: No such file or directory"
    = HTTPException 400 ("Failed to read Excel file: " ++ detail) /\
    (forall operation col1 col2 result_col,
        Api.math_operation raise_binop staff_store "20240115_093000"
          "uploads/none.xlsx" operation col1 col2 result_col None
        = ([], Raise (HTTPException 500
                        (str_exc
                           (HTTPException 400
                              ("Failed to read Excel file: " ++ detail)))))) /\
    (forall cols functions,
        Api.aggregate_data raise_agg (fun s => s) staff_store
          "uploads/none.xlsx" cols functions None
        = Raise (HTTPException 500
                   (str_exc
                      (HTTPException 400
                         ("Failed to read Excel file: " ++ detail))))) /\
    (forall condition,
        Api.filter_data raise_agg sample_parse_query raise_cmp staff_store
          "20240115_093000" "uploads/none.xlsx" condition None
        = ([], Raise (HTTPException 500
                        (str_exc
                           (HTTPException 400
                              ("Failed to read Excel file: " ++ detail)))))) /\
    (forall values index cols aggfunc,
        Api.create_pivot raise_agg raise_named_agg staff_store
          "20240115_093000" "uploads/none.xlsx" values index cols aggfunc None
        = ([], Raise (HTTPException 500
                        (str_exc
                           (HTTPException 400
                              ("Failed to read Excel file: " ++ detail)))))).
Proof.
  apply (operations_unreadable_file raise_binop raise_agg raise_named_agg
           sample_parse_query raise_cmp (fun s => s) staff_store
           "20240115_093000" "uploads/none.xlsx" None).
  reflexivity.
Defined.

Lemma select_columns_missing (df : DataFrame) (cols : list string)
      (col : string) :
  In col cols -> ~ In (CStr col) (columns df) ->
  exists e, select_columns df cols = Raise e.
Proof.
  intros Hin Hmiss. unfold select_columns.
  destruct (traverse_raises
              (fun c => s <- getitem df c ;; Ok (CStr c, s)) cols col
              (KeyError col) Hin) as (e & ->).
  - now rewrite (getitem_missing df col Hmiss).
  - simpl. eauto.
Qed.

(** X24.  With an operation name outside add, subtract, multiply and
    divide, and a result column the sheet does not have, /operations/math
    first writes the sheet, unchanged, to its result file and then fails:
    the answer is a 500, and the file stays written. *)
Theorem math_operation_unknown_operation
        (object_binop : MathOp -> Series -> Series -> Result Series)
        (st : Store) (stamp file_path operation col1 col2 result_col : string)
        (sheet_name : option string) (df : DataFrame) :
  op_of_name operation = None ->
  ExcelDataHandler.read_excel st file_path sheet_name = Ok df ->
  ~ In (CStr result_col) (columns df) ->
  to_excel st df (output_path "math_result_" stamp) "Sheet1" = Ok tt ->
  exists detail,
    Api.math_operation object_binop st stamp file_path operation col1 col2
                       result_col sheet_name
    = ([(output_path "math_result_" stamp, Holds df)],
       Raise (HTTPException 500 detail)).
Proof.
  intros Hop Hread Hmiss Hwrite. unfold Api.math_operation.
  rewrite Hread.
  assert (Hmath : basic_math object_binop df operation col1 col2 result_col
                  = Ok df).
  { unfold op_of_name in Hop. unfold basic_math.
    destruct (operation =? "add")%string; [discriminate|].
    destruct (operation =? "subtract")%string; [discriminate|].
    destruct (operation =? "multiply")%string; [discriminate|].
    destruct (operation =? "divide")%string; [discriminate|].
    reflexivity. }
  cbn [io_lift io_bind]. rewrite Hmath.
  cbn [io_lift io_bind]. rewrite (write_excel_succeeds _ _ _ Hwrite).
  destruct (select_columns_missing df [col1; col2; result_col] result_col)
    as (e & He); [simpl; auto | exact Hmiss |].
  rewrite He. simpl. unfold Api.http_500. eauto.
Qed.

Lemma math_operation_unknown_operation_witness :
  exists detail,
    Api.math_operation raise_binop staff_store "20240115_093000"
      "uploads/staff.xlsx" "power" "salary" "score" "total" None
    = ([(output_path "math_result_" "20240115_093000", Holds staff)],
       Raise (HTTPException 500 detail)).
Proof.
  apply (math_operation_unknown_operation raise_binop staff_store
           "20240115_093000" "uploads/staff.xlsx" "power" "salary" "score"
           "total" None staff).
  - reflexivity.
  - reflexivity.
  - simpl. intuition discriminate.
  - reflexivity.
Defined.

Lemma assoc_get_set_same {V : Type} (k : Label) (v : V)
      (d : list (Label * V)) :
  assoc_get k (assoc_set k v d) = Some v.
Proof.
  induction d as [|[k' v'] d IH]; simpl.
  - now rewrite cell_eqb_refl.
  - destruct (cell_eqb k k') eqn:E; simpl.
    + now rewrite cell_eqb_refl.
    + now rewrite E.
Qed.

Lemma dict_of_items_last {V : Type} (items : list (Label * V)) (k : Label)
      (v : V) :
  assoc_get k (dict_of_items (items ++ [(k, v)])) = Some v.
Proof.
  unfold dict_of_items. rewrite fold_left_app. simpl.
  apply assoc_get_set_same.
Qed.

Lemma getitem_after_setitem (df : DataFrame) (col result_col : string)
      (a r : Series) :
  getitem df col = Ok a ->
  exists a', getitem (setitem df result_col r) col = Ok a'.
Proof.
  intros Ha. destruct (string_dec col result_col) as [->|Hne].
  - exists r. apply getitem_setitem_same.
  - exists a. now rewrite getitem_setitem_other.
Qed.

(** X25.  When the operation is one of the four, both columns are there,
    the operation is defined on them and the file can be written,
    /operations/math writes one file, which holds the whole table with the
    result column, and answers with that file's path and a sample of the
    first rows, at most ten: record [i] of the sample maps the result
    column to cell [i] of the computed column. *)
Theorem math_operation_success
        (object_binop : MathOp -> Series -> Series -> Result Series)
        (st : Store) (stamp file_path operation col1 col2 result_col : string)
        (sheet_name : option string) (df : DataFrame) (op : MathOp)
        (a b r : Series) :
  op_of_name operation = Some op ->
  ExcelDataHandler.read_excel st file_path sheet_name = Ok df ->
  getitem df col1 = Ok a ->
  getitem df col2 = Ok b ->
  series_binop object_binop op a b = Ok r ->
  to_excel st (setitem df result_col r) (output_path "math_result_" stamp)
           "Sheet1" = Ok tt ->
  exists info,
    Api.math_operation object_binop st stamp file_path operation col1 col2
                       result_col sheet_name
    = ([(output_path "math_result_" stamp, Holds (setitem df result_col r))],
       Ok info) /\
    m_result_file info = output_path "math_result_" stamp /\
    List.length (m_sample_results info) = Nat.min 10 (nrows df) /\
    forall i, (i < Nat.min 10 (nrows df))%nat ->
      exists record,
        nth_error (m_sample_results info) i = Some record /\
        assoc_get (CStr result_col) record = Some (nth i r CNaT).
Proof.
  intros Hop Hread Ha Hb Hr Hwrite. unfold Api.math_operation.
  rewrite Hread. cbn [io_lift io_bind].
  rewrite (basic_math_known _ _ _ op _ _ _ Hop).
  unfold apply_math. rewrite Ha, Hb. cbn [bind]. rewrite Hr.
  cbn [bind try_except io_bind].
  rewrite (write_excel_succeeds _ _ _ Hwrite).
  destruct (getitem_after_setitem df col1 result_col a r Ha) as (a' & Ha').
  destruct (getitem_after_setitem df col2 result_col b r Hb) as (b' & Hb').
  unfold select_columns. cbn [traverse].
  rewrite Ha', Hb', getitem_setitem_same. cbn [bind io_lift io_bind io_try].
  eexists. split; [reflexivity|]. cbn [m_result_file m_sample_results].
  split; [reflexivity|].
  unfold to_records, head, nrows.
  cbn [df_cols df_index map fst snd setitem].
  rewrite length_firstn.
  split; [now rewrite length_map, length_seq|].
  intros i Hi.
  exists (row_dict
            [(CStr col1, firstn 10 a'); (CStr col2, firstn 10 b');
             (CStr result_col, firstn 10 r)] i).
  split.
  - rewrite nth_error_map, nth_error_nth' with (d := 0%nat)
      by (rewrite length_seq; exact Hi).
    rewrite seq_nth by exact Hi. reflexivity.
  - unfold row_dict. cbn [map fst snd].
    change [(CStr col1, nth i (firstn 10 a') CNaT);
            (CStr col2, nth i (firstn 10 b') CNaT);
            (CStr result_col, nth i (firstn 10 r) CNaT)]
      with ([(CStr col1, nth i (firstn 10 a') CNaT);
             (CStr col2, nth i (firstn 10 b') CNaT)]
              ++ [(CStr result_col, nth i (firstn 10 r) CNaT)])%list.
    rewrite dict_of_items_last. f_equal.
    rewrite nth_firstn.
    destruct (Nat.ltb_spec i 10) as [_|Hge]; [reflexivity | lia].
Qed.

Lemma math_operation_success_witness :
  exists info,
    Api.math_operation raise_binop staff_store "20240115_093000"
      "uploads/staff.xlsx" "add" "salary" "score" "total" None
    = ([(output_path "math_result_" "20240115_093000",
         Holds (setitem staff "total" [CFloat 100.5; CFloat 250; CFloat 2]))],
       Ok info) /\
    m_result_file info = output_path "math_result_" "20240115_093000" /\
    List.length (m_sample_results info) = Nat.min 10 (nrows staff) /\
    forall i, (i < Nat.min 10 (nrows staff))%nat ->
      exists record,
        nth_error (m_sample_results info) i = Some record /\
        assoc_get (CStr "total") record
        = Some (nth i [CFloat 100.5; CFloat 250; CFloat 2] CNaT).
Proof.
  apply (math_operation_success raise_binop staff_store "20240115_093000"
           "uploads/staff.xlsx" "add" "salary" "score" "total" None staff Add
           [CInt 100; CInt 250; CInt 0] [CFloat 0.5; CFloat 0; CFloat 2]
           [CFloat 100.5; CFloat 250; CFloat 2]).
  - reflexivity.
  - reflexivity.
  - reflexivity.
  - reflexivity.
  - vm_compute. reflexivity.
  - reflexivity.
Defined.

(** *** /operations/aggregate *)

Lemma for_each_invariant {A S : Type} (P : S -> Prop)
      (step : S -> A -> Result S) (xs : list A) (st st' : S) :
  (forall s x s', P s -> step s x = Ok s' -> P s') ->
  P st -> for_each step xs st = Ok st' -> P st'.
Proof.
  intros Hstep. revert st. induction xs as [|x xs IH]; intros st HP H;
    simpl in H.
  - now injection H as <-.
  - apply bind_ok in H as (s1 & Hs1 & H).
    apply (IH s1); [exact (Hstep _ _ _ HP Hs1) | exact H].
Qed.

Lemma agg_loop_keys_NoDup (object_agg : AggFunc -> Series -> Result Cell)
      (df : DataFrame) (cols funcs : list string) (d : dict) :
  agg_loop object_agg df cols funcs = Ok d -> NoDup (dict_keys d).
Proof.
  unfold agg_loop.
  apply (for_each_invariant (fun d => NoDup (dict_keys d))); [|constructor].
  intros s col s' Hs.
  apply (for_each_invariant (fun d => NoDup (dict_keys d))); [|exact Hs].
  intros s0 func s1 Hs0. rewrite agg_func_step_name.
  destruct (agg_of_name func) as [f|]; [|now intros [= <-]].
  unfold agg_store. intros H.
  apply bind_ok in H as (x & _ & H). apply bind_ok in H as (v & _ & [= <-]).
  now apply dict_keys_set_NoDup.
Qed.

Lemma assoc_set_fresh {V : Type} (k : Label) (v : V) (d : list (Label * V)) :
  ~ In k (map fst d) -> assoc_set k v d = (d ++ [(k, v)])%list.
Proof.
  induction d as [|[k' v'] d IH]; simpl; intros Hnin; [reflexivity|].
  destruct (cell_eqb k k') eqn:E.
  - apply cell_eqb_eq in E. subst. tauto.
  - rewrite IH; tauto.
Qed.

Lemma fold_assoc_set_NoDup {V : Type} (items acc : list (Label * V)) :
  NoDup (map fst (acc ++ items)%list) ->
  fold_left (fun d kv => assoc_set (fst kv) (snd kv) d) items acc
  = (acc ++ items)%list.
Proof.
  revert acc. induction items as [|[k v] items IH]; intros acc Hnd; simpl.
  - now rewrite app_nil_r.
  - rewrite assoc_set_fresh.
    + rewrite IH; rewrite <- app_assoc; [reflexivity | exact Hnd].
    + rewrite map_app in Hnd. simpl in Hnd.
      apply NoDup_remove_2 in Hnd. intros Hin. apply Hnd.
      apply in_or_app. now left.
Qed.

Lemma dict_of_items_NoDup {V : Type} (items : list (Label * V)) :
  NoDup (map fst items) -> dict_of_items items = items.
Proof. intros H. unfold dict_of_items. now rewrite fold_assoc_set_NoDup. Qed.

Lemma aggregations_ok (object_agg : AggFunc -> Series -> Result Cell)
      (df res : DataFrame) (cols funcs : list string) :
  aggregations object_agg df cols funcs = Ok res ->
  exists d, res = frame_of_record d /\ NoDup (dict_keys d).
Proof.
  unfold aggregations. intros H.
  apply try_except_ok in H; [|discriminate].
  apply bind_ok in H as (d & Hd & [= <-]).
  exists d. split; [reflexivity|]. exact (agg_loop_keys_NoDup _ _ _ _ _ Hd).
Qed.

(** X26.  When the engine's [aggregations] succeeds on the parsed lists
    (the two comma-separated texts, split and stripped) and stores at
    least one key, /operations/aggregate answers with the one row of the
    engine's table as its record: the keys in the order of the columns,
    each with the single cell of its column. *)
Theorem aggregate_data_record
        (object_agg : AggFunc -> Series -> Result Cell)
        (strip : string -> string)
        (st : Store) (file_path cols functions : string)
        (sheet_name : option string) (df res : DataFrame) :
  ExcelDataHandler.read_excel st file_path sheet_name = Ok df ->
  aggregations object_agg df (map strip (split_commas cols))
               (map strip (split_commas functions)) = Ok res ->
  columns res <> [] ->
  Api.aggregate_data object_agg strip st file_path cols functions sheet_name
  = Ok (mkAggregateInfo "success"
          (map (fun c => (fst c, nth 0 (snd c) CNaT)) (df_cols res))).
Proof.
  intros Hread Hagg Hne. unfold Api.aggregate_data.
  rewrite Hread. cbn [bind]. rewrite Hagg. cbn [bind].
  destruct (aggregations_ok _ _ _ _ _ Hagg) as (d & -> & Hnd).
  unfold to_records, columns in *.
  destruct (df_cols (frame_of_record d)) as [|c cs] eqn:Ecols;
    [contradiction|].
  cbn [nrows frame_of_record df_index range_index seq map List.length
       first_item bind try_except].
  unfold row_dict. rewrite dict_of_items_NoDup; [reflexivity|].
  rewrite map_map. cbn [fst]. rewrite <- Ecols.
  unfold frame_of_record. cbn [df_cols]. rewrite map_map. cbn [fst].
  unfold dict_keys in Hnd. rewrite <- (map_map fst CStr).
  apply Finite.Injective_map_NoDup; [|exact Hnd].
  intros x y [= ->]. reflexivity.
Qed.

Lemma aggregate_data_record_witness :
  Api.aggregate_data raise_agg strip_spaces staff_store "uploads/staff.xlsx"
    "salary, score" "sum, count" None
  = Ok (mkAggregateInfo "success"
          (map (fun c => (fst c, nth 0 (snd c) CNaT))
               (df_cols
                  (frame_of_record
                     [("salary_sum", CInt 350); ("salary_count", CInt 3);
                      ("score_sum", CFloat 2.5); ("score_count", CInt 3)])))).
Proof.
  apply (aggregate_data_record raise_agg strip_spaces staff_store
           "uploads/staff.xlsx" "salary, score" "sum, count" None staff).
  - reflexivity.
  - vm_compute. reflexivity.
  - discriminate.
Defined.

(** X27.  When none of the requested function names, split at the commas
    and stripped, is one of sum, mean, min, max, count, std,
    /operations/aggregate fails on a sheet that reads: the engine returns
    its table without columns, that table has no record, and taking the
    first record raises; the answer is a 500 with the detail "list index
    out of range". *)
Theorem aggregate_data_no_known_function
        (object_agg : AggFunc -> Series -> Result Cell)
        (strip : string -> string)
        (st : Store) (file_path cols functions : string)
        (sheet_name : option string) (df : DataFrame) :
  ExcelDataHandler.read_excel st file_path sheet_name = Ok df ->
  (forall func, In func (map strip (split_commas functions)) ->
                agg_of_name func = None) ->
  Api.aggregate_data object_agg strip st file_path cols functions sheet_name
  = Raise (HTTPException 500 "list index out of range").
Proof.
  intros Hread Hnone. unfold Api.aggregate_data.
  rewrite Hread. cbn [bind].
  unfold aggregations, agg_loop.
  rewrite for_each_skip; [reflexivity|].
  intros d col _. apply for_each_skip. intros d' func Hf.
  rewrite agg_func_step_name. now rewrite (Hnone func Hf).
Qed.

Lemma aggregate_data_no_known_function_witness :
  Api.aggregate_data raise_agg strip_spaces staff_store "uploads/staff.xlsx"
    "salary, score" "median, mode" None
  = Raise (HTTPException 500 "list index out of range").
Proof.
  apply (aggregate_data_no_known_function raise_agg strip_spaces staff_store
           "uploads/staff.xlsx" "salary, score" "median, mode" None staff).
  - reflexivity.
  - intros func [<-|[<-|[]]]; reflexivity.
Defined.

(** *** /operations/filter and /operations/pivot *)

Lemma head_nrows (n : nat) (df : DataFrame) :
  nrows (head n df) = Nat.min n (nrows df).
Proof. unfold nrows, head. simpl. apply length_firstn. Qed.

Lemma to_records_length (df : DataFrame) :
  (List.length (to_records df) <= nrows df)%nat.
Proof.
  unfold to_records. destruct (df_cols df); simpl; [lia|].
  rewrite length_map, length_seq. lia.
Qed.

(** X28.  When /operations/filter succeeds on a sheet that reads, the
    engine's [filter_data] succeeded on that sheet; the one file written
    is the result file of the answer and holds the whole filtered table;
    [rows_before] and [rows_after] are the row counts of the sheet and of
    the filtered table, so [rows_after] is at most [rows_before]; and the
    sample holds at most ten records. *)
Theorem filter_endpoint_answer
        (object_agg : AggFunc -> Series -> Result Cell)
        (parse_query : string -> option Expr)
        (object_cmp : Cmp -> Cell -> Cell -> Result bool)
        (st : Store) (stamp file_path condition : string)
        (sheet_name : option string) (df : DataFrame)
        (log : Written) (info : FilterInfo) :
  ExcelDataHandler.read_excel st file_path sheet_name = Ok df ->
  Api.filter_data object_agg parse_query object_cmp st stamp file_path
                  condition sheet_name = (log, Ok info) ->
  exists df1,
    filter_data parse_query object_cmp object_agg df condition = Ok df1 /\
    log = [(f_result_file info, Holds df1)] /\
    f_result_file info = output_path "filtered_" stamp /\
    f_rows_before info = nrows df /\
    f_rows_after info = nrows df1 /\
    (f_rows_after info <= f_rows_before info)%nat /\
    (List.length (f_sample_results info)
     <= Nat.min 10 (f_rows_after info))%nat.
Proof.
  intros Hread H. unfold Api.filter_data in H.
  apply io_try_ok in H; [|discriminate].
  rewrite Hread in H. cbn [io_lift io_bind] in H.
  unfold Api.DataOperationsEngine_filter_data in H.
  destruct (filter_data parse_query object_cmp object_agg df condition)
    as [df1|e] eqn:Hf; [|discriminate].
  cbn [io_bind] in H.
  unfold write_excel_io in H.
  destruct (ExcelDataHandler.write_excel st df1
              (output_path "filtered_" stamp)); [|discriminate].
  cbn [io_bind io_lift app] in H. injection H as <- <-.
  exists df1. cbn [f_result_file f_rows_before f_rows_after f_sample_results].
  repeat split; try reflexivity.
  - apply filter_data_inv in Hf as (e & m & _ & _ & ->).
    apply select_length_le.
  - rewrite <- head_nrows. apply to_records_length.
Qed.

Lemma filter_endpoint_answer_witness :
  exists df1,
    filter_data sample_parse_query raise_cmp raise_agg staff
      "salary > 50 and score <= 1" = Ok df1 /\
    [(output_path "filtered_" "20240115_093000",
      Holds (select_rows [true; true; false] staff))]
    = [(f_result_file staff_filter_answer, Holds df1)] /\
    f_result_file staff_filter_answer
    = output_path "filtered_" "20240115_093000" /\
    f_rows_before staff_filter_answer = nrows staff /\
    f_rows_after staff_filter_answer = nrows df1 /\
    (f_rows_after staff_filter_answer
     <= f_rows_before staff_filter_answer)%nat /\
    (List.length (f_sample_results staff_filter_answer)
     <= Nat.min 10 (f_rows_after staff_filter_answer))%nat.
Proof.
  apply (filter_endpoint_answer raise_agg sample_parse_query raise_cmp
           staff_store "20240115_093000" "uploads/staff.xlsx"
           "salary > 50 and score <= 1" None staff).
  - reflexivity.
  - reflexivity.
Defined.

Lemma pivot_table_index_name
      (object_agg : AggFunc -> Series -> Result Cell)
      (named_agg : string -> Series -> Result Cell)
      (df pv : DataFrame) (values index cols aggfunc : string) :
  pivot_table object_agg named_agg df values index cols aggfunc = Ok pv ->
  df_index_name pv = Some index.
Proof.
  unfold pivot_table. intros H. apply try_except_ok in H; [|discriminate].
  unfold pd_pivot_table in H.
  apply bind_ok in H as (vs & _ & H).
  apply bind_ok in H as (ixs & _ & H).
  apply bind_ok in H as (cs & _ & H).
  apply bind_ok in H as (agged & _ & H).
  now injection H as <-.
Qed.

(** X29.  When /operations/pivot succeeds on a sheet that reads, the
    engine's [pivot_table] succeeded on that sheet and [pivot_shape] is
    the shape of its table; the one file written holds that table with
    its row labels turned into a first column named after the index
    column, so it has the rows of the pivot and one column more than the
    shape reports. *)
Theorem create_pivot_answer
        (object_agg : AggFunc -> Series -> Result Cell)
        (named_agg : string -> Series -> Result Cell)
        (st : Store) (stamp file_path values index cols aggfunc : string)
        (sheet_name : option string) (df : DataFrame)
        (log : Written) (info : PivotInfo) :
  ExcelDataHandler.read_excel st file_path sheet_name = Ok df ->
  Api.create_pivot object_agg named_agg st stamp file_path values index cols
                   aggfunc sheet_name = (log, Ok info) ->
  exists pv flat,
    pivot_table object_agg named_agg df values index cols aggfunc = Ok pv /\
    p_pivot_shape info = (nrows pv, List.length (columns pv)) /\
    p_result_file info = output_path "pivot_" stamp /\
    log = [(p_result_file info, Holds flat)] /\
    df_cols flat = (CStr index, df_index pv) :: df_cols pv /\
    nrows flat = nrows pv /\
    List.length (columns flat) = S (snd (p_pivot_shape info)).
Proof.
  intros Hread H. unfold Api.create_pivot in H.
  apply io_try_ok in H; [|discriminate].
  rewrite Hread in H. cbn [io_lift io_bind] in H.
  destruct (pivot_table object_agg named_agg df values index cols aggfunc)
    as [pv|e] eqn:Hp; [|discriminate].
  cbn [io_bind] in H.
  pose proof (pivot_table_index_name _ _ _ _ _ _ _ _ Hp) as Hname.
  unfold reset_index in H. rewrite Hname in H.
  destruct (has_label (CStr index) (df_cols pv)); [discriminate|].
  cbn [io_bind] in H. unfold write_excel_io in H.
  match type of H with
  | context [ExcelDataHandler.write_excel ?s ?d ?p] =>
      destruct (ExcelDataHandler.write_excel s d p); [|discriminate]
  end.
  cbn [io_bind io_lift app] in H. injection H as <- <-.
  eexists pv, _. cbn [p_pivot_shape p_result_file].
  split; [reflexivity|].
  split; [unfold columns; now rewrite length_map|].
  split; [reflexivity|]. split; [reflexivity|].
  cbn [df_cols]. split; [reflexivity|].
  split.
  - unfold nrows at 1. cbn [df_index]. apply range_index_length.
  - unfold columns. cbn [df_cols snd map List.length].
    now rewrite !length_map.
Qed.

Lemma create_pivot_answer_witness :
  exists pv flat,
    pivot_table raise_agg raise_named_agg sales "amount" "region" "quarter"
                "max" = Ok pv /\
    p_pivot_shape sales_pivot_answer = (nrows pv, List.length (columns pv)) /\
    p_result_file sales_pivot_answer
    = output_path "pivot_" "20240115_093000" /\
    [(output_path "pivot_" "20240115_093000", Holds sales_pivot_flat)]
    = [(p_result_file sales_pivot_answer, Holds flat)] /\
    df_cols flat = (CStr "region", df_index pv) :: df_cols pv /\
    nrows flat = nrows pv /\
    List.length (columns flat) = S (snd (p_pivot_shape sales_pivot_answer)).
Proof.
  apply (create_pivot_answer raise_agg raise_named_agg sales_store
           "20240115_093000" "uploads/sales.xlsx" "amount" "region" "quarter"
           "max" None sales).
  - reflexivity.
  - vm_compute. reflexivity.
Defined.

